(** * Email-PDF-Retriever: a shallow embedding of the two fetchers

    This development embeds the two scripts of the repository,

      - [email_pdf_retriever.py]  (generic IMAP, Fetcher A), and
      - [zimbra_pdf_retriever.py] (imap-tools client, Fetcher B),

    as Rocq functions and proves the properties their specification states.

    Python values are modelled as the code has them: a [str] is a list of
    Unicode code points, [bytes] a list of bytes, [None] an absent option,
    the file system a finite map from paths to contents, and the side
    effects of a run (printed lines, calls to the mail server, files) are
    threaded through an explicit world. *)

From Stdlib Require Import ZArith NArith List String Ascii Strings.Byte Lia.
From Stdlib Require Import DecimalString DecimalN Decimal.
From stdpp Require Import base option list gmap sets.

Local Open Scope N_scope.

Set Warnings "-clear-no-such-hyp".

(** ** Python strings *)

Module Py.

(** A Python [str]: a sequence of Unicode code points. *)
Abbreviation pystr := (list N) (only parsing).

(** A Python [bytes] object. *)
Abbreviation bytes := (list Byte.byte) (only parsing).

#[global] Instance byte_eq_decision : EqDecision Byte.byte := Byte.byte_eq_dec.

(** The [str] a literal of the source denotes. *)
Definition lit (s : string) : pystr :=
  map N_of_ascii (list_ascii_of_string s).

(** Truthiness of a string or bytes object: [if s:] holds when it is not
    empty. *)
Definition truthy {A} (s : list A) : bool :=
  match s with [] => false | _ :: _ => true end.

(** [s.startswith(p)]. *)
Fixpoint startswith (s p : pystr) : bool :=
  match p, s with
  | [], _ => true
  | _ :: _, [] => false
  | a :: p', b :: s' => (a =? b) && startswith s' p'
  end.

(** [s.endswith(p)]. *)
Definition endswith (s p : pystr) : bool :=
  startswith (rev s) (rev p).

(** [p in s] for strings: [p] occurs in [s] as a contiguous substring. *)
Fixpoint contains (s p : pystr) : bool :=
  startswith s p ||
  match s with
  | [] => false
  | _ :: s' => contains s' p
  end.

(** [s == t] on strings. *)
Definition str_eqb (s t : pystr) : bool := bool_decide (s = t).

(** [re.sub(r'[...]', repl, s)] for a pattern that is a single character
    class: the scan goes left to right, each character of the class is one
    match and is replaced by [repl], every other character is copied. *)
Fixpoint re_sub_class (cls : N -> bool) (repl : pystr) (s : pystr) : pystr :=
  match s with
  | [] => []
  | c :: s' =>
      if cls c then repl ++ re_sub_class cls repl s'
      else c :: re_sub_class cls repl s'
  end.

(** [str.lower] on a string of ASCII characters: the capital letters are
    mapped to the small ones.  (The scripts call the Unicode [str.lower];
    it is a parameter of their model, and this function stands for it in
    the worked examples.) *)
Definition ascii_lower (s : pystr) : pystr :=
  map (fun c => if (65 <=? c) && (c <=? 90) then c + 32 else c) s.

(** The decimal digit of [z] at the power of ten [k], as a character. *)
Definition digit_at (z : Z) (k : Z) : N :=
  Z.to_N (48 + (z / 10 ^ k) mod 10)%Z.

(** [str(n)] for a non-negative [int]: its decimal digits. *)
Definition str_of_N (n : N) : pystr :=
  lit (NilEmpty.string_of_uint (N.to_uint n)).

Definition str_of_nat (n : nat) : pystr := str_of_N (N.of_nat n).

(** [str(z)] for an [int]. *)
Definition str_of_Z (z : Z) : pystr :=
  if (z <? 0)%Z then lit "-" ++ str_of_N (Z.abs_N z)
  else str_of_N (Z.to_N z).

(** [format(z, '0{w}d')]: the decimal digits, padded with zeros on the
    left (after the sign) up to width [w]. *)
Definition format_0d (w : nat) (z : Z) : pystr :=
  if (z <? 0)%Z then
    let d := str_of_N (Z.abs_N z) in
    lit "-" ++ repeat 48 (w - 1 - length d) ++ d
  else
    let d := str_of_N (Z.to_N z) in
    repeat 48 (w - length d) ++ d.

(** [bytes.decode()]: strict UTF-8 (RFC 3629).  [None] stands for
    [UnicodeDecodeError]. *)
Definition cont (b : N) : bool := (128 <=? b) && (b <=? 191).

Fixpoint utf8_decode_N (bs : list N) : option pystr :=
  match bs with
  | [] => Some []
  | b0 :: r0 =>
      if b0 <? 128 then cons b0 <$> utf8_decode_N r0
      else match r0 with
      | [] => None
      | b1 :: r1 =>
          if (194 <=? b0) && (b0 <=? 223) then
            if cont b1
            then cons ((b0 - 192) * 64 + (b1 - 128)) <$> utf8_decode_N r1
            else None
          else match r1 with
          | [] => None
          | b2 :: r2 =>
              if (224 <=? b0) && (b0 <=? 239) then
                if cont b1 && cont b2
                   && negb ((b0 =? 224) && (b1 <? 160))
                   && negb ((b0 =? 237) && (159 <? b1))
                then cons ((b0 - 224) * 4096 + (b1 - 128) * 64 + (b2 - 128))
                       <$> utf8_decode_N r2
                else None
              else match r2 with
              | [] => None
              | b3 :: r3 =>
                  if (240 <=? b0) && (b0 <=? 244) then
                    if cont b1 && cont b2 && cont b3
                       && negb ((b0 =? 240) && (b1 <? 144))
                       && negb ((b0 =? 244) && (143 <? b1))
                    then cons ((b0 - 240) * 262144 + (b1 - 128) * 4096
                               + (b2 - 128) * 64 + (b3 - 128))
                           <$> utf8_decode_N r3
                    else None
                  else None
              end
          end
      end
  end.

Definition decode (b : bytes) : option pystr :=
  utf8_decode_N (map Byte.to_N b).

End Py.

Import Py.

(** The outcome of a call: a value, or a raised exception with its text. *)
Inductive result (A : Type) :=
  | Ok (a : A)
  | Raise (e : pystr).
Arguments Ok {A} a.
Arguments Raise {A} e.

(** ** Dates: the arithmetic of Python's [datetime] module *)

Module Datetime.

Local Open Scope Z_scope.

(** A naive [datetime.datetime] value (the microseconds, which no format
    of the scripts prints, are left out). *)
Record datetime := {
  year : Z; month : Z; day : Z;
  hour : Z; minute : Z; second : Z
}.

Definition _MAXORDINAL : Z := 3652059.
Definition _DI400Y : Z := 146097.
Definition _DI100Y : Z := 36524.
Definition _DI4Y : Z := 1461.

(** [_DAYS_IN_MONTH[m]] and [_DAYS_BEFORE_MONTH[m]]; index 0 holds [-1]. *)
Definition _DAYS_IN_MONTH (m : Z) : Z :=
  nth (Z.to_nat m) [-1; 31; 28; 31; 30; 31; 30; 31; 31; 30; 31; 30; 31] (-1).

Definition _DAYS_BEFORE_MONTH (m : Z) : Z :=
  nth (Z.to_nat m) [-1; 0; 31; 59; 90; 120; 151; 181; 212; 243; 273; 304; 334] (-1).

Definition _is_leap (y : Z) : bool :=
  (y mod 4 =? 0) && (negb (y mod 100 =? 0) || (y mod 400 =? 0)).

Definition _days_before_year (y : Z) : Z :=
  let y := y - 1 in y * 365 + y / 4 - y / 100 + y / 400.

Definition _days_before_month (y m : Z) : Z :=
  _DAYS_BEFORE_MONTH m + (if (2 <? m) && _is_leap y then 1 else 0).

Definition _ymd2ord (y m d : Z) : Z :=
  _days_before_year y + _days_before_month y m + d.

(** The month and day of the [n]-th day (from 0) of a year. *)
Definition month_day (leapyear : bool) (n : Z) : Z * Z :=
  let month := Z.shiftr (n + 50) 5 in
  let preceding :=
    _DAYS_BEFORE_MONTH month + (if (2 <? month) && leapyear then 1 else 0) in
  if n <? preceding then
    let month' := month - 1 in
    let preceding' :=
      preceding
      - (_DAYS_IN_MONTH month' + (if (month' =? 2) && leapyear then 1 else 0)) in
    (month', n - preceding' + 1)
  else (month, n - preceding + 1).

Definition _ord2ymd (n : Z) : Z * Z * Z :=
  let n := n - 1 in
  let n400 := n / _DI400Y in let n := n mod _DI400Y in
  let year := n400 * 400 + 1 in
  let n100 := n / _DI100Y in let n := n mod _DI100Y in
  let n4 := n / _DI4Y in let n := n mod _DI4Y in
  let n1 := n / 365 in let n := n mod 365 in
  let year := year + n100 * 100 + n4 * 4 + n1 in
  if (n1 =? 4) || (n100 =? 4) then (year - 1, 12, 31)
  else
    let leapyear := (n1 =? 3) && (negb (n4 =? 24) || (n100 =? 3)) in
    let '(m, d) := month_day leapyear n in
    (year, m, d).

Definition toordinal (t : datetime) : Z :=
  _ymd2ord (year t) (month t) (day t).

(** [t - timedelta(days=n)]: the date moves by whole days, the time of day
    stays; [None] stands for [OverflowError]. *)
Definition sub_days (t : datetime) (n : Z) : option datetime :=
  let o := toordinal t - n in
  if (0 <? o) && (o <=? _MAXORDINAL) then
    let '(y, m, d) := _ord2ymd o in
    Some {| year := y; month := m; day := d;
            hour := hour t; minute := minute t; second := second t |}
  else None.

(** [%b] in the C locale. *)
Definition month_abbr (m : Z) : pystr :=
  lit (nth (Z.to_nat (m - 1))
         ["Jan"; "Feb"; "Mar"; "Apr"; "May"; "Jun";
          "Jul"; "Aug"; "Sep"; "Oct"; "Nov"; "Dec"]%string EmptyString).

(** [t.strftime("%d-%b-%Y")].  [%Y] is rendered with four digits, which is
    what every platform prints for the years from 1000 on. *)
Definition strftime_d_b_Y (t : datetime) : pystr :=
  format_0d 2 (day t) ++ lit "-" ++ month_abbr (month t) ++ lit "-"
  ++ format_0d 4 (year t).

(** [t.strftime("%Y%m%d_%H%M%S")]. *)
Definition strftime_stamp (t : datetime) : pystr :=
  format_0d 4 (year t) ++ format_0d 2 (month t) ++ format_0d 2 (day t)
  ++ lit "_"
  ++ format_0d 2 (hour t) ++ format_0d 2 (minute t) ++ format_0d 2 (second t).

End Datetime.

Import Datetime.

(** [test] holds of the [count] integers from [start] on. *)
Fixpoint forall_from (test : Z -> bool) (count : nat) (start : Z) : bool :=
  match count with
  | O => true
  | S count' => test start && forall_from test count' (start + 1)%Z
  end.

(** ** Paths and the file system *)

Module Os.

(** Index of the last occurrence of [c] in [s], or [-1]: [s.rfind(c)]. *)
Fixpoint rfind_from (c : N) (s : pystr) (i last : Z) : Z :=
  match s with
  | [] => last
  | x :: s' => rfind_from c s' (i + 1)%Z (if x =? c then i else last)
  end.

Definition rfind (c : N) (s : pystr) : Z := rfind_from c s 0%Z (-1)%Z.

Definition sep : N := 47.
Definition extsep : N := 46.

(** [os.path.join(a, b)] (posixpath). *)
Definition join (a b : pystr) : pystr :=
  if startswith b [sep] then b
  else if negb (truthy a) || endswith a [sep] then a ++ b
  else a ++ [sep] ++ b.

(** What [join a] puts before a name that does not start with a
    separator; it depends on [a] only (see [join_relative]). *)
Definition join_prefix (a : pystr) : pystr :=
  if negb (truthy a) || endswith a [sep] then a else a ++ [sep].

(** [os.path.splitext(p)] (genericpath._splitext with [sep = '/'], no
    [altsep], [extsep = '.']): the extension starts at the last dot of the
    last component, unless only dots precede it there. *)
Definition splitext (p : pystr) : pystr * pystr :=
  let sepIndex := rfind sep p in
  let dotIndex := rfind extsep p in
  if (sepIndex <? dotIndex)%Z then
    let between :=
      take (Z.to_nat (dotIndex - (sepIndex + 1)))
           (drop (Z.to_nat (sepIndex + 1)) p) in
    if existsb (fun c => negb (c =? extsep)) between
    then (take (Z.to_nat dotIndex) p, drop (Z.to_nat dotIndex) p)
    else (p, [])
  else (p, []).

(** The file system: the directories and the regular files that exist,
    the latter with their contents.  Paths are compared as written. *)
Record filesystem := {
  dirs : gset pystr;
  files : gmap pystr bytes
}.

(** Every path that names something. *)
Definition existing (fs : filesystem) : gset pystr :=
  dirs fs ∪ dom (files fs).

(** [os.path.exists(p)]. *)
Definition exists_ (fs : filesystem) (p : pystr) : bool :=
  bool_decide (p ∈ existing fs).

(** The proper ancestors of a path: its prefixes that end before a
    separator. *)
Fixpoint ancestors_from (done todo : pystr) : list pystr :=
  match todo with
  | [] => []
  | c :: todo' =>
      (if (c =? sep) && truthy done then [done] else [])
      ++ ancestors_from (done ++ [c]) todo'
  end.

(** [os.makedirs(p)] where it succeeds: the leaf directory and the
    intermediate ones.  The disk is one on which a directory can always be
    made; the refusals of the real call (an empty path, a regular file
    among the ancestors, a missing permission) are not modelled, so what
    is proved of a run that makes a directory is proved of the runs in
    which the directory can be made. *)
Definition makedirs (fs : filesystem) (p : pystr) : filesystem :=
  {| dirs := dirs fs ∪ list_to_set (ancestors_from [] p) ∪ {[ p ]};
     files := files fs |}.

(** [with open(p, "wb") as f: f.write(data)] on an opened file: the file
    is created or truncated, then filled.  Opening is refused for a path
    that names a directory; the other refusals of the real call (a parent
    that is missing or is a regular file, a missing permission) are not
    modelled. *)
Definition open_wb (fs : filesystem) (p : pystr) : result filesystem :=
  if bool_decide (p ∈ dirs fs) then Raise (lit "IsADirectoryError")
  else Ok {| dirs := dirs fs; files := <[ p := [] ]> (files fs) |}.

Definition write (fs : filesystem) (p : pystr) (data : bytes) : filesystem :=
  {| dirs := dirs fs; files := <[ p := data ]> (files fs) |}.

End Os.

(** ** Effects: a state and exception monad

    A computation reads and updates a state [W] and either returns a value
    or raises; the state reached when it raises is kept, as the files
    written and the lines printed before a Python exception are. *)

Definition M (W A : Type) : Type := W -> result A * W.

Definition ret {W A} (a : A) : M W A := fun w => (Ok a, w).

Definition bind {W A B} (m : M W A) (k : A -> M W B) : M W B :=
  fun w =>
    match m w with
    | (Ok a, w') => k a w'
    | (Raise e, w') => (Raise e, w')
    end.

Definition raise {W A} (e : pystr) : M W A := fun w => (Raise e, w).

(** [try: m  except Exception as e: h e]. *)
Definition try_except {W A} (m : M W A) (h : pystr -> M W A) : M W A :=
  fun w =>
    match m w with
    | (Ok a, w') => (Ok a, w')
    | (Raise e, w') => h e w'
    end.

Definition get {W} : M W W := fun w => (Ok w, w).
Definition modify {W} (f : W -> W) : M W unit := fun w => (Ok tt, f w).

Definition lift {W A} (r : result A) : M W A :=
  match r with Ok a => ret a | Raise e => raise e end.

Definition when {W} (b : bool) (m : M W unit) : M W unit :=
  if b then m else ret tt.

(** The monad is registered with stdpp's classes, which gives the
    notations [x ← m; k] and [m;; k]. *)
#[global] Instance M_ret {W} : MRet (M W) := @ret W.
#[global] Instance M_bind {W} : MBind (M W) := fun A B k m => bind m k.

(** [for i, x in enumerate(l, start): f i x]. *)
Fixpoint for_enumerate {W X} (f : nat -> X -> M W unit) (start : nat)
    (l : list X) : M W unit :=
  match l with
  | [] => ret tt
  | x :: l' => f start x;; for_enumerate f (S start) l'
  end.

(** [for x in l: f x]. *)
Definition for_each {W X} (f : X -> M W unit) (l : list X) : M W unit :=
  for_enumerate (fun _ => f) 0%nat l.

(** ** Filename sanitisation (both fetchers) *)

(** The character class of the pattern given to [re.sub], by code point:
    backslash (92), slash (47), star (42), question mark (63), colon (58),
    double quote (34), less-than (60), greater-than (62) and vertical
    bar (124). *)
Definition reserved_chars : list N :=
  [92; 47; 42; 63; 58; 34; 60; 62; 124].

Definition reserved (c : N) : bool :=
  existsb (N.eqb c) reserved_chars.

Definition underscore : pystr := lit "_".

Definition default_name : pystr := lit "unnamed_attachment.pdf".

(** What a caller can hand to [clean_filename]. *)
Inductive pyarg :=
  | PyNone
  | PyStr (s : pystr)
  | PyBytes (b : bytes).

Module FetcherA_clean.

(** [clean_filename] of email_pdf_retriever.py. *)
Definition clean_filename (filename : pyarg) : result pystr :=
  match filename with
  | PyStr s =>
      if truthy s then Ok (re_sub_class reserved underscore s)
      else Ok default_name
  | PyBytes b =>
      if truthy b then
        match decode b with
        | Some s => Ok (re_sub_class reserved underscore s)
        | None => Raise (lit "UnicodeDecodeError")
        end
      else Ok default_name
  | PyNone => Ok default_name
  end.

End FetcherA_clean.

Module FetcherB_clean.

(** [clean_filename] of zimbra_pdf_retriever.py, on [None] or a [str]. *)
Definition clean_filename (filename : option pystr) : pystr :=
  match filename with
  | Some s =>
      if truthy s then re_sub_class reserved underscore s
      else default_name
  | None => default_name
  end.

End FetcherB_clean.

(** A property of the state that a computation keeps, whether it
    returns or raises. *)
Definition preserved {W A} (I : W -> Prop) (m : M W A) : Prop :=
  forall (w : W) (r : result A) (w' : W), m w = (r, w') -> I w -> I w'.

(** ** Fetcher B: zimbra_pdf_retriever.py *)

Module FetcherB.

Import Os.

Definition clean_filename := FetcherB_clean.clean_filename.

(** An attachment and a message as the imap-tools objects show them.  The
    script reads the file name and the payload of an attachment; its
    content type is there as well and is never looked at. *)
Record attachment := {
  att_filename : pystr;
  att_content_type : pystr;
  att_payload : bytes
}.

Record message := {
  msg_subject : pystr;
  msg_date : datetime;
  msg_attachments : list attachment
}.

(** A calendar date, [datetime.date]. *)
Record date := {
  date_year : Z;
  date_month : Z;
  date_day : Z
}.

(** The search predicates the script builds: [AND(seen=...)],
    [AND(subject=...)], [AND(date_gte=...)], and [AND] applied to the list
    [criteria]. *)
Inductive criterion :=
  | seen (b : bool)
  | subject (s : pystr)
  | date_gte (d : date).

Inductive keyword_query :=
  | AND_kw (c : criterion).

(** What a caller can give for [date_gte]: a [datetime.date] or a
    [datetime.datetime]. *)
Inductive date_value :=
  | PyDate (d : date)
  | PyDatetime (t : datetime).

(** [AND(date_gte=value)].  imap-tools checks the value when the query is
    built, with [type(value) is not datetime.date], and raises TypeError
    for everything else: a [datetime.datetime] is not accepted. *)
Definition AND_date_gte (value : date_value) : result keyword_query :=
  match value with
  | PyDate d => Ok (AND_kw (date_gte d))
  | PyDatetime _ => Raise (lit "TypeError")
  end.

Inductive query :=
  | AND (qs : list keyword_query).

(** What iterating [mailbox.fetch(...)] produces at each step: a message,
    whose reading may raise when it is malformed, or an exception of the
    generator itself. *)
Inductive item :=
  | Yield (m : result message)
  | GenRaise (e : pystr).

(** The mail library and server, as the script observes them.  [MailBox],
    [login] and [logout] are [None] when the call returns and hold the
    exception when it raises; [fetch n q] is what the [n]-th call of
    [mailbox.fetch] yields. *)
Record mail_library := {
  MailBox : pystr -> Z -> option pystr;
  login : pystr -> pystr -> pystr -> option pystr;
  fetch : nat -> option query -> list item;
  logout : option pystr
}.

Inductive call :=
  | CallMailBox (server : pystr) (port : Z)
  | CallLogin (email password folder : pystr)
  | CallFetch (q : option query)
  | CallLogout.

(** The lines the script prints, one constructor per [print]. *)
Inductive printed :=
  | CreatedDirectory (d : pystr)
  | Connecting (server email : pystr)
  | LoggedIn (folder : pystr)
  | SearchCriteria (q : option query)
  | Found (total : nat)
  | Processing (i total : nat) (subject : pystr)
  | SavingTo (folder : pystr)
  | Downloading (filename : pystr)
  | Saved (path : pystr)
  | LoggedOut
  | Error (e : pystr)
  | EnsureCorrect
  | DownloadedCount (n : nat).

Record state := {
  fs : filesystem;
  out : list printed;
  calls : list call;
  downloaded_files : list pystr
}.

Definition print (l : printed) : M state unit :=
  modify (fun w => {| fs := fs w; out := out w ++ [l]; calls := calls w;
                      downloaded_files := downloaded_files w |}).

Definition called (c : call) : M state unit :=
  modify (fun w => {| fs := fs w; out := out w; calls := calls w ++ [c];
                      downloaded_files := downloaded_files w |}).

Definition set_fs (f : filesystem) : M state unit :=
  modify (fun w => {| fs := f; out := out w; calls := calls w;
                      downloaded_files := downloaded_files w |}).

Definition append_downloaded (p : pystr) : M state unit :=
  modify (fun w => {| fs := fs w; out := out w; calls := calls w;
                      downloaded_files := downloaded_files w ++ [p] |}).

(** The name of the monthly folder: [f"{year}-{month:02d}"]. *)
Definition folder_name_of (email_date : datetime) : pystr :=
  str_of_Z (year email_date) ++ lit "-" ++ format_0d 2 (month email_date).

Definition get_monthly_folder (email_date : datetime)
    (base_output_dir : pystr) : M state pystr :=
  let folder_name := folder_name_of email_date in
  let monthly_folder := join base_output_dir folder_name in
  w ← get;
  when (negb (exists_ (fs w) monthly_folder))
       (set_fs (makedirs (fs w) monthly_folder));;
  ret monthly_folder.

(** The loop [while os.path.exists(final_path): ...], run for at most
    [fuel] tests of the condition. *)
Fixpoint probe (fuel : nat) (f : filesystem)
    (monthly_folder base_name ext : pystr) (counter : nat)
    (final_path : pystr) : option pystr :=
  match fuel with
  | O => None
  | S fuel' =>
      if exists_ f final_path then
        let new_filename :=
          base_name ++ lit "_" ++ str_of_nat counter ++ ext in
        probe fuel' f monthly_folder base_name ext (S counter)
              (join monthly_folder new_filename)
      else Some final_path
  end.

(** The path tried when the counter is [k]. *)
Definition candidate (monthly_folder base_name ext : pystr) (k : nat) : pystr :=
  join monthly_folder (base_name ++ lit "_" ++ str_of_nat k ++ ext).

(** The path the loop ends with.  One test more than there are existing
    paths is always enough (see [probe_total]). *)
Definition unique_path (f : filesystem) (monthly_folder filename : pystr)
    : option pystr :=
  let '(base_name, ext) := splitext filename in
  probe (S (size (existing f))) f monthly_folder base_name ext 1%nat
        (join monthly_folder filename).

Section Run.

Context (lib : mail_library).
(** [datetime.now()] and [str.lower]. *)
Context (now : datetime) (lower : pystr -> pystr).

(** The body of the loop over [msg.attachments]. *)
Definition save_attachment (monthly_folder : pystr) (att : attachment)
    : M state unit :=
  if endswith (lower (att_filename att)) (lit ".pdf") then
    let filename := clean_filename (Some (att_filename att)) in
    print (Downloading filename);;
    w ← get;
    match unique_path (fs w) monthly_folder filename with
    | None => raise (lit "the loop does not end")
    | Some final_path =>
        f ← lift (open_wb (fs w) final_path);
        set_fs (write f final_path (att_payload att));;
        append_downloaded final_path;;
        print (Saved final_path)
    end
  else ret tt.

(** The body of the loop over the messages. *)
Definition process_message (output_dir : pystr) (debug : bool)
    (total_messages : nat) (i : nat) (it : item) : M state unit :=
  match it with
  | GenRaise e => raise e
  | Yield m =>
      msg ← lift m;
      let subject := clean_filename (Some (msg_subject msg)) in
      print (Processing i total_messages subject);;
      let email_date := msg_date msg in
      monthly_folder ← get_monthly_folder email_date output_dir;
      when debug (print (SavingTo monthly_folder));;
      when (truthy (msg_attachments msg))
           (for_each (save_attachment monthly_folder) (msg_attachments msg))
  end.

(** [sum(1 for _ in messages)]. *)
Fixpoint count_items (l : list item) (n : nat) : M state nat :=
  match l with
  | [] => ret n
  | GenRaise e :: _ => raise e
  | Yield _ :: l' => count_items l' (S n)
  end.

Definition or_raise (r : option pystr) : M state unit :=
  match r with None => ret tt | Some e => raise e end.

(** Truthiness of [days_limit] and of [search_term]. *)
Definition truthy_int (z : option Z) : option Z :=
  match z with Some n => if (n =? 0)%Z then None else Some n | None => None end.

Definition truthy_str (s : option pystr) : option pystr :=
  match s with Some t => if truthy t then Some t else None | None => None end.

(** The criteria gathered before the date limit. *)
Definition other_criteria (only_unread : bool) (search_term : option pystr)
    : list keyword_query :=
  (if only_unread then [AND_kw (seen false)] else [])
  ++ match truthy_str search_term with
     | Some t => [AND_kw (subject t)]
     | None => []
     end.

(** The list [criteria] of the script. *)
Definition build_criteria (only_unread : bool) (search_term : option pystr)
    (days_limit : option Z) : M state (list keyword_query) :=
  let criteria := [] in
  let criteria :=
    if only_unread then criteria ++ [AND_kw (seen false)] else criteria in
  let criteria :=
    match truthy_str search_term with
    | Some t => criteria ++ [AND_kw (subject t)]
    | None => criteria
    end in
  match truthy_int days_limit with
  | Some n =>
      match sub_days now n with
      | Some date =>
          by_date ← lift (AND_date_gte (PyDatetime date));
          ret (criteria ++ [by_date])
      | None => raise (lit "OverflowError")
      end
  | None => ret criteria
  end.

(** The [try] block of [download_pdf_attachments]. *)
Definition session (email password server output_dir : pystr)
    (days_limit : option Z) (folder_name : pystr) (only_unread : bool)
    (search_term : option pystr) (debug : bool) : M state unit :=
  when debug (print (Connecting server email));;
  called (CallMailBox server 993%Z);;
  or_raise (MailBox lib server 993%Z);;
  called (CallLogin email password folder_name);;
  or_raise (login lib email password folder_name);;
  when debug (print (LoggedIn folder_name));;
  criteria ← build_criteria only_unread search_term days_limit;
  let search_criteria :=
    if truthy criteria then Some (AND criteria) else None in
  when debug (print (SearchCriteria search_criteria));;
  called (CallFetch search_criteria);;
  let messages := fetch lib 0%nat search_criteria in
  total_messages ← count_items messages 0%nat;
  called (CallFetch search_criteria);;
  let messages := fetch lib 1%nat search_criteria in
  print (Found total_messages);;
  for_enumerate (process_message output_dir debug total_messages) 1%nat
                messages;;
  called CallLogout;;
  or_raise (logout lib);;
  when debug (print LoggedOut).

Definition download_pdf_attachments (email password server output_dir : pystr)
    (days_limit : option Z) (folder_name : pystr) (only_unread : bool)
    (search_term : option pystr) (debug : bool)
    (fs0 : filesystem) : result (list pystr) * state :=
  let run : M state (list pystr) :=
    w ← get;
    when (negb (exists_ (fs w) output_dir))
         (set_fs (makedirs (fs w) output_dir);;
          print (CreatedDirectory output_dir));;
    try_except
      (session email password server output_dir days_limit folder_name
               only_unread search_term debug)
      (fun e => print (Error e);; print EnsureCorrect);;
    w ← get;
    print (DownloadedCount (length (downloaded_files w)));;
    ret (downloaded_files w)
  in
  run {| fs := fs0; out := []; calls := []; downloaded_files := [] |}.

End Run.

(** A stream cut after its first malformed message. *)
Fixpoint cut (l : list item) : list item :=
  match l with
  | [] => []
  | Yield (Ok m) :: l' => Yield (Ok m) :: cut l'
  | it :: _ => [it]
  end.

(** The library whose second call of [fetch], the one the loop iterates
    over, yields the stream cut in this way. *)
Definition cut_lib (lib : mail_library) : mail_library :=
  {| MailBox := MailBox lib;
     login := login lib;
     fetch := fun n q =>
       if Nat.eqb n 1 then cut (fetch lib n q) else fetch lib n q;
     logout := logout lib |}.

(** The state the [try] block starts in: the output directory has been
    created when it was missing. *)
Definition session_start (output_dir : pystr) (fs0 : filesystem) : state :=
  if exists_ fs0 output_dir then
    {| fs := fs0; out := []; calls := []; downloaded_files := [] |}
  else
    {| fs := makedirs fs0 output_dir;
       out := [CreatedDirectory output_dir];
       calls := []; downloaded_files := [] |}.

(** The state the run ends in, after the lines in [last] and the count
    have been printed. *)
Definition finished (last : list printed) (w : state) : state :=
  {| fs := fs w;
     out := (out w ++ last)
            ++ [DownloadedCount (length (downloaded_files w))];
     calls := calls w;
     downloaded_files := downloaded_files w |}.

(** [data] is the payload of an attachment whose name ends in [.pdf], in
    a message the library yielded. *)
Definition from_pdf_attachment (lib : mail_library) (lower : pystr -> pystr)
    (data : bytes) : Prop :=
  exists (n : nat) (q : option query) (m : message) (a : attachment),
    Yield (Ok m) ∈ fetch lib n q
    /\ a ∈ msg_attachments m
    /\ endswith (lower (att_filename a)) (lit ".pdf") = true
    /\ data = att_payload a.

(** Every file is as it was in [fs0], or holds such a payload. *)
Definition files_from_pdf (lib : mail_library) (lower : pystr -> pystr)
    (fs0 : filesystem) (w : state) : Prop :=
  forall (path : pystr) (data : bytes),
    files (fs w) !! path = Some data ->
    files fs0 !! path = Some data \/ from_pdf_attachment lib lower data.

(** The state after an attachment has been saved at [q]. *)
Definition saved_state (att : attachment) (q : pystr) (w : state) : state :=
  {| fs := write (fs w) q (att_payload att);
     out := (out w ++ [Downloading (clean_filename (Some (att_filename att)))])
            ++ [Saved q];
     calls := calls w;
     downloaded_files := downloaded_files w ++ [q] |}.

End FetcherB.

(** ** Fetcher A: email_pdf_retriever.py *)

Module FetcherA.

Import Os.

Definition clean_filename := FetcherA_clean.clean_filename.

(** A MIME part as the script reads it: the Content-Disposition header as
    a string (empty when absent), [part.get_content_type()],
    [part.get_filename()] and [part.get_payload(decode=True)], which is
    [None] for a multipart container and for no other part. *)
Record part := {
  content_disposition : pystr;
  content_type : pystr;
  part_filename : option pystr;
  part_payload : option bytes
}.

(** A parsed message.  [msg_subject] is [None] when the Subject header is
    absent or empty, and otherwise the outcome of decoding the first chunk
    of the header (lines 98 to 100); [walk] lists the parts in the order
    [msg.walk()] visits them. *)
Record message := {
  msg_subject : option (result pystr);
  is_multipart : bool;
  walk : list part
}.

(** The IMAP server as the script observes it through imaplib.
    [IMAP4_SSL], [login], [select] and [logout] are [None] when the call
    returns and hold the exception when it raises; [search] answers with a
    status and the identifiers [messages[0].split()]; [fetch] with a
    status and the outcome of reading and parsing [msg_data[0][1]]. *)
Record imap_server := {
  IMAP4_SSL : pystr -> Z -> option pystr;
  login : pystr -> pystr -> option pystr;
  select : pystr -> option pystr;
  search : pystr -> result (pystr * list bytes);
  fetch : bytes -> result (pystr * result message);
  logout : option pystr
}.

(** The clock: [datetime.now()] when the search is built, and when part
    [j] of message [i] is saved. *)
Record clock := {
  now_run : datetime;
  now_save : nat -> nat -> datetime
}.

Inductive call :=
  | CallConnect (server : pystr) (port : Z)
  | CallLogin (email password : pystr)
  | CallSelect (mailbox : pystr)
  | CallSearch (criteria : pystr)
  | CallFetch (message_id : bytes)
  | CallLogout.

(** The lines the script prints, one constructor per [print]. *)
Inductive printed :=
  | CreatedDirectory (d : pystr)
  | ErrorConnecting (e : pystr)
  | Connected (server : pystr)
  | NoMessagesFound
  | Found (total : nat)
  | Processing (i total : nat)
  | ErrorFetching (message_id : bytes)
  | Downloaded (path : pystr)
  | ErrorProcessing (message_id : bytes) (e : pystr)
  | DownloadedCount (n : nat).

Record state := {
  fs : filesystem;
  out : list printed;
  calls : list call;
  downloaded_files : list pystr
}.

Definition print (l : printed) : M state unit :=
  modify (fun w => {| fs := fs w; out := out w ++ [l]; calls := calls w;
                      downloaded_files := downloaded_files w |}).

Definition called (c : call) : M state unit :=
  modify (fun w => {| fs := fs w; out := out w; calls := calls w ++ [c];
                      downloaded_files := downloaded_files w |}).

Definition set_fs (f : filesystem) : M state unit :=
  modify (fun w => {| fs := f; out := out w; calls := calls w;
                      downloaded_files := downloaded_files w |}).

Definition append_downloaded (p : pystr) : M state unit :=
  modify (fun w => {| fs := fs w; out := out w; calls := calls w;
                      downloaded_files := downloaded_files w ++ [p] |}).

Definition or_raise (r : option pystr) : M state unit :=
  match r with None => ret tt | Some e => raise e end.

Definition truthy_int (z : option Z) : option Z :=
  match z with Some n => if (n =? 0)%Z then None else Some n | None => None end.

(** The test of line 111. *)
Definition is_pdf_attachment (p : part) : bool :=
  contains (content_disposition p) (lit "attachment")
  && str_eqb (content_type p) (lit "application/pdf").

(** The name a part is saved under (line 117). *)
Definition unique_filename_of (subject timestamp clean_name : pystr) : pystr :=
  subject ++ lit "_" ++ timestamp ++ lit "_" ++ clean_name.

Section Run.

Context (srv : imap_server) (clk : clock).

(** The body of the loop over [msg.walk()], for part [j] of message [i]. *)
Definition process_part (output_dir subject : pystr) (i j : nat) (p : part)
    : M state unit :=
  if is_pdf_attachment p then
    match part_filename p with
    | Some filename =>
        if truthy filename then
          clean_name ← lift (clean_filename (PyStr filename));
          let timestamp := strftime_stamp (now_save clk i j) in
          let unique_filename :=
            unique_filename_of subject timestamp clean_name in
          let filepath := join output_dir unique_filename in
          w ← get;
          f ← lift (open_wb (fs w) filepath);
          set_fs f;;
          match part_payload p with
          | Some data => set_fs (write f filepath data)
          | None => raise (lit "TypeError")
          end;;
          print (Downloaded filepath);;
          append_downloaded filepath
        else ret tt
    | None => ret tt
    end
  else ret tt.

(** The subject used in the names (lines 95 to 103). *)
Definition subject_of (msg : message) : M state pystr :=
  match msg_subject msg with
  | Some decoded =>
      subject ← lift decoded;
      lift (clean_filename (PyStr subject))
  | None => ret (lit "no_subject")
  end.

(** The [try] block of the loop over the message identifiers. *)
Definition process_message (output_dir : pystr) (total_messages : nat)
    (i : nat) (message_id : bytes) : M state unit :=
  print (Processing (i + 1) total_messages);;
  called (CallFetch message_id);;
  '(status, data) ← lift (fetch srv message_id);
  if negb (str_eqb status (lit "OK")) then
    print (ErrorFetching message_id)
  else
    msg ← lift data;
    subject ← subject_of msg;
    when (is_multipart msg)
         (for_enumerate (process_part output_dir subject i) 0%nat (walk msg)).

(** One iteration of the loop over the message identifiers: a [try]
    block of its own (lines 80 to 126). *)
Definition iteration (output_dir : pystr) (total_messages : nat)
    (i : nat) (message_id : bytes) : M state unit :=
  try_except
    (process_message output_dir total_messages i message_id)
    (fun e => print (ErrorProcessing message_id e)).

(** The loop over the message identifiers (lines 79 to 126). *)
Definition message_loop (output_dir : pystr) (message_ids : list bytes)
    : M state unit :=
  let total_messages := length message_ids in
  for_enumerate (iteration output_dir total_messages) 0%nat message_ids.

(** The search string (lines 59 to 62). *)
Definition date_limited (search_criteria : pystr) (days_limit : option Z)
    : M state pystr :=
  match truthy_int days_limit with
  | Some n =>
      match sub_days (now_run clk) n with
      | Some d =>
          let date_criteria := strftime_d_b_Y d in
          ret (lit "(SINCE " ++ date_criteria ++ lit ") " ++ search_criteria)
      | None => raise (lit "OverflowError")
      end
  | None => ret search_criteria
  end.

Definition download_pdf_attachments (email_address password : pystr)
    (imap_server : pystr) (imap_port : Z) (search_criteria output_dir : pystr)
    (days_limit : option Z) (fs0 : filesystem)
    : result (list pystr) * state :=
  let run : M state (list pystr) :=
    w ← get;
    when (negb (exists_ (fs w) output_dir))
         (set_fs (makedirs (fs w) output_dir);;
          print (CreatedDirectory output_dir));;
    connected ←
      try_except
        (called (CallConnect imap_server imap_port);;
         or_raise (IMAP4_SSL srv imap_server imap_port);;
         called (CallLogin email_address password);;
         or_raise (login srv email_address password);;
         ret None)
        (fun e => print (ErrorConnecting e);; ret (Some e));
    match connected with
    | Some _ => ret []
    | None =>
        print (Connected imap_server);;
        called (CallSelect (lit "INBOX"));;
        or_raise (select srv (lit "INBOX"));;
        search_criteria ← date_limited search_criteria days_limit;
        called (CallSearch search_criteria);;
        '(status, message_ids) ← lift (search srv search_criteria);
        if negb (str_eqb status (lit "OK")) then
          print NoMessagesFound;;
          called CallLogout;;
          or_raise (logout srv);;
          ret []
        else
          let total_messages := length message_ids in
          print (Found total_messages);;
          message_loop output_dir message_ids;;
          called CallLogout;;
          or_raise (logout srv);;
          w ← get;
          print (DownloadedCount (length (downloaded_files w)));;
          ret (downloaded_files w)
    end
  in
  run {| fs := fs0; out := []; calls := []; downloaded_files := [] |}.

End Run.

(** The paths a computation appends to the result when run from [w]. *)
Definition appended {A} (m : M state A) (w : state) : list pystr :=
  drop (length (downloaded_files w)) (downloaded_files (m w).2).

(** Two states with the same directories. *)
Definition same_dirs (w1 w2 : state) : Prop :=
  dirs (fs w1) = dirs (fs w2).

(** A computation that, from two states with the same directories, ends
    the same way and appends the same paths, and creates no directory. *)
Definition uniform {A} (m : M state A) : Prop :=
  forall w1 w2 : state, same_dirs w1 w2 ->
    exists (r : result A) (added : list pystr) (w1' w2' : state),
      m w1 = (r, w1') /\ m w2 = (r, w2')
      /\ same_dirs w1 w1' /\ same_dirs w2 w2'
      /\ downloaded_files w1' = downloaded_files w1 ++ added
      /\ downloaded_files w2' = downloaded_files w2 ++ added.

(** [path] is where a part of a fetched message was saved: a part that is
    an attachment of type application/pdf and has a file name; [data] is
    its payload, or nothing when the write did not happen. *)
Definition from_pdf_part (srv : imap_server) (output_dir path : pystr)
    (data : bytes) : Prop :=
  exists (message_id : bytes) (status : pystr) (msg : message) (p : part)
         (filename subject : pystr) (t : datetime),
    fetch srv message_id = Ok (status, Ok msg)
    /\ p ∈ walk msg
    /\ contains (content_disposition p) (lit "attachment") = true
    /\ content_type p = lit "application/pdf"
    /\ part_filename p = Some filename /\ filename <> []
    /\ path = join output_dir
                (unique_filename_of subject (strftime_stamp t)
                   (re_sub_class reserved underscore filename))
    /\ (data = [] \/ part_payload p = Some data).

(** [path] is named after a part of a fetched message: the output
    directory joined with the subject of the message as lines 95 to 103
    work it out, a time stamp, and the cleaned file name of a part of the
    message that passes the test of line 111 and whose file name is not
    empty. *)
Definition named_after_part (srv : imap_server) (output_dir path : pystr)
    : Prop :=
  exists (message_id : bytes) (status : pystr) (msg : message) (p : part)
         (filename subject clean_name : pystr) (t : datetime),
    fetch srv message_id = Ok (status, Ok msg)
    /\ p ∈ walk msg
    /\ is_pdf_attachment p = true
    /\ part_filename p = Some filename /\ filename <> []
    /\ (forall w : state, subject_of msg w = (Ok subject, w))
    /\ clean_filename (PyStr filename) = Ok clean_name
    /\ clean_name = re_sub_class reserved underscore filename
    /\ path = join output_dir
                (unique_filename_of subject (strftime_stamp t) clean_name).

(** Every file is as it was in [fs0] or was saved from such a part, and
    so was every path in the result. *)
Definition files_from_pdf (srv : imap_server) (output_dir : pystr)
    (fs0 : filesystem) (w : state) : Prop :=
  (forall (path : pystr) (data : bytes),
     files (fs w) !! path = Some data ->
     files fs0 !! path = Some data \/ from_pdf_part srv output_dir path data)
  /\ (forall path : pystr,
        path ∈ downloaded_files w ->
        exists data : bytes, from_pdf_part srv output_dir path data).

End FetcherA.

(** ** The mail server the first script talks to

    What [mail.search] returns is decided by the server.  This is a server
    that follows RFC 3501 on the criteria the script can send: [ALL],
    [UNSEEN], and either of them behind [(SINCE dd-Mon-yyyy)].  Section
    6.4.4 of the RFC: the keys of a search are taken together (AND), and
    [SINCE date] selects the messages whose internal date, disregarding
    time and timezone, is within or later than the specified date. *)

Module ImapServer.

Local Open Scope Z_scope.

(** A message in the mailbox: its identifier, its internal date, whether
    it has been seen, and what fetching and parsing it gives. *)
Record stored := {
  uid : bytes;
  internal_date : datetime;
  seen_flag : bool;
  parsed : result FetcherA.message
}.

(** The Stdlib string of a Python string of ASCII characters. *)
Definition unlit (s : pystr) : string :=
  string_of_list_ascii (map ascii_of_N s).

(** The number a string of decimal digits denotes. *)
Definition parse_number (s : pystr) : option Z :=
  (fun d => Z.of_N (N.of_uint d)) <$> NilEmpty.uint_of_string (unlit s).

(** The month a three-letter abbreviation denotes. *)
Definition parse_month (s : pystr) : option Z :=
  (fun found => Z.of_nat found.1 + 1) <$>
    list_find (fun name => name = s)
      (map lit ["Jan"; "Feb"; "Mar"; "Apr"; "May"; "Jun";
                "Jul"; "Aug"; "Sep"; "Oct"; "Nov"; "Dec"]%string).

(** The day number of a date written [dd-Mon-yyyy]. *)
Definition parse_date (s : pystr) : option Z :=
  if negb (bool_decide (s !! 2%nat = Some 45%N)
           && bool_decide (s !! 6%nat = Some 45%N)) then None
  else
    d ← parse_number (take 2 s);
    m ← parse_month (take 3 (drop 3 s));
    y ← parse_number (drop 7 s);
    Some (_ymd2ord y m d).

(** A string cut before the first occurrence of a character. *)
Fixpoint break_at (c : N) (s : pystr) : pystr * pystr :=
  match s with
  | [] => ([], [])
  | x :: s' =>
      if (x =? c)%N then ([], s)
      else let '(before, rest) := break_at c s' in (x :: before, rest)
  end.

(** The keys without a date. *)
Definition plain_key (s : pystr) : option (stored -> bool) :=
  if str_eqb s (lit "ALL") then Some (fun _ => true)
  else if str_eqb s (lit "UNSEEN") then Some (fun m => negb (seen_flag m))
  else None.

(** [SINCE date]: the day of the internal date is the given day or a
    later one. *)
Definition since (day_number : Z) (m : stored) : bool :=
  day_number <=? toordinal (internal_date m).

(** The criteria as a test on messages; [None] when the server does not
    understand them. *)
Definition criteria_test (criteria : pystr) : option (stored -> bool) :=
  if startswith criteria (lit "(SINCE ") then
    let '(date, rest) := break_at 41%N (drop 7 criteria) in
    if startswith rest (lit ") ") then
      day_number ← parse_date date;
      key ← plain_key (drop 2 rest);
      Some (fun m => since day_number m && key m)
    else None
  else plain_key criteria.

Definition search (mailbox : list stored) (criteria : pystr)
    : result (pystr * list bytes) :=
  match criteria_test criteria with
  | Some test => Ok (lit "OK", map uid (filter (fun m => test m = true) mailbox))
  | None => Raise (lit "SEARCH command error: BAD")
  end.

Definition fetch (mailbox : list stored) (message_id : bytes)
    : result (pystr * result FetcherA.message) :=
  match list_find (fun m => uid m = message_id) mailbox with
  | Some (_, m) => Ok (lit "OK", parsed m)
  | None => Ok (lit "OK", Raise (lit "TypeError"))
  end.

Definition server (mailbox : list stored) : FetcherA.imap_server :=
  {| FetcherA.IMAP4_SSL := fun _ _ => None;
     FetcherA.login := fun _ _ => None;
     FetcherA.select := fun _ => None;
     FetcherA.search := search mailbox;
     FetcherA.fetch := fetch mailbox;
     FetcherA.logout := None |}.

(** The seconds from the start of the calendar to a moment. *)
Definition seconds_of (t : datetime) : Z :=
  toordinal t * 86400 + hour t * 3600 + minute t * 60 + second t.

End ImapServer.

(** ** Data for the worked examples *)

Module Examples.

Import Os.

Definition empty_fs : filesystem := {| dirs := ∅; files := ∅ |}.

Definition may_2025 : datetime :=
  {| year := 2025; month := 5; day := 17;
     hour := 9; minute := 30; second := 0 |}.

Definition payload_of (s : string) : bytes :=
  map byte_of_ascii (list_ascii_of_string s).

Definition attachment_of (n content_type content : string)
    : FetcherB.attachment :=
  {| FetcherB.att_filename := lit n;
     FetcherB.att_content_type := lit content_type;
     FetcherB.att_payload := payload_of content |}.

(** A PDF document under the name [n]. *)
Definition named (n : string) (content : string) : FetcherB.attachment :=
  attachment_of n "application/pdf" content.

(** A picture sent under a name that ends in [.pdf]: the type is that of
    a PNG image and the payload starts as every PNG file does. *)
Definition png_signature : bytes :=
  [Byte.x89; Byte.x50; Byte.x4e; Byte.x47;
   Byte.x0d; Byte.x0a; Byte.x1a; Byte.x0a].

Definition photo_named_pdf : FetcherB.attachment :=
  {| FetcherB.att_filename := lit "photo.pdf";
     FetcherB.att_content_type := lit "image/png";
     FetcherB.att_payload := png_signature |}.

Definition startB (f : filesystem) : FetcherB.state :=
  {| FetcherB.fs := f; FetcherB.out := []; FetcherB.calls := [];
     FetcherB.downloaded_files := [] |}.

Definition startA (f : filesystem) : FetcherA.state :=
  {| FetcherA.fs := f; FetcherA.out := []; FetcherA.calls := [];
     FetcherA.downloaded_files := [] |}.

(** A mailbox of three messages for the second script: the first and the
    third carry one PDF each, the second is malformed. *)
Definition mailB (subject file : string) : FetcherB.message :=
  {| FetcherB.msg_subject := lit subject;
     FetcherB.msg_date := may_2025;
     FetcherB.msg_attachments := [named file "%PDF"] |}.

Definition streamB : list FetcherB.item :=
  [FetcherB.Yield (Ok (mailB "first" "a.pdf"));
   FetcherB.Yield (Raise (lit "malformed"));
   FetcherB.Yield (Ok (mailB "third" "c.pdf"))].

Definition libB : FetcherB.mail_library :=
  {| FetcherB.MailBox := fun _ _ => None;
     FetcherB.login := fun _ _ _ => None;
     FetcherB.fetch := fun _ _ => streamB;
     FetcherB.logout := None |}.

(** A mailbox with one message, which carries the picture. *)
Definition lib_photo : FetcherB.mail_library :=
  {| FetcherB.MailBox := fun _ _ => None;
     FetcherB.login := fun _ _ _ => None;
     FetcherB.fetch := fun _ _ =>
       [FetcherB.Yield
          (Ok {| FetcherB.msg_subject := lit "holiday";
                 FetcherB.msg_date := may_2025;
                 FetcherB.msg_attachments := [photo_named_pdf] |})];
     FetcherB.logout := None |}.

Definition runB (lib : FetcherB.mail_library) :=
  FetcherB.download_pdf_attachments lib may_2025 ascii_lower
    (lit "me@example.org") (lit "secret") (lit "imap.example.org")
    (lit "out") None (lit "INBOX") false None false empty_fs.

(** The same mailbox for the first script. *)
Definition pdf_part (file : string) : FetcherA.part :=
  {| FetcherA.content_disposition := lit "attachment; filename=x";
     FetcherA.content_type := lit "application/pdf";
     FetcherA.part_filename := Some (lit file);
     FetcherA.part_payload := Some (payload_of "%PDF") |}.

Definition image_part : FetcherA.part :=
  {| FetcherA.content_disposition := lit "attachment; filename=x";
     FetcherA.content_type := lit "image/png";
     FetcherA.part_filename := Some (lit "photo.png");
     FetcherA.part_payload := Some (payload_of "PNG") |}.

Definition unnamed_part : FetcherA.part :=
  {| FetcherA.content_disposition := lit "attachment";
     FetcherA.content_type := lit "application/pdf";
     FetcherA.part_filename := None;
     FetcherA.part_payload := Some (payload_of "%PDF") |}.

Definition mailA (subject file : string) : FetcherA.message :=
  {| FetcherA.msg_subject := Some (Ok (lit subject));
     FetcherA.is_multipart := true;
     FetcherA.walk := [image_part; pdf_part file] |}.

(** A message whose Subject header decodes to the empty string, with one
    PDF. *)
Definition mail_empty_subject : FetcherA.message :=
  {| FetcherA.msg_subject := Some (Ok []);
     FetcherA.is_multipart := true;
     FetcherA.walk := [pdf_part "a.pdf"] |}.

Definition id1 : bytes := [Byte.x31].
Definition id2 : bytes := [Byte.x32].
Definition id3 : bytes := [Byte.x33].

Definition srvA : FetcherA.imap_server :=
  {| FetcherA.IMAP4_SSL := fun _ _ => None;
     FetcherA.login := fun _ _ => None;
     FetcherA.select := fun _ => None;
     FetcherA.search := fun _ => Ok (lit "OK", [id1; id2; id3]);
     FetcherA.fetch := fun message_id =>
       if bool_decide (message_id = id1)
       then Ok (lit "OK", Ok (mailA "first" "a.pdf"))
       else if bool_decide (message_id = id3)
       then Ok (lit "OK", Ok (mailA "third" "c.pdf"))
       else Raise (lit "malformed");
     FetcherA.logout := None |}.

Definition srv_empty_subject : FetcherA.imap_server :=
  {| FetcherA.IMAP4_SSL := fun _ _ => None;
     FetcherA.login := fun _ _ => None;
     FetcherA.select := fun _ => None;
     FetcherA.search := fun _ => Ok (lit "OK", [id1]);
     FetcherA.fetch := fun _ => Ok (lit "OK", Ok mail_empty_subject);
     FetcherA.logout := None |}.

Definition clkA : FetcherA.clock :=
  {| FetcherA.now_run := may_2025;
     FetcherA.now_save := fun _ _ => may_2025 |}.

(** A run at noon on 17 May 2025 over a mailbox with one message, which
    arrived at eleven on 10 May: seven days and one hour before. *)
Definition noon : datetime :=
  {| year := 2025; month := 5; day := 17;
     hour := 12; minute := 0; second := 0 |}.

Definition old_message : ImapServer.stored :=
  {| ImapServer.uid := id1;
     ImapServer.internal_date :=
       {| year := 2025; month := 5; day := 10;
          hour := 11; minute := 0; second := 0 |};
     ImapServer.seen_flag := false;
     ImapServer.parsed := Ok (mailA "old" "old.pdf") |}.

Definition clk_noon : FetcherA.clock :=
  {| FetcherA.now_run := noon; FetcherA.now_save := fun _ _ => noon |}.

Definition run_last_week :=
  FetcherA.download_pdf_attachments (ImapServer.server [old_message])
    clk_noon (lit "me@example.org") (lit "secret") (lit "imap.example.org")
    993%Z (lit "ALL") (lit "out") (Some 7%Z) empty_fs.

(** The same run for the second script, with or without a limit, over a
    mailbox with one message, which arrived that morning. *)
Definition lib_today : FetcherB.mail_library :=
  {| FetcherB.MailBox := fun _ _ => None;
     FetcherB.login := fun _ _ _ => None;
     FetcherB.fetch := fun _ _ =>
       [FetcherB.Yield (Ok (mailB "today" "today.pdf"))];
     FetcherB.logout := None |}.

Definition run_last_week_B (days_limit : option Z) :=
  FetcherB.download_pdf_attachments lib_today noon ascii_lower
    (lit "me@example.org") (lit "secret") (lit "imap.example.org")
    (lit "out") days_limit (lit "INBOX") false None false empty_fs.

Definition run_empty_subject :=
  FetcherA.download_pdf_attachments srv_empty_subject clkA
    (lit "me@example.org") (lit "secret") (lit "imap.example.org") 993%Z
    (lit "ALL") (lit "out") None empty_fs.

Definition runA :=
  FetcherA.download_pdf_attachments srvA clkA
    (lit "me@example.org") (lit "secret") (lit "imap.example.org") 993%Z
    (lit "ALL") (lit "out") None empty_fs.

End Examples.

(** ** What a run leaves on the disk *)

Module Disk.

Import Os.

(** The state of a run of the second script against the files [fs0] it
    started with: nothing that was there is gone or changed, the paths
    gathered are distinct, they are the files that are new, and each
    holds the payload of an attachment with a name that ends in [.pdf]. *)
Definition new_files_B (lib : FetcherB.mail_library) (lower : pystr -> pystr)
    (fs0 : filesystem) (w : FetcherB.state) : Prop :=
  dirs fs0 ⊆ dirs (FetcherB.fs w)
  /\ files fs0 ⊆ files (FetcherB.fs w)
  /\ NoDup (FetcherB.downloaded_files w)
  /\ dom (files (FetcherB.fs w))
     = dom (files fs0) ∪ list_to_set (FetcherB.downloaded_files w)
  /\ forall path : pystr,
       path ∈ FetcherB.downloaded_files w ->
       (path ∉ existing fs0)
       /\ exists data : bytes,
            files (FetcherB.fs w) !! path = Some data
            /\ FetcherB.from_pdf_attachment lib lower data.

End Disk.

(** ** Where a run saves *)

Module Saved.

Import Os.

(** Every path gathered is the output directory, the monthly folder of a
    message the library yielded, and one more name without a separator. *)
Definition in_monthly_folder (lib : FetcherB.mail_library)
    (output_dir : pystr) (w : FetcherB.state) : Prop :=
  forall path : pystr,
    path ∈ FetcherB.downloaded_files w ->
    exists (n : nat) (q : option FetcherB.query) (m : FetcherB.message)
           (name : pystr),
      FetcherB.Yield (Ok m) ∈ FetcherB.fetch lib n q
      /\ name <> [] /\ (sep ∉ name)
      /\ path = join (join output_dir
                        (FetcherB.folder_name_of (FetcherB.msg_date m))) name.

End Saved.

(** ** Computations between two assertions *)

(** From a state where [P] holds, [m] returns in a state where [Q] holds
    of what it returns, or raises in a state where [R] holds. *)
Definition triple {W A} (P : W -> Prop) (m : M W A)
    (Q : A -> W -> Prop) (R : pystr -> W -> Prop) : Prop :=
  forall (w : W) (r : result A) (w' : W),
    m w = (r, w') -> P w ->
    match r with Ok a => Q a w' | Raise e => R e w' end.

(** ** The calls of a session of the second script *)

Module Session.

(** The calls made so far are [c], and no error has been printed. *)
Definition at_calls (c : list FetcherB.call) (w : FetcherB.state) : Prop :=
  FetcherB.calls w = c /\ forall e : pystr, FetcherB.Error e ∉ FetcherB.out w.

(** The calls of a session that ends normally, with the criteria [q]. *)
Definition complete (email password server folder_name : pystr)
    (q : option FetcherB.query) : list FetcherB.call :=
  [FetcherB.CallMailBox server 993%Z;
   FetcherB.CallLogin email password folder_name;
   FetcherB.CallFetch q; FetcherB.CallFetch q; FetcherB.CallLogout].

End Session.

(** ** The stages of a run of the first script *)

Module Stages.

Import Os FetcherA.

(** The state once the output directory has been seen to (lines 41
    to 43). *)
Definition start (output_dir : pystr) (fs0 : filesystem) : state :=
  if exists_ fs0 output_dir then
    {| fs := fs0; out := []; calls := []; downloaded_files := [] |}
  else
    {| fs := makedirs fs0 output_dir;
       out := [CreatedDirectory output_dir];
       calls := []; downloaded_files := [] |}.

(** The state once the script is logged in (lines 46 to 53). *)
Definition logged_in (email_address password imap_server : pystr)
    (imap_port : Z) (output_dir : pystr) (fs0 : filesystem) : state :=
  {| fs := fs (start output_dir fs0);
     out := out (start output_dir fs0) ++ [Connected imap_server];
     calls := [CallConnect imap_server imap_port;
               CallLogin email_address password];
     downloaded_files := [] |}.

(** What the script does from there (lines 55 to 132). *)
Definition after_login (srv : imap_server) (clk : clock)
    (search_criteria output_dir : pystr) (days_limit : option Z)
    : M state (list pystr) :=
  called (CallSelect (lit "INBOX"));;
  or_raise (select srv (lit "INBOX"));;
  search_criteria ← date_limited clk search_criteria days_limit;
  called (CallSearch search_criteria);;
  '(status, message_ids) ← lift (search srv search_criteria);
  if negb (str_eqb status (lit "OK")) then
    print NoMessagesFound;;
    called CallLogout;;
    or_raise (logout srv);;
    ret []
  else
    let total_messages := length message_ids in
    print (Found total_messages);;
    message_loop srv clk output_dir message_ids;;
    called CallLogout;;
    or_raise (logout srv);;
    w ← get;
    print (DownloadedCount (length (downloaded_files w)));;
    ret (downloaded_files w).

End Stages.

(** ** Where the first script writes *)

Module Within.

Import Os.

(** A path directly inside the output directory: the directory, then one
    name without a separator. *)
Definition direct_child (output_dir path : pystr) : Prop :=
  exists name : pystr,
    name <> [] /\ (sep ∉ name) /\ path = join_prefix output_dir ++ name.

(** The state of a run of the first script against the files [fs0] it
    started with: no directory and no file is gone, what differs from
    [fs0] is directly inside the output directory, and so is every path
    gathered, which names a file. *)
Definition within_output_dir (output_dir : pystr) (fs0 : filesystem)
    (w : FetcherA.state) : Prop :=
  dirs fs0 ⊆ dirs (FetcherA.fs w)
  /\ dom (files fs0) ⊆ dom (files (FetcherA.fs w))
  /\ (forall path : pystr,
        files (FetcherA.fs w) !! path <> files fs0 !! path ->
        direct_child output_dir path)
  /\ (forall path : pystr,
        path ∈ FetcherA.downloaded_files w ->
        is_Some (files (FetcherA.fs w) !! path)
        /\ direct_child output_dir path).

End Within.

(** ** The interactive entry points *)

(** The built-ins the two [main] functions call on what the user types,
    as the scripts observe them: [str.lower], [str.isdigit], and [int] on
    a string, where [Raise] stands for [ValueError]. *)
Record builtins := {
  str_lower : pystr -> pystr;
  str_isdigit : pystr -> bool;
  int_of_str : pystr -> result Z
}.

(** [int(days_filter) if days_filter and days_filter.isdigit() else None]
    (line 153 of the first script, line 138 of the second). *)
Definition parse_days {W} (bi : builtins) (days_filter : pystr)
    : M W (option Z) :=
  if truthy days_filter && str_isdigit bi days_filter then
    n ← lift (int_of_str bi days_filter);
    ret (Some n)
  else ret None.

(** [answer or default] on strings. *)
Definition or_default (answer default : pystr) : pystr :=
  if truthy answer then answer else default.

(** *** [main] of email_pdf_retriever.py *)

Module MainA.

Import Os.

Inductive prompt :=
  | AskEmail
  | AskPassword
  | AskUseGmail
  | AskServer
  | AskPort
  | AskDays
  | AskSearchOption
  | AskSearchCriteria
  | AskOutputDir.

(** What appears on the terminal: the lines [main] prints, the prompts of
    [input] and [getpass], and the lines of the download. *)
Inductive printed :=
  | Banner
  | Prompt (p : prompt)
  | CustomCriteriaHelp
  | ConnectingAndSearching
  | FromDownload (l : FetcherA.printed)
  | Success (n : nat) (output_dir : pystr)
  | NothingDownloaded.

(** The lines still to be read by [input] and by [getpass.getpass], the
    file system, what has been printed, and the calls made to the server. *)
Record state := {
  stdin : list pystr;
  tty : list pystr;
  fs : filesystem;
  out : list printed;
  calls : list FetcherA.call
}.

Definition print (l : printed) : M state unit :=
  modify (fun w => {| stdin := stdin w; tty := tty w; fs := fs w;
                      out := out w ++ [l]; calls := calls w |}).

(** [input(prompt)]: the prompt is written, then a line is read; at the
    end of the input [EOFError] is raised. *)
Definition input (p : prompt) : M state pystr :=
  print (Prompt p);;
  w ← get;
  match stdin w with
  | [] => raise (lit "EOFError")
  | line :: rest =>
      modify (fun w => {| stdin := rest; tty := tty w; fs := fs w;
                          out := out w; calls := calls w |});;
      ret line
  end.

(** [getpass.getpass(prompt)]: the same on the terminal. *)
Definition getpass (p : prompt) : M state pystr :=
  print (Prompt p);;
  w ← get;
  match tty w with
  | [] => raise (lit "EOFError")
  | line :: rest =>
      modify (fun w => {| stdin := stdin w; tty := rest; fs := fs w;
                          out := out w; calls := calls w |});;
      ret line
  end.

(** The arguments [main] gathers for [download_pdf_attachments]. *)
Record arguments := {
  email_address : pystr;
  password : pystr;
  imap_server : pystr;
  imap_port : Z;
  search_criteria : pystr;
  output_dir : pystr;
  days_limit : option Z
}.

Section Run.

Context (bi : builtins) (srv : FetcherA.imap_server) (clk : FetcherA.clock).

(** The questions (lines 138 to 167). *)
Definition answers : M state arguments :=
  email_address ← input AskEmail;
  password ← getpass AskPassword;
  answer ← input AskUseGmail;
  let use_gmail := negb (str_eqb (str_lower bi answer) (lit "n")) in
  '(imap_server, imap_port) ←
    (if use_gmail then ret (lit "imap.gmail.com", 993%Z)
     else
       imap_server ← input AskServer;
       port ← input AskPort;
       imap_port ←
         (if truthy port then lift (int_of_str bi port) else ret 993%Z);
       ret (imap_server, imap_port));
  days_filter ← input AskDays;
  days_limit ← parse_days bi days_filter;
  search_option ← input AskSearchOption;
  search_criteria ←
    (if str_eqb search_option (lit "2") then ret (lit "UNSEEN")
     else if str_eqb search_option (lit "3") then
       print CustomCriteriaHelp;;
       input AskSearchCriteria
     else ret (lit "ALL"));
  answer ← input AskOutputDir;
  let output_dir := or_default answer (lit "pdf_attachments") in
  ret {| email_address := email_address; password := password;
         imap_server := imap_server; imap_port := imap_port;
         search_criteria := search_criteria; output_dir := output_dir;
         days_limit := days_limit |}.

(** The call of [download_pdf_attachments] (lines 171 to 179): it works
    on the file system as it is, and what it prints and the calls it
    makes come after those made so far. *)
Definition download (a : arguments) : M state (list pystr) :=
  fun w =>
    let run :=
      FetcherA.download_pdf_attachments srv clk (email_address a)
        (password a) (imap_server a) (imap_port a) (search_criteria a)
        (output_dir a) (days_limit a) (fs w) in
    (run.1,
     {| stdin := stdin w; tty := tty w; fs := FetcherA.fs run.2;
        out := out w ++ (FromDownload <$> FetcherA.out run.2);
        calls := calls w ++ FetcherA.calls run.2 |}).

Definition main : M state unit :=
  print Banner;;
  a ← answers;
  print ConnectingAndSearching;;
  downloaded_files ← download a;
  if truthy downloaded_files then
    print (Success (length downloaded_files) (output_dir a))
  else print NothingDownloaded.

End Run.

End MainA.

(** *** [main] of zimbra_pdf_retriever.py *)

Module MainB.

Import Os.

Inductive prompt :=
  | AskEmail
  | AskPassword
  | AskDays
  | AskFolder
  | AskFilterOption
  | AskSearchTerm
  | AskOutputDir.

Inductive printed :=
  | Banner
  | DebugEnabled
  | Prompt (p : prompt)
  | FromDownload (l : FetcherB.printed)
  | Success (n : nat) (output_dir : pystr)
  | NothingDownloaded.

Record state := {
  stdin : list pystr;
  fs : filesystem;
  out : list printed;
  calls : list FetcherB.call
}.

Definition print (l : printed) : M state unit :=
  modify (fun w => {| stdin := stdin w; fs := fs w;
                      out := out w ++ [l]; calls := calls w |}).

Definition input (p : prompt) : M state pystr :=
  print (Prompt p);;
  w ← get;
  match stdin w with
  | [] => raise (lit "EOFError")
  | line :: rest =>
      modify (fun w => {| stdin := rest; fs := fs w;
                          out := out w; calls := calls w |});;
      ret line
  end.

Record arguments := {
  email : pystr;
  password : pystr;
  output_dir : pystr;
  days_limit : option Z;
  folder_name : pystr;
  only_unread : bool;
  search_term : option pystr
}.

(** The server [main] leaves to the default of
    [download_pdf_attachments] (line 32). *)
Definition default_server : pystr := lit "imap.tiongnam.com.my".

Section Run.

Context (bi : builtins) (lib : FetcherB.mail_library) (now : datetime).
(** [sys.argv]. *)
Context (argv : list pystr).

(** The questions (lines 135 to 144). *)
Definition answers : M state arguments :=
  email ← input AskEmail;
  password ← input AskPassword;
  days_filter ← input AskDays;
  days_limit ← parse_days bi days_filter;
  answer ← input AskFolder;
  let folder := or_default answer (lit "INBOX") in
  filter_option ← input AskFilterOption;
  let only_unread := str_eqb filter_option (lit "2") in
  search_term ←
    (if str_eqb filter_option (lit "3") then
       term ← input AskSearchTerm;
       ret (Some term)
     else ret None);
  answer ← input AskOutputDir;
  let output_dir := or_default answer (lit "pdf_attachments") in
  ret {| email := email; password := password; output_dir := output_dir;
         days_limit := days_limit; folder_name := folder;
         only_unread := only_unread; search_term := search_term |}.

(** The call of [download_pdf_attachments] (lines 146 to 155). *)
Definition download (debug_mode : bool) (a : arguments)
    : M state (list pystr) :=
  fun w =>
    let run :=
      FetcherB.download_pdf_attachments lib now (str_lower bi) (email a)
        (password a) default_server (output_dir a) (days_limit a)
        (folder_name a) (only_unread a) (search_term a) debug_mode (fs w) in
    (run.1,
     {| stdin := stdin w; fs := FetcherB.fs run.2;
        out := out w ++ (FromDownload <$> FetcherB.out run.2);
        calls := calls w ++ FetcherB.calls run.2 |}).

Definition main : M state unit :=
  print Banner;;
  let debug_mode := bool_decide (lit "--debug" ∈ argv) in
  when debug_mode (print DebugEnabled);;
  a ← answers;
  downloaded_files ← download debug_mode a;
  if truthy downloaded_files then
    print (Success (length downloaded_files) (output_dir a))
  else print NothingDownloaded.

End Run.

End MainB.

(** *** Built-ins for the worked examples *)

Module AsciiBuiltins.

(** [str.isdigit] and [int] on short strings of ASCII characters: a
    string is all digits when it is not empty and holds the characters 0
    to 9 only, and [int] reads such a string in base ten.  (Python's [int]
    also takes a sign, spaces around the number and underscores between
    digits, and refuses very long strings; these functions stand for the
    built-ins in the worked examples only.) *)
Definition isdigit (s : pystr) : bool :=
  truthy s && forallb (fun c => (48 <=? c) && (c <=? 57)) s.

Definition int (s : pystr) : result Z :=
  if isdigit s then
    Ok (fold_left (fun acc c => (acc * 10 + Z.of_N (c - 48))%Z) s 0%Z)
  else Raise (lit "ValueError").

Definition ascii : builtins :=
  {| str_lower := ascii_lower; str_isdigit := isdigit; int_of_str := int |}.

End AsciiBuiltins.

(** ** The lines of the second script *)

Module Lines.

(** The lines the second script prints only in debug mode (lines 50, 56,
    75, 92 and 118). *)
Definition is_debug_line (l : FetcherB.printed) : bool :=
  match l with
  | FetcherB.Connecting _ _ | FetcherB.LoggedIn _
  | FetcherB.SearchCriteria _ | FetcherB.SavingTo _
  | FetcherB.LoggedOut => true
  | _ => false
  end.

(** No debug line has been printed. *)
Definition quiet (w : FetcherB.state) : Prop :=
  Forall (fun l => is_debug_line l = false) (FetcherB.out w).

End Lines.

(** * Properties *)

(** ** Filename sanitisation *)

Section Sanitisation.

Local Open Scope N_scope.

Lemma reserved_true (c : N) : reserved c = true <-> c ∈ reserved_chars.
Proof.
  unfold reserved. rewrite existsb_exists. split.
  - intros (x & Hx & Heq). apply N.eqb_eq in Heq. subst.
    by apply list_elem_of_In.
  - intros Hc. exists c. split; [by apply list_elem_of_In | apply N.eqb_refl].
Qed.

Lemma reserved_false (c : N) : reserved c = false <-> c ∉ reserved_chars.
Proof.
  rewrite <- reserved_true. destruct (reserved c); naive_solver.
Qed.

(** Substituting one character for a class is a character-wise map. *)
Lemma re_sub_class_map (cls : N -> bool) (u : N) (s : pystr) :
  re_sub_class cls [u] s = (fun c => if cls c then u else c) <$> s.
Proof.
  induction s as [|c s IH]; simpl; [done|].
  rewrite IH. by destruct (cls c).
Qed.

Lemma re_sub_class_clean (cls : N -> bool) (u : N) (s : pystr) :
  cls u = false ->
  Forall (fun c => cls c = false) (re_sub_class cls [u] s).
Proof.
  intros Hu. induction s as [|c s IH]; simpl; [constructor|].
  destruct (cls c) eqn:Hc; simpl; constructor; auto.
Qed.

Lemma re_sub_class_id (cls : N -> bool) (repl s : pystr) :
  Forall (fun c => cls c = false) s -> re_sub_class cls repl s = s.
Proof.
  induction 1 as [|c s Hc _ IH]; simpl; [done|]. by rewrite Hc, IH.
Qed.

Lemma truthy_true {A} (s : list A) : s <> [] -> truthy s = true.
Proof. by destruct s. Qed.

(** What [clean_filename] does on a non-empty string, in both scripts. *)
Lemma clean_filename_str (s : pystr) :
  s <> [] ->
  FetcherA.clean_filename (PyStr s) = Ok (re_sub_class reserved underscore s)
  /\ FetcherB.clean_filename (Some s) = re_sub_class reserved underscore s.
Proof.
  intros Hs. unfold FetcherA.clean_filename, FetcherB.clean_filename. simpl.
  by rewrite (truthy_true s Hs).
Qed.

Lemma default_name_clean : Forall (fun c => reserved c = false) default_name.
Proof. by vm_compute; repeat constructor. Qed.

(** The result of [clean_filename] never holds a reserved character. *)
Lemma clean_filename_B_clean (x : option pystr) :
  Forall (fun c => reserved c = false) (FetcherB.clean_filename x).
Proof.
  destruct x as [s|]; simpl; [|apply default_name_clean].
  destruct (truthy s); [|apply default_name_clean].
  by apply re_sub_class_clean.
Qed.

Lemma clean_filename_B_nonempty (x : option pystr) :
  FetcherB.clean_filename x <> [].
Proof.
  destruct x as [[|c s]|]; simpl; try done.
  unfold underscore. simpl. by destruct (reserved c).
Qed.

End Sanitisation.

(** C1: on a string that contains reserved characters, [clean_filename] of
    either script returns the string in which every reserved character, at
    every position, has become an underscore and every other character is
    kept; no reserved character is left in it. *)
Theorem clean_filename_replaces_reserved (s : pystr) :
  Exists (fun c => c ∈ reserved_chars) s ->
  exists out : pystr,
    FetcherA.clean_filename (PyStr s) = Ok out
    /\ FetcherB.clean_filename (Some s) = out
    /\ length out = length s
    /\ (forall (i : nat) (c : N), s !! i = Some c ->
          out !! i = Some (if bool_decide (c ∈ reserved_chars) then 95%N else c))
    /\ (forall c : N, c ∈ reserved_chars -> c ∉ out).
Proof.
  intros Hex.
  assert (Hs : s <> []) by (intros ->; by apply Exists_nil in Hex).
  destruct (clean_filename_str s Hs) as [HA HB].
  exists (re_sub_class reserved underscore s).
  split; [done|]. split; [done|].
  unfold underscore. change (lit "_") with [95%N].
  split; [|split].
  - by rewrite re_sub_class_map, length_fmap.
  - intros i c Hi. rewrite re_sub_class_map, list_lookup_fmap, Hi. simpl.
    f_equal. destruct (reserved c) eqn:Hc.
    + apply reserved_true in Hc. by rewrite bool_decide_eq_true_2.
    + apply reserved_false in Hc. by rewrite bool_decide_eq_false_2.
  - intros c Hc Hin.
    pose proof (re_sub_class_clean reserved 95%N s eq_refl) as Hall.
    rewrite Forall_forall in Hall. specialize (Hall c Hin).
    apply reserved_false in Hall. done.
Qed.

Lemma clean_filename_replaces_reserved_witness :
  exists out : pystr,
    FetcherA.clean_filename (PyStr (lit "a/b:c?.pdf")) = Ok out
    /\ FetcherB.clean_filename (Some (lit "a/b:c?.pdf")) = out
    /\ length out = length (lit "a/b:c?.pdf")
    /\ (forall (i : nat) (c : N), lit "a/b:c?.pdf" !! i = Some c ->
          out !! i = Some (if bool_decide (c ∈ reserved_chars) then 95%N else c))
    /\ (forall c : N, c ∈ reserved_chars -> c ∉ out).
Proof.
  apply (clean_filename_replaces_reserved (lit "a/b:c?.pdf")).
  apply Exists_cons_tl, Exists_cons_hd. vm_compute.
  apply list_elem_of_In. simpl. tauto.
Defined.

(** C7: both scripts give the default name for [None] and for the empty
    string; the first script also for an empty [bytes]. *)
Theorem clean_filename_default :
  FetcherA.clean_filename PyNone = Ok (lit "unnamed_attachment.pdf")
  /\ FetcherA.clean_filename (PyStr []) = Ok (lit "unnamed_attachment.pdf")
  /\ FetcherA.clean_filename (PyBytes []) = Ok (lit "unnamed_attachment.pdf")
  /\ FetcherB.clean_filename None = lit "unnamed_attachment.pdf"
  /\ FetcherB.clean_filename (Some []) = lit "unnamed_attachment.pdf".
Proof. repeat split. Qed.

Section Idempotence.

Lemma re_sub_class_nonempty (cls : N -> bool) (u : N) (s : pystr) :
  s <> [] -> re_sub_class cls [u] s <> [].
Proof. destruct s as [|c s]; [done|]. simpl. by destruct (cls c). Qed.

(** Decoding a non-empty [bytes] gives a non-empty string. *)
Lemma utf8_decode_N_nonempty (bs : list N) :
  utf8_decode_N bs = Some [] -> bs = [].
Proof.
  destruct bs as [|b0 r0]; [done|]. simpl.
  repeat (case_match; try done);
    match goal with
    | |- _ <$> ?x = _ -> _ => by destruct x
    end.
Qed.

Lemma decode_nonempty (b : bytes) (s : pystr) :
  b <> [] -> decode b = Some s -> s <> [].
Proof.
  intros Hb Hd ->. apply utf8_decode_N_nonempty in Hd.
  by destruct b.
Qed.

(** Cleaning a cleaned non-empty string changes nothing. *)
Lemma clean_filename_A_fixed (s : pystr) :
  s <> [] ->
  FetcherA.clean_filename (PyStr (re_sub_class reserved underscore s))
  = Ok (re_sub_class reserved underscore s).
Proof.
  intros Hs.
  destruct (clean_filename_str (re_sub_class reserved underscore s)) as [-> _].
  { by apply re_sub_class_nonempty. }
  f_equal. apply re_sub_class_id. by apply re_sub_class_clean.
Qed.

End Idempotence.

(** C6, as the scripts have it: a name without reserved characters comes
    back unchanged when it is not empty, and cleaning twice is cleaning
    once, for every argument (in the first script a [bytes] that cannot be
    decoded raises both times). *)
Theorem clean_filename_idempotent :
  (forall s : pystr,
     s <> [] -> Forall (fun c => c ∉ reserved_chars) s ->
     FetcherA.clean_filename (PyStr s) = Ok s
     /\ FetcherB.clean_filename (Some s) = s)
  /\ (forall x : pyarg,
        match FetcherA.clean_filename x with
        | Ok s => FetcherA.clean_filename (PyStr s)
        | Raise e => Raise e
        end = FetcherA.clean_filename x)
  /\ (forall x : option pystr,
        FetcherB.clean_filename (Some (FetcherB.clean_filename x))
        = FetcherB.clean_filename x).
Proof.
  split; [|split].
  - intros s Hs Hclean.
    destruct (clean_filename_str s Hs) as [-> ->].
    rewrite re_sub_class_id; [done|].
    eapply Forall_impl; [exact Hclean|]. intros c. apply reserved_false.
  - intros [|s|b]; simpl; [done| |].
    + destruct (truthy s) eqn:Hs; [|done].
      apply clean_filename_A_fixed. by destruct s.
    + destruct (truthy b) eqn:Hb; [|done].
      destruct (decode b) as [s|] eqn:Hd; [|done].
      apply clean_filename_A_fixed.
      apply (decode_nonempty b); [by destruct b | done].
  - intros x.
    pose proof (clean_filename_B_nonempty x) as Hne.
    pose proof (clean_filename_B_clean x) as Hcl.
    destruct (clean_filename_str _ Hne) as [_ ->].
    by apply re_sub_class_id.
Qed.

Lemma clean_filename_idempotent_witness :
  (FetcherA.clean_filename (PyStr (lit "report.pdf")) = Ok (lit "report.pdf")
   /\ FetcherB.clean_filename (Some (lit "report.pdf")) = lit "report.pdf")
  /\ match FetcherA.clean_filename (PyStr (lit "a/b.pdf")) with
     | Ok s => FetcherA.clean_filename (PyStr s)
     | Raise e => Raise e
     end = FetcherA.clean_filename (PyStr (lit "a/b.pdf"))
  /\ FetcherB.clean_filename
       (Some (FetcherB.clean_filename (Some (lit "a/b.pdf"))))
     = FetcherB.clean_filename (Some (lit "a/b.pdf")).
Proof.
  destruct clean_filename_idempotent as (H1 & H2 & H3).
  split; [|split].
  - apply (H1 (lit "report.pdf")); [done|].
    vm_compute. repeat constructor; by apply reserved_false.
  - apply (H2 (PyStr (lit "a/b.pdf"))).
  - apply (H3 (Some (lit "a/b.pdf"))).
Defined.

(** C6 as stated fails on the empty name: it has no reserved character,
    and both scripts turn it into the default name. *)
Lemma clean_filename_empty_name_changed :
  Forall (fun c => c ∉ reserved_chars) ([] : pystr)
  /\ FetcherA.clean_filename (PyStr []) <> Ok []
  /\ FetcherB.clean_filename (Some []) <> [].
Proof. repeat split; [constructor | done | done]. Qed.

(** ** Paths *)

Section Paths.

Import Os.

Lemma startswith_char (s : pystr) (c : N) :
  startswith s [c] = match s with [] => false | b :: _ => (c =? b)%N end.
Proof. destruct s as [|b s]; simpl; [done|]. by destruct s, (c =? b)%N. Qed.

Lemma startswith_char_app (a x y : pystr) (c : N) :
  a <> [] -> startswith (a ++ x) [c] = startswith (a ++ y) [c].
Proof. intros Ha. rewrite !startswith_char. by destruct a. Qed.

Lemma join_relative (a b : pystr) :
  startswith b [sep] = false -> join a b = join_prefix a ++ b.
Proof.
  intros Hb. unfold join, join_prefix. rewrite Hb.
  destruct (negb (truthy a) || endswith a [sep]); [done|].
  by rewrite <- app_assoc.
Qed.

Lemma join_length (a b : pystr) :
  length (join a b)
  = if startswith b [sep] then length b
    else (length (join_prefix a) + length b)%nat.
Proof.
  destruct (startswith b [sep]) eqn:Hb.
  - unfold join. by rewrite Hb.
  - by rewrite join_relative, length_app.
Qed.

Lemma join_inj (a b1 b2 : pystr) :
  startswith b1 [sep] = startswith b2 [sep] ->
  join a b1 = join a b2 -> b1 = b2.
Proof.
  intros Hh. destruct (startswith b2 [sep]) eqn:H2.
  - unfold join. by rewrite Hh, H2.
  - rewrite !join_relative by done. apply app_inv_head.
Qed.

(** The two halves [splitext] returns make up the name. *)
Lemma splitext_app (p base ext : pystr) :
  splitext p = (base, ext) -> base ++ ext = p.
Proof.
  unfold splitext. intros H.
  repeat case_match; simplify_eq; try apply app_nil_r; apply take_drop.
Qed.

Lemma lit_inj (s t : string) : lit s = lit t -> s = t.
Proof.
  unfold lit. intros H.
  assert (Hl : list_ascii_of_string s = list_ascii_of_string t).
  { revert H. generalize (list_ascii_of_string s), (list_ascii_of_string t).
    induction l as [|a l IH]; intros [|b l'] H; simplify_eq/=; [done|].
    f_equal; [|by apply IH].
    rewrite <- (ascii_N_embedding a), <- (ascii_N_embedding b). by f_equal. }
  rewrite <- (string_of_list_ascii_of_string s),
          <- (string_of_list_ascii_of_string t). by f_equal.
Qed.

(** Decimal notation tells numbers apart. *)
Lemma str_of_nat_inj (m n : nat) : str_of_nat m = str_of_nat n -> m = n.
Proof.
  unfold str_of_nat, str_of_N. intros H%lit_inj.
  apply Nat2N.inj, DecimalN.Unsigned.to_uint_inj.
  pose proof (NilEmpty.usu (N.to_uint (N.of_nat m))) as Hm.
  pose proof (NilEmpty.usu (N.to_uint (N.of_nat n))) as Hn.
  rewrite H in Hm. congruence.
Qed.

End Paths.

(** ** The probe for a free path (Fetcher B) *)

Section Probe.

Import Os FetcherB.

Context (f : filesystem) (folder base ext : pystr).

Local Abbreviation cand := (candidate folder base ext).

Lemma candidate_head (k : nat) (x : pystr) :
  startswith (base ++ lit "_" ++ x) [sep]
  = startswith (base ++ lit "_" ++ str_of_nat k ++ ext) [sep].
Proof.
  destruct base as [|b base']; [done|].
  by apply startswith_char_app.
Qed.

Lemma candidate_inj (j k : nat) : cand j = cand k -> j = k.
Proof.
  unfold candidate. intros H%join_inj; [|apply candidate_head].
  apply app_inv_head, app_inv_head, app_inv_tail in H.
  by apply str_of_nat_inj.
Qed.

(** The first path tried is shorter than every numbered one. *)
Lemma candidate_longer (k : nat) :
  (length (join folder (base ++ ext)) < length (cand k))%nat.
Proof.
  unfold candidate. rewrite !join_length, !startswith_char.
  destruct base as [|b base']; cbn [app lit list_ascii_of_string map].
  - change (sep =? N_of_ascii "_")%N with false.
    destruct ext as [|e ext']; [|destruct (sep =? e)%N];
      rewrite ?length_app; cbn [length]; rewrite ?length_app; cbn [length]; lia.
  - destruct (sep =? b)%N;
      cbn [length]; rewrite ?length_app; cbn [length];
      rewrite ?length_app; cbn [length]; lia.
Qed.

Lemma candidate_not_plain (k : nat) : cand k <> join folder (base ++ ext).
Proof.
  intros H. pose proof (candidate_longer k) as Hl. rewrite H in Hl. lia.
Qed.

(** What the loop returns, when it returns: the path it started with if
    that one is free, and otherwise the first free numbered path from
    [counter] on. *)
Lemma probe_spec (fuel counter : nat) (p q : pystr) :
  probe fuel f folder base ext counter p = Some q ->
  (q ∉ existing f)
  /\ (q = p
      \/ p ∈ existing f
         /\ exists k : nat, (counter <= k)%nat /\ q = cand k
            /\ forall j : nat, (counter <= j < k)%nat -> cand j ∈ existing f).
Proof.
  revert counter p. induction fuel as [|fuel IH]; intros counter p; [done|].
  simpl. unfold exists_. case_bool_decide as Hp.
  - intros (Hq & Hcase)%IH. split; [done|]. right. split; [done|].
    destruct Hcase as [->|(Hc & k & Hk & -> & Hlow)].
    + exists counter. split; [lia|]. split; [done|]. intros j Hj. lia.
    + exists k. split; [lia|]. split; [done|]. intros j Hj.
      destruct (decide (j = counter)) as [->|Hne]; [done|].
      apply Hlow. lia.
  - intros [= ->]. split; [done|]. by left.
Qed.

(** The loop ends: with more tests than there are paths it could meet, it
    returns. *)
Lemma probe_ends (fuel counter : nat) (p : pystr) (X : gset pystr) :
  (size X < fuel)%nat ->
  (p ∈ existing f -> p ∈ X) ->
  (forall k : nat, (counter <= k)%nat -> cand k ∈ existing f -> cand k ∈ X) ->
  (forall k : nat, (counter <= k)%nat -> cand k <> p) ->
  is_Some (probe fuel f folder base ext counter p).
Proof.
  revert counter p X. induction fuel as [|fuel IH]; intros counter p X Hsz Hp Hc Hne;
    [lia|].
  simpl. unfold exists_. case_bool_decide as Hin; [|done].
  apply (IH (S counter) _ (X ∖ {[ p ]})).
  - assert (HpX : p ∈ X) by auto.
    assert (size X = size (X ∖ {[ p ]}) + 1)%nat; [|lia].
    rewrite (union_difference_L {[ p ]} X) at 1
      by (by apply singleton_subseteq_l).
    rewrite size_union, size_singleton; [lia|].
    apply disjoint_difference_r1. done.
  - intros Hex. apply elem_of_difference. split; [apply Hc; [lia|done]|].
    apply not_elem_of_singleton. apply Hne. lia.
  - intros k Hk Hex. apply elem_of_difference. split; [apply Hc; [lia|done]|].
    apply not_elem_of_singleton. apply Hne. lia.
  - intros k Hk Heq. apply candidate_inj in Heq. lia.
Qed.

End Probe.

Section UniquePath.

Import Os FetcherB.

(** The probe always finds a path, the path is free, and it is the plain
    name or the first free numbered one. *)
Lemma unique_path_spec (f : filesystem) (folder filename : pystr) :
  exists q : pystr,
    unique_path f folder filename = Some q
    /\ (q ∉ existing f)
    /\ (q = join folder filename
        \/ join folder filename ∈ existing f
           /\ exists k : nat, (1 <= k)%nat
              /\ q = candidate folder (splitext filename).1
                               (splitext filename).2 k
              /\ forall j : nat, (1 <= j < k)%nat ->
                   candidate folder (splitext filename).1
                             (splitext filename).2 j ∈ existing f).
Proof.
  unfold unique_path. destruct (splitext filename) as [base ext] eqn:Hsp.
  apply splitext_app in Hsp. simpl.
  destruct (probe_ends f folder base ext (S (size (existing f))) 1
              (join folder filename) (existing f)) as [q Hq].
  - lia.
  - done.
  - done.
  - intros k _. rewrite <- Hsp. apply candidate_not_plain.
  - exists q. split; [done|]. by apply probe_spec in Hq.
Qed.

End UniquePath.

(** ** Saving one attachment (Fetcher B) *)

Section FileSystem.

Import Os.

Lemma existing_write (f : filesystem) (q : pystr) (data : bytes) :
  existing (write f q data) = existing f ∪ {[ q ]}.
Proof.
  unfold existing, write. simpl. rewrite dom_insert_L. set_solver.
Qed.

Lemma open_wb_free (f : filesystem) (q : pystr) :
  q ∉ existing f ->
  open_wb f q = Ok {| dirs := dirs f; files := <[ q := [] ]> (files f) |}.
Proof.
  intros Hq. unfold open_wb. rewrite bool_decide_eq_false_2; [done|].
  unfold existing in Hq. set_solver.
Qed.

End FileSystem.

Section SaveB.

Import Os FetcherB.

Context (lower : pystr -> pystr).

(** An attachment whose name ends in [.pdf] is written to the path the
    probe returns, and that path is appended to the result. *)
Lemma save_attachment_at (folder : pystr) (att : attachment) (w : state)
    (q : pystr) :
  endswith (lower (att_filename att)) (lit ".pdf") = true ->
  unique_path (fs w) folder (clean_filename (Some (att_filename att))) = Some q ->
  save_attachment lower folder att w = (Ok tt, saved_state att q w).
Proof.
  intros Hpdf Hq.
  destruct (unique_path_spec (fs w) folder
              (clean_filename (Some (att_filename att))))
    as (q' & Hq' & Hfree & _).
  assert (q' = q) as -> by congruence.
  unfold save_attachment. rewrite Hpdf.
  unfold mbind, M_bind, bind, print, modify, get. cbn [fs].
  rewrite Hq. rewrite (open_wb_free _ _ Hfree).
  unfold set_fs, append_downloaded, modify, write, lift, ret, saved_state.
  cbn [fs out calls downloaded_files dirs files].
  by rewrite insert_insert_eq.
Qed.

Lemma save_attachment_pdf (folder : pystr) (att : attachment) (w : state) :
  endswith (lower (att_filename att)) (lit ".pdf") = true ->
  exists q : pystr,
    (q ∉ existing (fs w))
    /\ save_attachment lower folder att w = (Ok tt, saved_state att q w).
Proof.
  intros Hpdf.
  destruct (unique_path_spec (fs w) folder
              (clean_filename (Some (att_filename att))))
    as (q & Hq & Hfree & _).
  exists q. split; [done|]. by apply save_attachment_at.
Qed.

(** An attachment whose name does not end in [.pdf] leaves everything as
    it is. *)
Lemma save_attachment_other (folder : pystr) (att : attachment) (w : state) :
  endswith (lower (att_filename att)) (lit ".pdf") = false ->
  save_attachment lower folder att w = (Ok tt, w).
Proof. intros H. unfold save_attachment. by rewrite H. Qed.

End SaveB.

(** ** De-duplication (Fetcher B) *)

Section Dedup.

Import Os FetcherB.

Lemma unique_path_plain (f : filesystem) (folder filename : pystr) :
  join folder filename ∉ existing f ->
  unique_path f folder filename = Some (join folder filename).
Proof.
  intros Hfree.
  destruct (unique_path_spec f folder filename) as (q & -> & _ & Hq).
  by destruct Hq as [->|[? _]].
Qed.

Lemma unique_path_numbered (f : filesystem) (folder filename : pystr)
    (k : nat) :
  let base := (splitext filename).1 in
  let ext := (splitext filename).2 in
  (1 <= k)%nat ->
  join folder filename ∈ existing f ->
  (forall j : nat, (1 <= j < k)%nat -> candidate folder base ext j ∈ existing f) ->
  candidate folder base ext k ∉ existing f ->
  unique_path f folder filename = Some (candidate folder base ext k).
Proof.
  intros base ext Hk Hplain Hlow Hfree.
  destruct (unique_path_spec f folder filename) as (q & -> & Hq & Hcase).
  destruct Hcase as [->|(_ & k' & Hk' & -> & Hlow')]; [done|].
  fold base ext in Hq, Hlow' |- *.
  destruct (lt_eq_lt_dec k k') as [[Hlt| ->]|Hgt]; [|done|].
  - destruct Hfree. apply Hlow'. lia.
  - destruct Hq. apply Hlow. lia.
Qed.

End Dedup.

(** C2: three attachments with the same cleaned name [base ++ ext], saved
    one after the other into a monthly folder that holds none of the three
    paths yet, are written as the plain name, the name with [_1] and the
    name with [_2] before the extension.  In general the probe returns,
    for every file system, a free path: the plain one, or on a collision
    the numbered one with the least counter from 1 on that is free. *)
Theorem dedup_numeric_suffix :
  (forall (lower : pystr -> pystr) (folder name base ext : pystr)
          (a1 a2 a3 : FetcherB.attachment) (w0 : FetcherB.state),
     endswith (lower (FetcherB.att_filename a1)) (lit ".pdf") = true ->
     endswith (lower (FetcherB.att_filename a2)) (lit ".pdf") = true ->
     endswith (lower (FetcherB.att_filename a3)) (lit ".pdf") = true ->
     FetcherB.clean_filename (Some (FetcherB.att_filename a1)) = name ->
     FetcherB.clean_filename (Some (FetcherB.att_filename a2)) = name ->
     FetcherB.clean_filename (Some (FetcherB.att_filename a3)) = name ->
     Os.splitext name = (base, ext) ->
     Os.join folder name ∉ Os.existing (FetcherB.fs w0) ->
     Os.join folder (base ++ lit "_1" ++ ext) ∉ Os.existing (FetcherB.fs w0) ->
     Os.join folder (base ++ lit "_2" ++ ext) ∉ Os.existing (FetcherB.fs w0) ->
     exists w3 : FetcherB.state,
       for_each (FetcherB.save_attachment lower folder) [a1; a2; a3] w0
       = (Ok tt, w3)
       /\ FetcherB.downloaded_files w3
          = FetcherB.downloaded_files w0
            ++ [Os.join folder name;
                Os.join folder (base ++ lit "_1" ++ ext);
                Os.join folder (base ++ lit "_2" ++ ext)]
       /\ Os.files (FetcherB.fs w3) !! Os.join folder name
          = Some (FetcherB.att_payload a1)
       /\ Os.files (FetcherB.fs w3) !! Os.join folder (base ++ lit "_1" ++ ext)
          = Some (FetcherB.att_payload a2)
       /\ Os.files (FetcherB.fs w3) !! Os.join folder (base ++ lit "_2" ++ ext)
          = Some (FetcherB.att_payload a3))
  /\ (forall (f : Os.filesystem) (folder filename : pystr),
        exists q : pystr,
          FetcherB.unique_path f folder filename = Some q
          /\ (q ∉ Os.existing f)
          /\ (q = Os.join folder filename
              \/ Os.join folder filename ∈ Os.existing f
                 /\ exists k : nat, (1 <= k)%nat
                    /\ q = Os.join folder
                             ((Os.splitext filename).1 ++ lit "_"
                              ++ str_of_nat k ++ (Os.splitext filename).2)
                    /\ forall j : nat, (1 <= j < k)%nat ->
                         Os.join folder
                           ((Os.splitext filename).1 ++ lit "_"
                            ++ str_of_nat j ++ (Os.splitext filename).2)
                         ∈ Os.existing f)).
Proof.
  split; [|exact unique_path_spec].
  intros lower folder name base ext a1 a2 a3 w0 Hp1 Hp2 Hp3 Hn1 Hn2 Hn3
         Hsp Hf0 Hf1 Hf2.
  change (Os.join folder (base ++ lit "_1" ++ ext))
    with (FetcherB.candidate folder base ext 1) in *.
  change (Os.join folder (base ++ lit "_2" ++ ext))
    with (FetcherB.candidate folder base ext 2) in *.
  set (p0 := Os.join folder name) in *.
  set (c1 := FetcherB.candidate folder base ext 1) in *.
  set (c2 := FetcherB.candidate folder base ext 2) in *.
  assert (Hname : base ++ ext = name) by by apply splitext_app.
  assert (Hc10 : c1 <> p0).
  { subst c1 p0. rewrite <- Hname. apply candidate_not_plain. }
  assert (Hc20 : c2 <> p0).
  { subst c2 p0. rewrite <- Hname. apply candidate_not_plain. }
  assert (Hc21 : c2 <> c1).
  { intros H%candidate_inj. lia. }
  set (w1 := FetcherB.saved_state a1 p0 w0).
  set (w2 := FetcherB.saved_state a2 c1 w1).
  set (w3 := FetcherB.saved_state a3 c2 w2).
  assert (H1 : FetcherB.save_attachment lower folder a1 w0 = (Ok tt, w1)).
  { apply save_attachment_at; [done|]. rewrite Hn1.
    by apply unique_path_plain. }
  assert (He1 : Os.existing (FetcherB.fs w1)
                = Os.existing (FetcherB.fs w0) ∪ {[ p0 ]}).
  { apply existing_write. }
  assert (H2 : FetcherB.save_attachment lower folder a2 w1 = (Ok tt, w2)).
  { apply save_attachment_at; [done|]. rewrite Hn2.
    pose proof (unique_path_numbered (FetcherB.fs w1) folder name 1) as Hu.
    rewrite Hsp in Hu. cbn [fst snd] in Hu. apply Hu; [lia | | intros j Hj; lia |].
    - rewrite He1. set_solver.
    - rewrite He1. set_solver. }
  assert (He2 : Os.existing (FetcherB.fs w2)
                = Os.existing (FetcherB.fs w0) ∪ {[ p0 ]} ∪ {[ c1 ]}).
  { unfold w2, FetcherB.saved_state. cbn [FetcherB.fs].
    by rewrite existing_write, He1. }
  assert (H3 : FetcherB.save_attachment lower folder a3 w2 = (Ok tt, w3)).
  { apply save_attachment_at; [done|]. rewrite Hn3.
    pose proof (unique_path_numbered (FetcherB.fs w2) folder name 2) as Hu.
    rewrite Hsp in Hu. cbn [fst snd] in Hu. apply Hu; [lia | | |].
    - rewrite He2. set_solver.
    - intros j Hj. assert (j = 1)%nat as -> by lia. rewrite He2. set_solver.
    - rewrite He2. set_solver. }
  exists w3. split; [|split; [|split; [|split]]].
  - unfold for_each. cbn [for_enumerate].
    unfold mbind, M_bind, bind. by rewrite H1, H2, H3.
  - simpl. by rewrite <- !app_assoc.
  - simpl. rewrite lookup_insert_ne by done. rewrite lookup_insert_ne by done.
    apply lookup_insert_eq.
  - simpl. rewrite lookup_insert_ne by done. apply lookup_insert_eq.
  - simpl. apply lookup_insert_eq.
Qed.

Lemma dedup_numeric_suffix_witness :
  exists w3 : FetcherB.state,
    for_each (FetcherB.save_attachment ascii_lower (lit "out/2025-05"))
      [Examples.named "name.pdf" "first"; Examples.named "name.pdf" "second";
       Examples.named "name.pdf" "third"]
      (Examples.startB Examples.empty_fs)
    = (Ok tt, w3)
    /\ FetcherB.downloaded_files w3
       = [lit "out/2025-05/name.pdf"; lit "out/2025-05/name_1.pdf";
          lit "out/2025-05/name_2.pdf"].
Proof.
  destruct (proj1 dedup_numeric_suffix ascii_lower (lit "out/2025-05")
              (lit "name.pdf") (lit "name") (lit ".pdf")
              (Examples.named "name.pdf" "first")
              (Examples.named "name.pdf" "second")
              (Examples.named "name.pdf" "third")
              (Examples.startB Examples.empty_fs))
    as (w3 & Hrun & Hfiles & _);
    try reflexivity;
    try (intros H; apply (bool_decide_eq_true_2 _) in H;
         vm_compute in H; discriminate H).
  exists w3. split; [exact Hrun | exact Hfiles].
Defined.

(** ** Reasoning about computations *)

Section Monad.

Context {W : Type}.

(** Running the first step of a computation. *)
Lemma run_bind_ret {A B} (a : A) (k : A -> M W B) (w : W) :
  (ret a ≫= k) w = k a w.
Proof. done. Qed.

Lemma run_bind_raise {A B} (e : pystr) (k : A -> M W B) (w : W) :
  (raise e ≫= k) w = (Raise e, w).
Proof. done. Qed.

Lemma run_bind_get {B} (k : W -> M W B) (w : W) : (get ≫= k) w = k w w.
Proof. done. Qed.

Lemma run_bind_modify {B} (f : W -> W) (k : unit -> M W B) (w : W) :
  (modify f ≫= k) w = k tt (f w).
Proof. done. Qed.

Lemma run_bind_when {B} (b : bool) (m : M W unit) (k : unit -> M W B) (w : W) :
  (when b m ≫= k) w = if b then (m ≫= k) w else k tt w.
Proof. by destruct b. Qed.

Lemma run_bind_try {A B} (m : M W A) (h : pystr -> M W A)
    (k : A -> M W B) (w : W) :
  (try_except m h ≫= k) w
  = match m w with
    | (Ok a, w') => k a w'
    | (Raise e, w') => (h e ≫= k) w'
    end.
Proof.
  unfold mbind, M_bind, bind, try_except. by destruct (m w) as [[a|e] w'].
Qed.

Lemma run_bind_ext {A B} (m1 m2 : M W A) (k : A -> M W B) (w : W) :
  m1 w = m2 w -> (m1 ≫= k) w = (m2 ≫= k) w.
Proof. unfold mbind, M_bind, bind. by intros ->. Qed.

Lemma run_bind_eq {A B} (m : M W A) (k : A -> M W B) (w w' : W) (a : A) :
  m w = (Ok a, w') -> (m ≫= k) w = k a w'.
Proof. unfold mbind, M_bind, bind. by intros ->. Qed.

Lemma run_bind_assoc {A B C} (m : M W A) (k1 : A -> M W B)
    (k2 : B -> M W C) (w : W) :
  ((m ≫= k1) ≫= k2) w = (m ≫= (fun a => k1 a ≫= k2)) w.
Proof.
  unfold mbind, M_bind, bind. by destruct (m w) as [[a|e] w'].
Qed.

Lemma preserved_ret {A} (I : W -> Prop) (a : A) : preserved I (ret a).
Proof. intros w r w' [= <- <-]. done. Qed.

Lemma preserved_raise {A} (I : W -> Prop) (e : pystr) :
  preserved I (raise e : M W A).
Proof. intros w r w' [= <- <-]. done. Qed.

Lemma preserved_lift {A} (I : W -> Prop) (x : result A) :
  preserved I (lift x).
Proof. destruct x; [apply preserved_ret | apply preserved_raise]. Qed.

Lemma preserved_get (I : W -> Prop) : preserved I get.
Proof. intros w r w' [= <- <-]. done. Qed.

Lemma preserved_modify (I : W -> Prop) (f : W -> W) :
  (forall w, I w -> I (f w)) -> preserved I (modify f).
Proof. intros Hf w r w' [= <- <-]. auto. Qed.

Lemma preserved_bind {A B} (I : W -> Prop) (m : M W A) (k : A -> M W B) :
  preserved I m -> (forall a, preserved I (k a)) -> preserved I (m ≫= k).
Proof.
  intros Hm Hk w r w'. unfold mbind, M_bind, bind.
  destruct (m w) as [[a|e] w1] eqn:Hmw.
  - intros Hkw Hw. eapply Hk; [exact Hkw|]. eapply Hm; [exact Hmw|done].
  - intros [= <- <-] Hw. eapply Hm; [exact Hmw|done].
Qed.

Lemma preserved_bind_ok {A B} (I : W -> Prop) (a : A) (k : A -> M W B) :
  preserved I (k a) -> preserved I (lift (Ok a) ≫= k).
Proof. intros H w r w'. exact (H w r w'). Qed.

Lemma preserved_bind_raise {A B} (I : W -> Prop) (e : pystr)
    (k : A -> M W B) :
  preserved I (lift (Raise e) ≫= k).
Proof.
  intros w r w' H. unfold mbind, M_bind, bind, lift, raise in H.
  by simplify_eq.
Qed.

Lemma preserved_try_except {A} (I : W -> Prop) (m : M W A)
    (h : pystr -> M W A) :
  preserved I m -> (forall e, preserved I (h e)) ->
  preserved I (try_except m h).
Proof.
  intros Hm Hh w r w'. unfold try_except.
  destruct (m w) as [[a|e] w1] eqn:Hmw.
  - intros [= <- <-] Hw. eapply Hm; [exact Hmw|done].
  - intros Hhw Hw. eapply Hh; [exact Hhw|]. eapply Hm; [exact Hmw|done].
Qed.

Lemma preserved_run {A} (I : W -> Prop) (m : M W A) (w : W) :
  preserved I m -> I w -> I (m w).2.
Proof. intros Hm Hw. destruct (m w) as [r w'] eqn:Hr. by eapply Hm. Qed.

Lemma preserved_when (I : W -> Prop) (b : bool) (m : M W unit) :
  preserved I m -> preserved I (when b m).
Proof. destruct b; [done|]. intros _. apply preserved_ret. Qed.

Lemma preserved_for_enumerate {X} (I : W -> Prop)
    (f : nat -> X -> M W unit) (start : nat) (l : list X) :
  (forall i x, x ∈ l -> preserved I (f i x)) ->
  preserved I (for_enumerate f start l).
Proof.
  revert start. induction l as [|x l IH]; intros start Hf; simpl.
  - apply preserved_ret.
  - apply preserved_bind.
    + apply Hf. by left.
    + intros _. apply IH. intros i y Hy. apply Hf. by right.
Qed.

Lemma preserved_for_each {X} (I : W -> Prop) (f : X -> M W unit)
    (l : list X) :
  (forall x, x ∈ l -> preserved I (f x)) -> preserved I (for_each f l).
Proof. intros Hf. apply preserved_for_enumerate. auto. Qed.

(** A loop over two lists in a row is the two loops in a row. *)
Lemma for_enumerate_app {X} (f : nat -> X -> M W unit) (start : nat)
    (l1 l2 : list X) (w : W) :
  for_enumerate f start (l1 ++ l2) w
  = match for_enumerate f start l1 w with
    | (Ok _, w1) => for_enumerate f (start + length l1) l2 w1
    | (Raise e, w1) => (Raise e, w1)
    end.
Proof.
  revert start w. induction l1 as [|x l1 IH]; intros start w; simpl.
  - unfold ret. by rewrite Nat.add_0_r.
  - unfold mbind, M_bind, bind.
    destruct (f start x w) as [[[]|e] w1]; [|done].
    rewrite IH. by rewrite Nat.add_succ_r.
Qed.

End Monad.

(** ** The criteria of the second script *)

Section BuildCriteria.

Import FetcherB.

Context (now : datetime).

(** Building the criteria reads the clock and leaves the state alone,
    whether it returns or raises. *)
Lemma build_criteria_state (only_unread : bool) (search_term : option pystr)
    (days_limit : option Z) (w : state) :
  (build_criteria now only_unread search_term days_limit w).2 = w.
Proof.
  unfold build_criteria.
  destruct (truthy_int days_limit); [|done].
  by destruct (sub_days now _).
Qed.

Lemma preserved_build_criteria (I : state -> Prop) (only_unread : bool)
    (search_term : option pystr) (days_limit : option Z) :
  preserved I (build_criteria now only_unread search_term days_limit).
Proof.
  intros w r w' Hrun.
  pose proof (build_criteria_state only_unread search_term days_limit w) as Hw.
  rewrite Hrun in Hw. simpl in Hw. by subst w'.
Qed.

(** With a limit that counts, the criteria are never built: the moment
    [now - n days] is a [datetime.datetime], which [AND(date_gte=...)]
    refuses. *)
Lemma build_criteria_days (only_unread : bool) (search_term : option pystr)
    (n : Z) (bound : datetime) (w : state) :
  n <> 0%Z -> sub_days now n = Some bound ->
  build_criteria now only_unread search_term (Some n) w
  = (Raise (lit "TypeError"), w).
Proof.
  intros Hn Hb. unfold build_criteria, truthy_int.
  by rewrite (proj2 (Z.eqb_neq n 0) Hn), Hb.
Qed.

End BuildCriteria.

(** ** Only PDF attachments reach the disk (Fetcher B) *)

Section OnlyPdfB.

Import Os FetcherB.

Context (lib : mail_library) (now : datetime) (lower : pystr -> pystr).
Context (fs0 : filesystem).

Local Abbreviation I := (files_from_pdf lib lower fs0).

Lemma files_from_pdf_same_B (w w' : state) :
  files (fs w') = files (fs w) -> I w -> I w'.
Proof. intros Heq Hw path data. rewrite Heq. apply Hw. Qed.

Lemma preserved_print_B (l : printed) : preserved I (print l).
Proof.
  apply preserved_modify. intros w Hw. by apply (files_from_pdf_same_B w).
Qed.

Lemma preserved_called_B (c : call) : preserved I (called c).
Proof.
  apply preserved_modify. intros w Hw. by apply (files_from_pdf_same_B w).
Qed.

Lemma preserved_get_monthly_folder_B (d : datetime) (base : pystr) :
  preserved I (get_monthly_folder d base).
Proof.
  intros w r w'.
  unfold get_monthly_folder, mbind, M_bind, bind, get, when, set_fs, modify, ret.
  destruct (negb _); intros [= <- <-] Hw;
    (apply (files_from_pdf_same_B w); [reflexivity|done]).
Qed.

Lemma preserved_save_attachment_B (folder : pystr) (a : attachment)
    (n : nat) (q : option query) (m : message) :
  Yield (Ok m) ∈ fetch lib n q -> a ∈ msg_attachments m ->
  preserved I (save_attachment lower folder a).
Proof.
  intros Hm Ha w r w'.
  destruct (endswith (lower (att_filename a)) (lit ".pdf")) eqn:Hpdf.
  - destruct (save_attachment_pdf lower folder a w Hpdf) as (p & _ & ->).
    intros [= <- <-] Hw path data. simpl.
    destruct (decide (path = p)) as [->|Hne].
    + rewrite lookup_insert_eq. intros [= <-]. right.
      by exists n, q, m, a.
    + rewrite lookup_insert_ne by done. apply Hw.
  - rewrite save_attachment_other by done. by intros [= <- <-].
Qed.

Lemma preserved_process_message_B (output_dir : pystr) (debug : bool)
    (total i n : nat) (q : option query) (it : item) :
  it ∈ fetch lib n q ->
  preserved I (process_message lower output_dir debug total i it).
Proof.
  intros Hit. destruct it as [[m|e]|e]; simpl.
  - apply preserved_bind_ok.
    apply preserved_bind; [apply preserved_print_B|intros _].
    apply preserved_bind; [apply preserved_get_monthly_folder_B|intros folder].
    apply preserved_bind; [apply preserved_when, preserved_print_B|intros _].
    apply preserved_when, preserved_for_each. intros a Ha.
    by apply (preserved_save_attachment_B folder a n q m).
  - apply preserved_bind_raise.
  - apply preserved_raise.
Qed.

Lemma preserved_count_items_B (l : list item) (n : nat) :
  preserved I (count_items l n).
Proof.
  revert n. induction l as [|[m|e] l IH]; intros n; simpl;
    [apply preserved_ret | apply IH | apply preserved_raise].
Qed.

Lemma preserved_or_raise_B (r : option pystr) : preserved I (or_raise r).
Proof. destruct r; [apply preserved_raise | apply preserved_ret]. Qed.

Lemma preserved_build_criteria_B (only_unread : bool)
    (search_term : option pystr) (days_limit : option Z) :
  preserved I (build_criteria now only_unread search_term days_limit).
Proof. apply preserved_build_criteria. Qed.

Lemma preserved_session_B (email password server output_dir : pystr)
    (days_limit : option Z) (folder_name : pystr) (only_unread : bool)
    (search_term : option pystr) (debug : bool) :
  preserved I (session lib now lower email password server output_dir
                       days_limit folder_name only_unread search_term debug).
Proof.
  unfold session.
  repeat first
    [ apply preserved_when
    | apply preserved_print_B
    | apply preserved_called_B
    | apply preserved_or_raise_B
    | apply preserved_build_criteria_B
    | apply preserved_count_items_B
    | apply preserved_bind; [|intros ?] ].
  apply preserved_for_enumerate. intros i it Hit.
  by eapply preserved_process_message_B.
Qed.

(** The invariant holds when the run is over. *)
Lemma download_files_from_pdf_B (email password server output_dir : pystr)
    (days_limit : option Z) (folder_name : pystr) (only_unread : bool)
    (search_term : option pystr) (debug : bool) :
  I (download_pdf_attachments lib now lower email password server output_dir
       days_limit folder_name only_unread search_term debug fs0).2.
Proof.
  unfold download_pdf_attachments.
  rewrite run_bind_get. cbn [fs]. rewrite run_bind_when.
  destruct (negb (exists_ fs0 output_dir));
    [rewrite run_bind_assoc; unfold set_fs at 1; rewrite run_bind_modify|];
    cbv beta;
    (apply preserved_run; [|intros path data; by left]).
  1: apply preserved_bind; [apply preserved_print_B|intros _].
  all: apply preserved_bind;
    [ apply preserved_try_except;
      [ apply preserved_session_B
      | intros e; apply preserved_bind;
          [apply preserved_print_B|intros _; apply preserved_print_B] ]
    | intros _ ].
  all: apply preserved_bind; [apply preserved_get|intros w].
  all: apply preserved_bind;
    [apply preserved_print_B|intros _; apply preserved_ret].
Qed.

End OnlyPdfB.

(** ** Only PDF parts reach the disk (Fetcher A) *)

Section OnlyPdfA.

Import Os FetcherA.

Context (srv : imap_server) (clk : clock).
Context (output_dir : pystr) (fs0 : filesystem).

Local Abbreviation I := (files_from_pdf srv output_dir fs0).

Lemma is_pdf_attachment_true (p : part) :
  is_pdf_attachment p = true <->
  contains (content_disposition p) (lit "attachment") = true
  /\ content_type p = lit "application/pdf".
Proof.
  unfold is_pdf_attachment, str_eqb.
  rewrite andb_true_iff, bool_decide_eq_true. done.
Qed.

(** A part that is not of type application/pdf, or not an attachment, or
    without a file name, leaves everything as it is. *)
Lemma process_part_skip (subject : pystr) (i j : nat) (p : part) (w : state) :
  is_pdf_attachment p = false
  \/ part_filename p = None \/ part_filename p = Some [] ->
  process_part clk output_dir subject i j p w = (Ok tt, w).
Proof.
  unfold process_part. intros [->|[->| ->]]; [done| |];
    by destruct (is_pdf_attachment p).
Qed.

Lemma files_from_pdf_same_A (w w' : state) :
  files (fs w') = files (fs w) ->
  downloaded_files w' = downloaded_files w ->
  I w -> I w'.
Proof. intros Hf Hd [H1 H2]. split; intros path; rewrite ?Hf, ?Hd; auto. Qed.

Lemma preserved_process_part_A (subject : pystr) (i j : nat) (p : part)
    (message_id : bytes) (status : pystr) (msg : message) :
  fetch srv message_id = Ok (status, Ok msg) -> p ∈ walk msg ->
  preserved I (process_part clk output_dir subject i j p).
Proof.
  intros Hfetch Hp w r w'.
  destruct (is_pdf_attachment p) eqn:Hpdf;
    [|rewrite process_part_skip by auto; by intros [= <- <-]].
  destruct (part_filename p) as [[|c filename]|] eqn:Hfn;
    [rewrite process_part_skip by auto; by intros [= <- <-]| |
     rewrite process_part_skip by auto; by intros [= <- <-]].
  apply is_pdf_attachment_true in Hpdf as [Hdisp Htype].
  assert (Hfrom : forall data,
            data = [] \/ part_payload p = Some data ->
            from_pdf_part srv output_dir
              (join output_dir
                 (unique_filename_of subject
                    (strftime_stamp (now_save clk i j))
                    (re_sub_class reserved underscore (c :: filename))))
              data).
  { intros data Hdata.
    by exists message_id, status, msg, p, (c :: filename), subject,
              (now_save clk i j). }
  unfold process_part. rewrite (proj2 (is_pdf_attachment_true p)) by done.
  rewrite Hfn. cbn [truthy].
  unfold clean_filename, FetcherA_clean.clean_filename. cbn [truthy lift].
  unfold mbind, M_bind, bind, ret, get, open_wb.
  case_bool_decide as Hdir; cbn [lift raise].
  { unfold raise. by intros [= <- <-]. }
  unfold ret, set_fs, modify. cbn [fs out calls downloaded_files].
  destruct (part_payload p) as [data|] eqn:Hpay.
  - unfold print, append_downloaded, modify.
    cbn [fs out calls downloaded_files].
    intros [= <- <-] [Hfiles Hdl]. split; cbn [fs downloaded_files].
    + intros path d. unfold write. cbn [files].
      destruct (decide (path = join output_dir
          (unique_filename_of subject (strftime_stamp (now_save clk i j))
             (re_sub_class reserved underscore (c :: filename)))))
        as [->|Hne].
      * rewrite lookup_insert_eq. intros [= <-]. right. apply Hfrom. by right.
      * rewrite !lookup_insert_ne by done. apply Hfiles.
    + intros path [Hin| ->%list_elem_of_singleton]%elem_of_app; [by apply Hdl|].
      exists data. apply Hfrom. by right.
  - unfold raise. intros [= <- <-] [Hfiles Hdl]. split;
      cbn [fs downloaded_files]; [|done].
    intros path d. cbn [files].
    destruct (decide (path = join output_dir
        (unique_filename_of subject (strftime_stamp (now_save clk i j))
           (re_sub_class reserved underscore (c :: filename)))))
      as [->|Hne].
    + rewrite lookup_insert_eq. intros [= <-]. right. apply Hfrom. by left.
    + rewrite lookup_insert_ne by done. apply Hfiles.
Qed.

Lemma preserved_print_A (l : printed) : preserved I (print l).
Proof.
  apply preserved_modify. intros w Hw. by apply (files_from_pdf_same_A w).
Qed.

Lemma preserved_called_A (c : call) : preserved I (called c).
Proof.
  apply preserved_modify. intros w Hw. by apply (files_from_pdf_same_A w).
Qed.

Lemma preserved_or_raise_A (r : option pystr) : preserved I (or_raise r).
Proof. destruct r; [apply preserved_raise | apply preserved_ret]. Qed.

Lemma preserved_subject_of_A (msg : message) : preserved I (subject_of msg).
Proof.
  unfold subject_of. destruct (msg_subject msg) as [[s|e]|].
  - apply preserved_bind_ok, preserved_lift.
  - apply preserved_bind_raise.
  - apply preserved_ret.
Qed.

Lemma preserved_process_message_A (total i : nat) (message_id : bytes) :
  preserved I (process_message srv clk output_dir total i message_id).
Proof.
  unfold process_message.
  apply preserved_bind; [apply preserved_print_A|intros _].
  apply preserved_bind; [apply preserved_called_A|intros _].
  destruct (fetch srv message_id) as [[status data]|e] eqn:Hfetch;
    [apply preserved_bind_ok|apply preserved_bind_raise].
  destruct (negb (str_eqb status (lit "OK"))); [apply preserved_print_A|].
  destruct data as [msg|e];
    [apply preserved_bind_ok|apply preserved_bind_raise].
  apply preserved_bind; [apply preserved_subject_of_A|intros subject].
  apply preserved_when, preserved_for_enumerate. intros j p Hp.
  by eapply preserved_process_part_A.
Qed.

Lemma preserved_message_loop_A (message_ids : list bytes) :
  preserved I (message_loop srv clk output_dir message_ids).
Proof.
  apply preserved_for_enumerate. intros i message_id _.
  apply preserved_try_except; [apply preserved_process_message_A|].
  intros e. apply preserved_print_A.
Qed.

Lemma preserved_date_limited_A (search_criteria : pystr)
    (days_limit : option Z) :
  preserved I (date_limited clk search_criteria days_limit).
Proof.
  unfold date_limited. destruct (truthy_int days_limit); [|apply preserved_ret].
  destruct (sub_days _ _); [apply preserved_ret|apply preserved_raise].
Qed.

(** The invariant holds when the run is over. *)
Lemma download_files_from_pdf_A (email_address password imap_server : pystr)
    (imap_port : Z) (search_criteria : pystr) (days_limit : option Z) :
  I (download_pdf_attachments srv clk email_address password imap_server
       imap_port search_criteria output_dir days_limit fs0).2.
Proof.
  unfold download_pdf_attachments.
  rewrite run_bind_get. cbn [fs]. rewrite run_bind_when.
  destruct (negb (exists_ fs0 output_dir));
    [rewrite run_bind_assoc; unfold set_fs at 1; rewrite run_bind_modify|];
    cbv beta;
    (apply preserved_run;
     [|split; [by left|]; intros path Hin; by apply elem_of_nil in Hin]).
  1: apply preserved_bind; [apply preserved_print_A|intros _].
  all: apply preserved_bind.
  all: try (apply preserved_try_except;
    [ repeat first [ apply preserved_called_A | apply preserved_or_raise_A
                   | apply preserved_ret | apply preserved_bind; [|intros ?] ]
    | intros e; apply preserved_bind;
        [apply preserved_print_A|intros _; apply preserved_ret] ]).
  all: intros [e|]; [apply preserved_ret|].
  all: apply preserved_bind; [apply preserved_print_A|intros _].
  all: apply preserved_bind; [apply preserved_called_A|intros _].
  all: apply preserved_bind; [apply preserved_or_raise_A|intros _].
  all: apply preserved_bind; [apply preserved_date_limited_A|intros crit].
  all: apply preserved_bind; [apply preserved_called_A|intros _].
  all: apply preserved_bind; [apply preserved_lift|intros [status ids]].
  all: destruct (negb (str_eqb status (lit "OK")));
    repeat first [ apply preserved_called_A | apply preserved_print_A
                 | apply preserved_or_raise_A
                 | apply preserved_message_loop_A | apply preserved_get
                 | apply preserved_ret | apply preserved_bind; [|intros ?] ].
Qed.

End OnlyPdfA.

(** C4, amended: each script has its own test of what a PDF is, and what
    fails the test is passed over, whatever its disposition, and never
    reaches the disk.  The first script tests the type of the part, which
    has to be application/pdf; the second tests the name of the
    attachment, which has to end in [.pdf] once in lower case, and does
    not look at its type.
    - In the first script, handling a part of another type changes
      nothing: no file, no printed line, no path in the result.
    - After a run of the first script every file is as it was before the
      run or was saved from a part of type application/pdf (with an
      attachment disposition and a file name) of a fetched message, and
      so was every path of the result.
    - In the second script, handling an attachment of another name
      changes nothing, whatever its type.
    - After a run of the second script every file is as it was before the
      run or holds the payload of an attachment with such a name.
    - In the second script two attachments with the same name and the
      same payload are handled alike, whatever their types. *)
Theorem only_pdf_written :
  (forall (clk : FetcherA.clock) (output_dir subject : pystr) (i j : nat)
          (p : FetcherA.part) (w : FetcherA.state),
     FetcherA.content_type p <> lit "application/pdf" ->
     FetcherA.process_part clk output_dir subject i j p w = (Ok tt, w))
  /\ (forall (srv : FetcherA.imap_server) (clk : FetcherA.clock)
             (email_address password imap_server : pystr) (imap_port : Z)
             (search_criteria output_dir : pystr) (days_limit : option Z)
             (fs0 : Os.filesystem),
        FetcherA.files_from_pdf srv output_dir fs0
          (FetcherA.download_pdf_attachments srv clk email_address password
             imap_server imap_port search_criteria output_dir days_limit
             fs0).2)
  /\ (forall (lower : pystr -> pystr) (monthly_folder : pystr)
             (att : FetcherB.attachment) (w : FetcherB.state),
        endswith (lower (FetcherB.att_filename att)) (lit ".pdf") = false ->
        FetcherB.save_attachment lower monthly_folder att w = (Ok tt, w))
  /\ (forall (lib : FetcherB.mail_library) (now : datetime)
             (lower : pystr -> pystr)
             (email password server output_dir : pystr)
             (days_limit : option Z) (folder_name : pystr)
             (only_unread : bool) (search_term : option pystr) (debug : bool)
             (fs0 : Os.filesystem),
        FetcherB.files_from_pdf lib lower fs0
          (FetcherB.download_pdf_attachments lib now lower email password
             server output_dir days_limit folder_name only_unread
             search_term debug fs0).2)
  /\ (forall (lower : pystr -> pystr) (monthly_folder : pystr)
             (att att' : FetcherB.attachment) (w : FetcherB.state),
        FetcherB.att_filename att = FetcherB.att_filename att' ->
        FetcherB.att_payload att = FetcherB.att_payload att' ->
        FetcherB.save_attachment lower monthly_folder att w
        = FetcherB.save_attachment lower monthly_folder att' w).
Proof.
  split; [|split; [|split; [|split]]].
  - intros clk output_dir subject i j p w Htype.
    apply process_part_skip. left.
    unfold FetcherA.is_pdf_attachment, str_eqb.
    rewrite bool_decide_eq_false_2 by done. apply andb_false_r.
  - intros. apply download_files_from_pdf_A.
  - intros. by apply save_attachment_other.
  - intros. apply download_files_from_pdf_B.
  - intros lower monthly_folder att att' w Hname Hpayload.
    unfold FetcherB.save_attachment. by rewrite Hname, Hpayload.
Qed.

(** C4 as stated fails in the second script: a PNG image that is sent
    under the name [photo.pdf] passes the test of the name, and the run
    writes it to the disk and returns its path. *)
Lemma image_named_pdf_written_B :
  FetcherB.att_content_type Examples.photo_named_pdf = lit "image/png"
  /\ (Examples.runB Examples.lib_photo).1
     = Ok [lit "out/2025-05/photo.pdf"]
  /\ Os.files (FetcherB.fs (Examples.runB Examples.lib_photo).2)
       !! lit "out/2025-05/photo.pdf"
     = Some Examples.png_signature.
Proof. split; [reflexivity|]. split; vm_compute; reflexivity. Qed.

(** ** Failure to connect or to log in *)

(** C8: when the connection or the login raises, either script catches the
    exception at its top level, prints it, and returns the empty list.
    The server has been called once to connect (and once to log in, when
    that is the call that fails) and never again: nothing is searched or
    fetched, and there is no second attempt.  No file is written. *)
Theorem connection_failure_ends_run :
  (forall (srv : FetcherA.imap_server) (clk : FetcherA.clock)
          (email_address password imap_server : pystr) (imap_port : Z)
          (search_criteria output_dir : pystr) (days_limit : option Z)
          (fs0 : Os.filesystem) (e : pystr),
     let run :=
       FetcherA.download_pdf_attachments srv clk email_address password
         imap_server imap_port search_criteria output_dir days_limit fs0 in
     let created :=
       if Os.exists_ fs0 output_dir then []
       else [FetcherA.CreatedDirectory output_dir] in
     (FetcherA.IMAP4_SSL srv imap_server imap_port = Some e ->
      run.1 = Ok []
      /\ FetcherA.out run.2 = created ++ [FetcherA.ErrorConnecting e]
      /\ FetcherA.calls run.2 = [FetcherA.CallConnect imap_server imap_port]
      /\ Os.files (FetcherA.fs run.2) = Os.files fs0)
     /\ (FetcherA.IMAP4_SSL srv imap_server imap_port = None ->
         FetcherA.login srv email_address password = Some e ->
         run.1 = Ok []
         /\ FetcherA.out run.2 = created ++ [FetcherA.ErrorConnecting e]
         /\ FetcherA.calls run.2
            = [FetcherA.CallConnect imap_server imap_port;
               FetcherA.CallLogin email_address password]
         /\ Os.files (FetcherA.fs run.2) = Os.files fs0))
  /\ (forall (lib : FetcherB.mail_library) (now : datetime)
             (lower : pystr -> pystr)
             (email password server output_dir : pystr)
             (days_limit : option Z) (folder_name : pystr)
             (only_unread : bool) (search_term : option pystr) (debug : bool)
             (fs0 : Os.filesystem) (e : pystr),
        let run :=
          FetcherB.download_pdf_attachments lib now lower email password
            server output_dir days_limit folder_name only_unread search_term
            debug fs0 in
        let printed :=
          (if Os.exists_ fs0 output_dir then []
           else [FetcherB.CreatedDirectory output_dir])
          ++ (if debug then [FetcherB.Connecting server email] else [])
          ++ [FetcherB.Error e; FetcherB.EnsureCorrect;
              FetcherB.DownloadedCount 0] in
        (FetcherB.MailBox lib server 993%Z = Some e ->
         run.1 = Ok []
         /\ FetcherB.out run.2 = printed
         /\ FetcherB.calls run.2 = [FetcherB.CallMailBox server 993%Z]
         /\ Os.files (FetcherB.fs run.2) = Os.files fs0)
        /\ (FetcherB.MailBox lib server 993%Z = None ->
            FetcherB.login lib email password folder_name = Some e ->
            run.1 = Ok []
            /\ FetcherB.out run.2 = printed
            /\ FetcherB.calls run.2
               = [FetcherB.CallMailBox server 993%Z;
                  FetcherB.CallLogin email password folder_name]
            /\ Os.files (FetcherB.fs run.2) = Os.files fs0)).
Proof.
  split.
  - intros srv clk email_address password imap_server imap_port
           search_criteria output_dir days_limit fs0 e run created.
    subst run created. unfold FetcherA.download_pdf_attachments.
    split.
    + intros Hc.
      unfold mbind, M_bind, bind, try_except, get, when, ret,
        FetcherA.set_fs, FetcherA.print, FetcherA.called, modify.
      cbn [FetcherA.fs]. rewrite Hc.
      destruct (Os.exists_ fs0 output_dir); cbn; done.
    + intros Hc Hl.
      unfold mbind, M_bind, bind, try_except, get, when, ret,
        FetcherA.set_fs, FetcherA.print, FetcherA.called, modify.
      cbn [FetcherA.fs]. rewrite Hc, Hl.
      destruct (Os.exists_ fs0 output_dir); cbn; done.
  - intros lib now lower email password server output_dir days_limit
           folder_name only_unread search_term debug fs0 e run printed.
    subst run printed.
    unfold FetcherB.download_pdf_attachments, FetcherB.session.
    split.
    + intros Hc.
      unfold mbind, M_bind, bind, try_except, get, when, ret,
        FetcherB.set_fs, FetcherB.print, FetcherB.called, modify.
      cbn [FetcherB.fs]. rewrite Hc.
      destruct (Os.exists_ fs0 output_dir), debug; cbn; done.
    + intros Hc Hl.
      unfold mbind, M_bind, bind, try_except, get, when, ret,
        FetcherB.set_fs, FetcherB.print, FetcherB.called, modify.
      cbn [FetcherB.fs]. rewrite Hc, Hl.
      destruct (Os.exists_ fs0 output_dir), debug; cbn; done.
Qed.

Lemma connection_failure_ends_run_witness :
  (FetcherA.download_pdf_attachments
     {| FetcherA.IMAP4_SSL := fun _ _ => Some (lit "refused");
        FetcherA.login := fun _ _ => None;
        FetcherA.select := fun _ => None;
        FetcherA.search := fun _ => Ok (lit "OK", []);
        FetcherA.fetch := fun _ => Raise (lit "no message");
        FetcherA.logout := None |}
     Examples.clkA (lit "me@example.org") (lit "secret")
     (lit "imap.example.org") 993%Z (lit "ALL") (lit "out") None
     Examples.empty_fs).1
  = Ok [].
Proof.
  destruct connection_failure_ends_run as [HA _].
  pose proof (HA {| FetcherA.IMAP4_SSL := fun _ _ => Some (lit "refused");
                    FetcherA.login := fun _ _ => None;
                    FetcherA.select := fun _ => None;
                    FetcherA.search := fun _ => Ok (lit "OK", []);
                    FetcherA.fetch := fun _ => Raise (lit "no message");
        FetcherA.logout := None |}
                 Examples.clkA (lit "me@example.org") (lit "secret")
                 (lit "imap.example.org") 993%Z (lit "ALL") (lit "out") None
                 Examples.empty_fs (lit "refused")) as Hrun.
  cbv zeta in Hrun. destruct Hrun as [Hconn _].
  apply Hconn. reflexivity.
Defined.

(** ** Isolation of the messages (Fetcher A) *)

Section IsolationA.

Import Os FetcherA.

Lemma run_bind_print_A {B} (l : printed) (k : unit -> M state B) (w : state) :
  (print l ≫= k) w
  = k tt {| fs := fs w; out := out w ++ [l]; calls := calls w;
            downloaded_files := downloaded_files w |}.
Proof. done. Qed.

Lemma run_bind_called_A {B} (c : call) (k : unit -> M state B) (w : state) :
  (called c ≫= k) w
  = k tt {| fs := fs w; out := out w; calls := calls w ++ [c];
            downloaded_files := downloaded_files w |}.
Proof. done. Qed.

Lemma uniform_ret {A} (a : A) : uniform (ret a).
Proof.
  intros w1 w2 _. exists (Ok a), [], w1, w2.
  by rewrite !app_nil_r.
Qed.

Lemma uniform_raise {A} (e : pystr) : uniform (raise e : M state A).
Proof.
  intros w1 w2 _. exists (Raise e), [], w1, w2.
  by rewrite !app_nil_r.
Qed.

Lemma uniform_lift {A} (x : result A) : uniform (lift x).
Proof. destruct x; [apply uniform_ret | apply uniform_raise]. Qed.

Lemma uniform_modify (f : state -> state) (added : list pystr) :
  (forall w, dirs (fs (f w)) = dirs (fs w)
             /\ downloaded_files (f w) = downloaded_files w ++ added) ->
  uniform (modify f).
Proof.
  intros Hf w1 w2 _. exists (Ok tt), added, (f w1), (f w2).
  destruct (Hf w1) as [Hd1 Ha1], (Hf w2) as [Hd2 Ha2].
  by repeat split.
Qed.

Lemma uniform_print (l : printed) : uniform (print l).
Proof.
  apply (uniform_modify _ []). intros w. simpl. by rewrite app_nil_r.
Qed.

Lemma uniform_called (c : call) : uniform (called c).
Proof.
  apply (uniform_modify _ []). intros w. simpl. by rewrite app_nil_r.
Qed.

Lemma uniform_bind {A B} (m : M state A) (k : A -> M state B) :
  uniform m -> (forall a, uniform (k a)) -> uniform (m ≫= k).
Proof.
  intros Hm Hk w1 w2 Hw.
  destruct (Hm w1 w2 Hw) as (r & d & w1' & w2' & H1 & H2 & S1 & S2 & D1 & D2).
  unfold mbind, M_bind, bind. rewrite H1, H2. destruct r as [a|e].
  - assert (Hw' : same_dirs w1' w2') by (unfold same_dirs in *; congruence).
    destruct (Hk a w1' w2' Hw')
      as (r & d' & w1'' & w2'' & K1 & K2 & T1 & T2 & E1 & E2).
    exists r, (d ++ d'), w1'', w2''.
    rewrite K1, K2, E1, E2, D1, D2, !app_assoc.
    unfold same_dirs in *. repeat split; congruence.
  - by exists (Raise e), d, w1', w2'.
Qed.

Lemma uniform_bind_ok {A B} (a : A) (k : A -> M state B) :
  uniform (k a) -> uniform (lift (Ok a) ≫= k).
Proof. intros H w1 w2. exact (H w1 w2). Qed.

Lemma uniform_bind_raise {A B} (e : pystr) (k : A -> M state B) :
  uniform (lift (Raise e) ≫= k).
Proof.
  intros w1 w2 _. exists (Raise e), [], w1, w2. by rewrite !app_nil_r.
Qed.

Lemma uniform_try_except {A} (m : M state A) (h : pystr -> M state A) :
  uniform m -> (forall e, uniform (h e)) -> uniform (try_except m h).
Proof.
  intros Hm Hh w1 w2 Hw.
  destruct (Hm w1 w2 Hw) as (r & d & w1' & w2' & H1 & H2 & S1 & S2 & D1 & D2).
  unfold try_except. rewrite H1, H2. destruct r as [a|e].
  - by exists (Ok a), d, w1', w2'.
  - assert (Hw' : same_dirs w1' w2') by (unfold same_dirs in *; congruence).
    destruct (Hh e w1' w2' Hw')
      as (r & d' & w1'' & w2'' & K1 & K2 & T1 & T2 & E1 & E2).
    exists r, (d ++ d'), w1'', w2''.
    rewrite K1, K2, E1, E2, D1, D2, !app_assoc.
    unfold same_dirs in *. repeat split; congruence.
Qed.

Lemma uniform_when (b : bool) (m : M state unit) :
  uniform m -> uniform (when b m).
Proof. destruct b; [done|]. intros _. apply uniform_ret. Qed.

Lemma uniform_for_enumerate {X} (f : nat -> X -> M state unit) (start : nat)
    (l : list X) :
  (forall i x, uniform (f i x)) -> uniform (for_enumerate f start l).
Proof.
  intros Hf. revert start. induction l as [|x l IH]; intros start; simpl.
  - apply uniform_ret.
  - apply uniform_bind; [apply Hf|]. intros _. apply IH.
Qed.

Context (srv : imap_server) (clk : clock) (output_dir : pystr).

Lemma uniform_process_part (subject : pystr) (i j : nat) (p : part) :
  uniform (process_part clk output_dir subject i j p).
Proof.
  unfold process_part.
  destruct (is_pdf_attachment p); [|apply uniform_ret].
  destruct (part_filename p) as [[|c filename]|];
    [apply uniform_ret| |apply uniform_ret].
  cbn [truthy]. unfold clean_filename, FetcherA_clean.clean_filename.
  cbn [truthy]. apply uniform_bind_ok.
  intros w1 w2 Hw. unfold same_dirs in Hw.
  unfold mbind, M_bind, bind, get, open_wb. rewrite <- Hw.
  case_bool_decide as Hdir; cbn [lift raise ret].
  { exists (Raise (lit "IsADirectoryError")), [], w1, w2.
    by rewrite !app_nil_r. }
  unfold ret, raise, set_fs, print, append_downloaded, modify.
  cbn [fs out calls downloaded_files].
  destruct (part_payload p) as [data|]; cbn [fs out calls downloaded_files].
  - eexists (Ok tt), [_], _, _. by repeat split.
  - eexists (Raise _), [], _, _.
    repeat split; cbn [fs out calls downloaded_files]; by rewrite ?app_nil_r.
Qed.

Lemma uniform_subject_of (msg : message) : uniform (subject_of msg).
Proof.
  unfold subject_of. destruct (msg_subject msg) as [[s|e]|].
  - apply uniform_bind_ok, uniform_lift.
  - apply uniform_bind_raise.
  - apply uniform_ret.
Qed.

Lemma uniform_process_message (total i : nat) (message_id : bytes) :
  uniform (process_message srv clk output_dir total i message_id).
Proof.
  unfold process_message.
  apply uniform_bind; [apply uniform_print|intros _].
  apply uniform_bind; [apply uniform_called|intros _].
  destruct (fetch srv message_id) as [[status data]|e];
    [apply uniform_bind_ok|apply uniform_bind_raise].
  destruct (negb (str_eqb status (lit "OK"))); [apply uniform_print|].
  destruct data as [msg|e];
    [apply uniform_bind_ok|apply uniform_bind_raise].
  apply uniform_bind; [apply uniform_subject_of|intros subject].
  apply uniform_when, uniform_for_enumerate. intros j p.
  apply uniform_process_part.
Qed.

Lemma uniform_iteration (total i : nat) (message_id : bytes) :
  uniform (iteration srv clk output_dir total i message_id).
Proof.
  apply uniform_try_except; [apply uniform_process_message|].
  intros e. apply uniform_print.
Qed.

(** An iteration never raises: what its [try] block raises is caught. *)
Lemma iteration_returns (total i : nat) (message_id : bytes) (w : state) :
  (iteration srv clk output_dir total i message_id w).1 = Ok tt.
Proof.
  unfold iteration, try_except.
  by destruct (process_message _ _ _ _ _ _ w) as [[[]|e] w'].
Qed.

(** An iteration asks the server for its message, and for nothing else. *)
Lemma iteration_calls (total i : nat) (message_id : bytes) (w : state) :
  calls (iteration srv clk output_dir total i message_id w).2
  = calls w ++ [CallFetch message_id].
Proof.
  set (J := fun w' : state => calls w' = calls w ++ [CallFetch message_id]).
  assert (HJprint : forall l, preserved J (print l)).
  { intros l. by apply preserved_modify. }
  assert (HJpart : forall subject j p,
            preserved J (process_part clk output_dir subject i j p)).
  { intros subject j p w1 r w1'. unfold process_part.
    destruct (is_pdf_attachment p); [|by intros [= <- <-]].
    destruct (part_filename p) as [[|c filename]|];
      [by intros [= <- <-]| |by intros [= <- <-]].
    cbn [truthy]. unfold clean_filename, FetcherA_clean.clean_filename.
    cbn [truthy lift].
    unfold mbind, M_bind, bind, ret, get, open_wb.
    case_bool_decide; cbn [lift raise ret];
      [unfold raise; by intros [= <- <-]|].
    unfold ret, raise, set_fs, print, append_downloaded, modify.
    cbn [fs out calls downloaded_files].
    destruct (part_payload p); by intros [= <- <-]. }
  unfold iteration, try_except, process_message.
  rewrite run_bind_print_A, run_bind_called_A.
  match goal with
  | |- context [ (?m ≫= ?k) ?w0 ] =>
      assert (Hrest : forall r w', (m ≫= k) w0 = (r, w') -> J w')
  end.
  { intros r w'. intros Hrun.
    eapply (preserved_bind J); [apply preserved_lift| |exact Hrun|done].
    intros [status data].
    destruct (negb (str_eqb status (lit "OK"))); [apply HJprint|].
    apply preserved_bind; [apply preserved_lift|intros msg].
    apply preserved_bind; [|intros subject].
    { unfold subject_of. destruct (msg_subject msg) as [[x|e]|].
      - apply preserved_bind_ok, preserved_lift.
      - apply preserved_bind_raise.
      - apply preserved_ret. }
    apply preserved_when, preserved_for_enumerate. intros j p _. apply HJpart. }
  match goal with
  | |- context [ (?m ≫= ?k) ?w0 ] =>
      destruct ((m ≫= k) w0) as [[[]|e] w'] eqn:Hrun
  end.
  - exact (Hrest _ _ eq_refl).
  - exact (HJprint _ w' (Ok tt) _ eq_refl (Hrest _ _ eq_refl)).
Qed.

(** The loop never raises, fetches every message in turn, and returns,
    message by message, what each iteration would append if it were run
    on its own from the state [w0] the loop started in. *)
Lemma loop_from (total : nat) (l : list bytes) (start : nat) (w0 w : state) :
  same_dirs w0 w ->
  exists w' : state,
    for_enumerate (iteration srv clk output_dir total) start l w = (Ok tt, w')
    /\ same_dirs w0 w'
    /\ calls w' = calls w ++ map CallFetch l
    /\ downloaded_files w'
       = downloaded_files w
         ++ concat (imap (fun i message_id =>
                            appended (iteration srv clk output_dir total
                                        (start + i) message_id) w0) l).
Proof.
  revert start w. induction l as [|x l IH]; intros start w Hw.
  - exists w. simpl. by rewrite !app_nil_r.
  - destruct (uniform_iteration total start x w0 w Hw)
      as (r & d & w0' & w1 & H0 & H1 & S0 & S1 & D0 & D1).
    pose proof (iteration_returns total start x w) as Hok.
    pose proof (iteration_calls total start x w) as Hcalls.
    rewrite H1 in Hok, Hcalls. cbn [fst snd] in Hok, Hcalls. subst r.
    destruct (IH (S start) w1) as (w' & Hrun & Hs & Hc & Hd).
    { unfold same_dirs in *. congruence. }
    assert (Happ : appended (iteration srv clk output_dir total start x) w0 = d).
    { unfold appended. rewrite H0. cbn [snd]. rewrite D0.
      by rewrite drop_app_length. }
    exists w'. split; [|split; [done|split]].
    + cbn [for_enumerate]. unfold mbind, M_bind, bind. by rewrite H1.
    + rewrite Hc, Hcalls. cbn [map]. by rewrite <- app_assoc.
    + rewrite Hd, D1, imap_cons. cbn [concat].
      rewrite Nat.add_0_r, Happ, <- app_assoc.
      rewrite (imap_ext
                 (fun i message_id =>
                    appended (iteration srv clk output_dir total
                                (S start + i) message_id) w0)
                 ((fun i message_id =>
                     appended (iteration srv clk output_dir total
                                 (start + i) message_id) w0) ∘ S) l);
        [reflexivity|].
      intros i y _. unfold compose. by rewrite Nat.add_succ_r.
Qed.

(** A message whose fetch raises, or whose status is not OK, or whose
    parsing raises, costs a printed line and nothing else. *)
Lemma iteration_bad (total i : nat) (message_id : bytes) (w : state) :
  (exists e, fetch srv message_id = Raise e)
  \/ (exists status data, fetch srv message_id = Ok (status, data)
                          /\ status <> lit "OK")
  \/ (exists e, fetch srv message_id = Ok (lit "OK", Raise e)) ->
  exists line : printed,
    iteration srv clk output_dir total i message_id w
    = (Ok tt,
       {| fs := fs w;
          out := out w ++ [Processing (i + 1) total; line];
          calls := calls w ++ [CallFetch message_id];
          downloaded_files := downloaded_files w |})
    /\ (line = ErrorFetching message_id
        \/ exists e, line = ErrorProcessing message_id e).
Proof.
  intros Hbad. unfold iteration, try_except, process_message.
  rewrite run_bind_print_A, run_bind_called_A.
  destruct Hbad as [[e ->]|[(status & data & -> & Hst)|[e ->]]]; cbn [lift].
  - exists (ErrorProcessing message_id e). split; [|right; by exists e].
    rewrite run_bind_raise. unfold print, modify.
    cbn [fs out calls downloaded_files]. by rewrite <- app_assoc.
  - exists (ErrorFetching message_id). split; [|by left].
    rewrite run_bind_ret. cbv beta iota.
    unfold str_eqb. rewrite bool_decide_eq_false_2 by done. cbn [negb].
    unfold print, modify.
    cbn [fs out calls downloaded_files]. by rewrite <- app_assoc.
  - exists (ErrorProcessing message_id e). split; [|right; by exists e].
    rewrite run_bind_ret. cbv beta iota.
    unfold str_eqb. rewrite bool_decide_eq_true_2 by done. cbn [negb lift].
    rewrite run_bind_raise. unfold print, modify.
    cbn [fs out calls downloaded_files]. by rewrite <- app_assoc.
Qed.

End IsolationA.

(** ** No isolation of the messages (Fetcher B) *)

Section AbortB.

Import Os FetcherB.

Lemma run_bind_print_B {B} (l : printed) (k : unit -> M state B) (w : state) :
  (print l ≫= k) w
  = k tt {| fs := fs w; out := out w ++ [l]; calls := calls w;
            downloaded_files := downloaded_files w |}.
Proof. done. Qed.

Context (now : datetime) (lower : pystr -> pystr).

(** A malformed message stops its iteration at once. *)
Lemma process_message_malformed (output_dir : pystr)
    (debug : bool) (total i : nat) (e : pystr) (it : item) (w : state) :
  it = Yield (Raise e) \/ it = GenRaise e ->
  process_message lower output_dir debug total i it w = (Raise e, w).
Proof. by intros [-> | ->]. Qed.

(** The loop stops at the first malformed message: what follows it in the
    stream is not looked at. *)
Lemma loop_aborts (output_dir : pystr) (debug : bool)
    (total start : nat) (pre post : list item) (e : pystr) (it : item)
    (w : state) :
  it = Yield (Raise e) \/ it = GenRaise e ->
  for_enumerate (process_message lower output_dir debug total) start
    (pre ++ it :: post) w
  = match for_enumerate (process_message lower output_dir debug total)
            start pre w with
    | (Ok _, w1) => (Raise e, w1)
    | (Raise e', w1) => (Raise e', w1)
    end.
Proof.
  intros Hit. rewrite for_enumerate_app.
  destruct (for_enumerate _ start pre w) as [[[]|e'] w1]; [|done].
  cbn [for_enumerate]. unfold mbind, M_bind, bind.
  by rewrite (process_message_malformed _ _ _ _ e it w1 Hit).
Qed.

(** The loop over a stream is the loop over the stream cut after its
    first malformed message. *)
Lemma loop_cut (output_dir : pystr) (debug : bool) (total start : nat)
    (l : list item) (w : state) :
  for_enumerate (process_message lower output_dir debug total) start l w
  = for_enumerate (process_message lower output_dir debug total) start
      (cut l) w.
Proof.
  revert start w. induction l as [|[[m|e]|e] l IH]; intros start w;
    [done| |done|done].
  cbn [cut for_enumerate]. unfold mbind, M_bind, bind.
  destruct (process_message lower output_dir debug total start
              (Yield (Ok m)) w) as [[[]|e] w1]; [apply IH|done].
Qed.

Lemma bind_cong {A B} (m : M state A) (k1 k2 : A -> M state B) (w : state) :
  (forall a w', k1 a w' = k2 a w') -> (m ≫= k1) w = (m ≫= k2) w.
Proof.
  intros Hk. unfold mbind, M_bind, bind.
  by destruct (m w) as [[a|e] w'].
Qed.

(** The [try] block, and so the run, do the same on a stream and on the
    stream cut after its first malformed message. *)
Lemma session_cut (lib : mail_library)
    (email password server output_dir : pystr)
    (days_limit : option Z) (folder_name : pystr) (only_unread : bool)
    (search_term : option pystr) (debug : bool) (w : state) :
  session lib now lower email password server output_dir days_limit
    folder_name only_unread search_term debug w
  = session (cut_lib lib) now lower email password server output_dir
      days_limit folder_name only_unread search_term debug w.
Proof.
  unfold session. cbv zeta. cbn [MailBox login fetch cut_lib Nat.eqb].
  repeat (apply bind_cong; intros ? ?).
  apply run_bind_ext, loop_cut.
Qed.

(** The run is its [try] block between two fixed ends: whatever the block
    raises is printed, and the list built so far is returned. *)
Lemma download_decomposed_B (lib : mail_library)
    (email password server output_dir : pystr)
    (days_limit : option Z) (folder_name : pystr) (only_unread : bool)
    (search_term : option pystr) (debug : bool) (fs0 : filesystem) :
  download_pdf_attachments lib now lower email password server output_dir
    days_limit folder_name only_unread search_term debug fs0
  = match session lib now lower email password server output_dir days_limit
            folder_name only_unread search_term debug
            (session_start output_dir fs0) with
    | (Ok _, w) => (Ok (downloaded_files w), finished [] w)
    | (Raise e, w) =>
        (Ok (downloaded_files w), finished [Error e; EnsureCorrect] w)
    end.
Proof.
  unfold download_pdf_attachments, session_start.
  rewrite run_bind_get. cbn [fs]. rewrite run_bind_when.
  destruct (exists_ fs0 output_dir); cbn [negb].
  - rewrite run_bind_try.
    destruct (session _ _ _ _ _ _ _ _ _ _ _ _ _) as [[[]|e] w].
    + unfold finished. rewrite app_nil_r. reflexivity.
    + unfold finished.
      change (out w ++ [Error e; EnsureCorrect])
        with (out w ++ [Error e] ++ [EnsureCorrect]).
      rewrite app_assoc. reflexivity.
  - rewrite run_bind_assoc. unfold set_fs at 1. rewrite run_bind_modify.
    rewrite run_bind_print_B, run_bind_try.
    cbn [fs out calls downloaded_files app].
    destruct (session _ _ _ _ _ _ _ _ _ _ _ _ _) as [[[]|e] w].
    + unfold finished. rewrite app_nil_r. reflexivity.
    + unfold finished.
      change (out w ++ [Error e; EnsureCorrect])
        with (out w ++ [Error e] ++ [EnsureCorrect]).
      rewrite app_assoc. reflexivity.
Qed.

End AbortB.

(** ** The two policies on a malformed message *)



(** The two policies on a mailbox of three messages, the second of which
    is malformed: the first script saves the PDF of the first and of the
    third message, the second script the PDF of the first only. *)
Example malformed_second_message_A :
  Examples.runA.1
  = Ok [lit "out/first_20250517_093000_a.pdf";
        lit "out/third_20250517_093000_c.pdf"].
Proof. vm_compute. reflexivity. Qed.

Example malformed_second_message_B :
  (Examples.runB Examples.libB).1 = Ok [lit "out/2025-05/a.pdf"].
Proof. vm_compute. reflexivity. Qed.

(** ** Parts without a file name (Fetcher A) *)

Section Unnamed.

Import Os FetcherA.

Lemma count_underscore_stamp (t : datetime) :
  (1 <= count_occ N.eq_dec (strftime_stamp t) 95%N)%nat.
Proof.
  unfold strftime_stamp. rewrite !count_occ_app.
  change (count_occ N.eq_dec (lit "_") 95%N) with 1%nat. lia.
Qed.

(** The name a part is saved under is never the default name: it has at
    least three underscores, the default name has one. *)
Lemma unique_filename_not_default (subject clean_name : pystr) (t : datetime) :
  unique_filename_of subject (strftime_stamp t) clean_name <> default_name.
Proof.
  intros H. apply (f_equal (fun s => count_occ N.eq_dec s 95%N)) in H.
  unfold unique_filename_of in H. rewrite !count_occ_app in H.
  change (count_occ N.eq_dec (lit "_") 95%N) with 1%nat in H.
  change (count_occ N.eq_dec default_name 95%N) with 1%nat in H.
  pose proof (count_underscore_stamp t). lia.
Qed.

(** The list a run returns is empty or the one in its last state. *)
Lemma download_result_A (srv : imap_server) (clk : clock)
    (email_address password imap_server : pystr) (imap_port : Z)
    (search_criteria output_dir : pystr) (days_limit : option Z)
    (fs0 : filesystem) (l : list pystr) :
  (download_pdf_attachments srv clk email_address password imap_server
     imap_port search_criteria output_dir days_limit fs0).1 = Ok l ->
  l = []
  \/ l = downloaded_files
           (download_pdf_attachments srv clk email_address password
              imap_server imap_port search_criteria output_dir days_limit
              fs0).2.
Proof.
  set (R := fun (m : M state (list pystr)) =>
         forall w l, (m w).1 = Ok l -> l = [] \/ l = downloaded_files (m w).2).
  assert (Hbind : forall {A} (m : M state A) k,
            (forall a, R (k a)) -> R (m ≫= k)).
  { intros A m k Hk w l'. unfold mbind, M_bind, bind.
    destruct (m w) as [[a|e] w1]; [|done]. apply Hk. }
  assert (Hret : R (ret [])).
  { intros w l' [= <-]. by left. }
  unfold download_pdf_attachments.
  match goal with
  | |- (?m ?w).1 = _ -> _ => cut (R m); [intros HR; apply HR|]
  end.
  apply Hbind; intros w. apply Hbind; intros _. apply Hbind; intros [e|];
    [done|].
  do 6 (apply Hbind; intros ?).
  destruct a4 as [status message_ids].
  destruct (negb (str_eqb status (lit "OK"))).
  - do 3 (apply Hbind; intros ?). done.
  - do 4 (apply Hbind; intros ?).
    intros w' l'. rewrite run_bind_get. intros [= <-]. right. reflexivity.
Qed.

End Unnamed.

Section NamedA.

Import Os FetcherA.

Context (srv : imap_server) (clk : clock) (output_dir : pystr).

Local Abbreviation I :=
  (fun w : state =>
     forall path : pystr,
       path ∈ downloaded_files w -> named_after_part srv output_dir path).

(** The subject of a message does not depend on the state. *)
Lemma subject_of_pure (msg : message) :
  exists r : result pystr, forall w : state, subject_of msg w = (r, w).
Proof.
  unfold subject_of. destruct (msg_subject msg) as [[s|e]|]; cbn [lift].
  - destruct (clean_filename (PyStr s)) as [c|e] eqn:Hc.
    + exists (Ok c). intros w. by rewrite run_bind_ret, Hc.
    + exists (Raise e). intros w. by rewrite run_bind_ret, Hc.
  - exists (Raise e). intros w. by rewrite run_bind_raise.
  - by eexists.
Qed.

Lemma named_print (l : printed) : preserved I (print l).
Proof. by apply preserved_modify. Qed.

Lemma named_called (c : call) : preserved I (called c).
Proof. by apply preserved_modify. Qed.

Lemma named_or_raise (r : option pystr) : preserved I (or_raise r).
Proof. destruct r; [apply preserved_raise | apply preserved_ret]. Qed.

Lemma named_process_part (subject : pystr) (i j : nat) (p : part)
    (message_id : bytes) (status : pystr) (msg : message) :
  fetch srv message_id = Ok (status, Ok msg) -> p ∈ walk msg ->
  (forall w : state, subject_of msg w = (Ok subject, w)) ->
  preserved I (process_part clk output_dir subject i j p).
Proof.
  intros Hfetch Hp Hsubject w r w'.
  destruct (is_pdf_attachment p) eqn:Hpdf;
    [|rewrite process_part_skip by auto; by intros [= <- <-]].
  destruct (part_filename p) as [[|c filename]|] eqn:Hfn;
    [rewrite process_part_skip by auto; by intros [= <- <-]| |
     rewrite process_part_skip by auto; by intros [= <- <-]].
  unfold process_part. rewrite Hpdf, Hfn. cbn [truthy].
  unfold clean_filename, FetcherA_clean.clean_filename. cbn [truthy lift].
  unfold mbind, M_bind, bind, ret, get, open_wb.
  case_bool_decide as Hdir; cbn [lift raise].
  { unfold raise. by intros [= <- <-]. }
  unfold ret, set_fs, modify. cbn [fs out calls downloaded_files].
  destruct (part_payload p) as [data|] eqn:Hpay.
  - unfold print, append_downloaded, modify.
    cbn [fs out calls downloaded_files].
    intros [= <- <-] Hw path. cbn [downloaded_files].
    intros [Hin| ->%list_elem_of_singleton]%elem_of_app; [by apply Hw|].
    exists message_id, status, msg, p, (c :: filename), subject,
           (re_sub_class reserved underscore (c :: filename)),
           (now_save clk i j).
    repeat split; try done.
  - unfold raise. by intros [= <- <-].
Qed.

Lemma named_process_message (total i : nat) (message_id : bytes) :
  preserved I (process_message srv clk output_dir total i message_id).
Proof.
  unfold process_message.
  apply preserved_bind; [apply named_print|intros _].
  apply preserved_bind; [apply named_called|intros _].
  destruct (fetch srv message_id) as [[status data]|e] eqn:Hfetch;
    [apply preserved_bind_ok|apply preserved_bind_raise].
  destruct (negb (str_eqb status (lit "OK"))); [apply named_print|].
  destruct data as [msg|e];
    [apply preserved_bind_ok|apply preserved_bind_raise].
  destruct (subject_of_pure msg) as ([subject|e] & Hsub).
  - assert (Hrest : preserved I
              (when (is_multipart msg)
                 (for_enumerate (process_part clk output_dir subject i)
                    0%nat (walk msg)))).
    { apply preserved_when, preserved_for_enumerate. intros j p Hp.
      by apply (named_process_part subject i j p message_id status msg). }
    intros w r w'. rewrite (run_bind_eq _ _ _ _ _ (Hsub w)). apply Hrest.
  - intros w r w'. unfold mbind, M_bind, bind. rewrite Hsub.
    by intros [= <- <-].
Qed.

Lemma named_message_loop (message_ids : list bytes) :
  preserved I (message_loop srv clk output_dir message_ids).
Proof.
  apply preserved_for_enumerate. intros i message_id _.
  apply preserved_try_except; [apply named_process_message|].
  intros e. apply named_print.
Qed.

(** Every path gathered in a run is named after a part. *)
Lemma download_named_A (email_address password imap_server : pystr)
    (imap_port : Z) (search_criteria : pystr) (days_limit : option Z)
    (fs0 : filesystem) :
  I (download_pdf_attachments srv clk email_address password imap_server
       imap_port search_criteria output_dir days_limit fs0).2.
Proof.
  unfold download_pdf_attachments.
  apply preserved_run; [|intros path Hin; by apply elem_of_nil in Hin].
  apply preserved_bind; [apply preserved_get|intros w0].
  apply preserved_bind.
  { apply preserved_when.
    apply preserved_bind; [by apply preserved_modify|intros _].
    apply named_print. }
  intros _. apply preserved_bind.
  { apply preserved_try_except;
      [ repeat first [ apply named_called | apply named_or_raise
                     | apply preserved_ret | apply preserved_bind; [|intros ?] ]
      | intros e; apply preserved_bind;
          [apply named_print|intros _; apply preserved_ret] ]. }
  intros [e|]; [apply preserved_ret|].
  apply preserved_bind; [apply named_print|intros _].
  apply preserved_bind; [apply named_called|intros _].
  apply preserved_bind; [apply named_or_raise|intros _].
  apply preserved_bind; [|intros crit].
  { unfold date_limited. destruct (truthy_int days_limit); [|apply preserved_ret].
    destruct (sub_days _ _); [apply preserved_ret|apply preserved_raise]. }
  apply preserved_bind; [apply named_called|intros _].
  apply preserved_bind; [apply preserved_lift|intros [status ids]].
  destruct (negb (str_eqb status (lit "OK")));
    repeat first [ apply named_called | apply named_print
                 | apply named_or_raise
                 | apply named_message_loop | apply preserved_get
                 | apply preserved_ret | apply preserved_bind; [|intros ?] ].
Qed.

End NamedA.

(** C10, amended: in the first script a part that is an attachment of
    type application/pdf but has no file name ([None] or the empty
    string) is passed over: no file, no printed line, no path in the
    result.  So [clean_filename] is never asked for the name of such a
    part, and its default name never stands for the file name of a part:
    every path a run returns is the output directory joined with
    [subject_timestamp_name], where [subject] is the subject of a fetched
    message as the script works it out, and [name] is what
    [clean_filename] makes of the file name of a part of that message,
    which is not empty; and no such name is the default name itself.  The
    default name can still open such a name, in
    the place of the subject: it is the subject of every message whose
    Subject header decodes to the empty string. *)
Theorem unnamed_pdf_part_skipped :
  (forall (clk : FetcherA.clock) (output_dir subject : pystr) (i j : nat)
          (p : FetcherA.part) (w : FetcherA.state),
     contains (FetcherA.content_disposition p) (lit "attachment") = true ->
     FetcherA.content_type p = lit "application/pdf" ->
     FetcherA.part_filename p = None \/ FetcherA.part_filename p = Some [] ->
     FetcherA.process_part clk output_dir subject i j p w = (Ok tt, w))
  /\ (forall (srv : FetcherA.imap_server) (clk : FetcherA.clock)
             (email_address password imap_server : pystr) (imap_port : Z)
             (search_criteria output_dir : pystr) (days_limit : option Z)
             (fs0 : Os.filesystem) (l : list pystr) (path : pystr),
        (FetcherA.download_pdf_attachments srv clk email_address password
           imap_server imap_port search_criteria output_dir days_limit
           fs0).1 = Ok l ->
        path ∈ l ->
        exists (message_id : bytes) (status : pystr)
               (msg : FetcherA.message) (p : FetcherA.part)
               (filename subject clean_name : pystr) (t : datetime),
          FetcherA.fetch srv message_id = Ok (status, Ok msg)
          /\ p ∈ FetcherA.walk msg
          /\ FetcherA.is_pdf_attachment p = true
          /\ FetcherA.part_filename p = Some filename /\ filename <> []
          /\ (forall w : FetcherA.state,
                FetcherA.subject_of msg w = (Ok subject, w))
          /\ FetcherA.clean_filename (PyStr filename) = Ok clean_name
          /\ clean_name = re_sub_class reserved underscore filename
          /\ path
             = Os.join output_dir
                 (FetcherA.unique_filename_of subject (strftime_stamp t)
                    clean_name)
          /\ FetcherA.unique_filename_of subject (strftime_stamp t)
               clean_name
             <> default_name)
  /\ (forall (msg : FetcherA.message) (w : FetcherA.state),
        FetcherA.msg_subject msg = Some (Ok []) ->
        FetcherA.subject_of msg w = (Ok default_name, w)).
Proof.
  split; [|split].
  - intros clk output_dir subject i j p w _ _ Hname.
    apply process_part_skip. by right.
  - intros srv clk email_address password imap_server imap_port
           search_criteria output_dir days_limit fs0 l path Hl Hin.
    apply download_result_A in Hl as [->| ->];
      [by apply elem_of_nil in Hin|].
    destruct (download_named_A srv clk output_dir email_address password
                imap_server imap_port search_criteria days_limit fs0 path Hin)
      as (message_id & status & msg & p & filename & subject & clean_name
          & t & Hfetch & Hp & Hpdf & Hfn & Hne & Hsub & Hclean & Hname & ->).
    exists message_id, status, msg, p, filename, subject, clean_name, t.
    repeat (split; [done|]). apply unique_filename_not_default.
  - intros msg w Hsubject. unfold FetcherA.subject_of. by rewrite Hsubject.
Qed.

(** C10 as stated fails: the default name of [clean_filename] does get
    into the name of a saved file.  A message whose Subject header decodes
    to the empty string has the default name for its subject, and the
    PDF it carries is saved under a name that starts with it. *)
Lemma default_name_opens_output_filename_A :
  FetcherA.msg_subject Examples.mail_empty_subject = Some (Ok [])
  /\ FetcherA.clean_filename (PyStr []) = Ok (lit "unnamed_attachment.pdf")
  /\ Examples.run_empty_subject.1
     = Ok [lit "out/unnamed_attachment.pdf_20250517_093000_a.pdf"].
Proof. split; [reflexivity|]. split; [reflexivity|]. vm_compute. reflexivity. Qed.

Lemma unnamed_pdf_part_skipped_witness :
  FetcherA.process_part Examples.clkA (lit "out") (lit "subject") 0 0
    Examples.unnamed_part (Examples.startA Examples.empty_fs)
  = (Ok tt, Examples.startA Examples.empty_fs).
Proof.
  apply (proj1 unnamed_pdf_part_skipped);
    [reflexivity | reflexivity | left; reflexivity].
Defined.

Lemma only_pdf_written_witness :
  FetcherA.process_part Examples.clkA (lit "out") (lit "subject") 0 0
    Examples.image_part (Examples.startA Examples.empty_fs)
  = (Ok tt, Examples.startA Examples.empty_fs)
  /\ FetcherB.save_attachment ascii_lower (lit "out/2025-05")
       (Examples.attachment_of "photo.png" "image/png" "PNG") (Examples.startB Examples.empty_fs)
     = (Ok tt, Examples.startB Examples.empty_fs).
Proof.
  destruct only_pdf_written as (HA & _ & HB & _). split.
  - apply HA. vm_compute. discriminate.
  - apply HB. reflexivity.
Defined.

(** ** The monthly folder (Fetcher B) *)

Section MonthlyFolder.

Import Os FetcherB.

Local Open Scope Z_scope.

Lemma format_0d_two_digits (m : Z) :
  0 <= m <= 99 -> format_0d 2 m = [digit_at m 1; digit_at m 0].
Proof.
  intros Hm.
  assert (Hall : forallb
            (fun n => let m := Z.of_nat n in
               bool_decide (format_0d 2 m = [digit_at m 1; digit_at m 0]))
            (seq 0 100) = true) by (vm_compute; reflexivity).
  rewrite forallb_forall in Hall.
  specialize (Hall (Z.to_nat m)).
  rewrite Z2Nat.id in Hall by lia.
  cbv zeta in Hall. rewrite bool_decide_eq_true in Hall.
  apply Hall, in_seq. lia.
Qed.

(** The folder name is the year in decimal notation, a hyphen, and the
    two digits of the month. *)
Lemma folder_name_month_two_digits (d : datetime) :
  1 <= month d <= 12 ->
  folder_name_of d
  = str_of_Z (year d) ++ [45%N; digit_at (month d) 1; digit_at (month d) 0].
Proof.
  intros Hm. unfold folder_name_of.
  rewrite format_0d_two_digits by lia. reflexivity.
Qed.

Example folder_name_2025_05 :
  folder_name_of Examples.may_2025 = lit "2025-05".
Proof. reflexivity. Qed.

End MonthlyFolder.

(** C3 fails on the years below 1000, which a [datetime] may hold: the
    year is printed as it is, without padding, so the folder of a message
    dated May 999 is [999-05], with a year of three digits. *)
Theorem monthly_folder_year_999 :
  let d := {| year := 999; month := 5; day := 1;
              hour := 0; minute := 0; second := 0 |} in
  FetcherB.folder_name_of d = lit "999-05"
  /\ (FetcherB.get_monthly_folder d (lit "out")
        (Examples.startB Examples.empty_fs)).1
     = Ok (lit "out/999-05").
Proof. split; vm_compute; reflexivity. Qed.

(** ** The date limit *)

Section DateLimit.

Import Os ImapServer.

Local Open Scope Z_scope.

Lemma month_day_range (leapyear : bool) (n : Z) :
  0 <= n < 365 ->
  1 <= (month_day leapyear n).1 <= 12 /\ 1 <= (month_day leapyear n).2 <= 31.
Proof.
  intros Hn.
  assert (Hall : forallb
            (fun k => let n := Z.of_nat k in
               forallb (fun leap =>
                 let md := month_day leap n in
                 (1 <=? md.1) && (md.1 <=? 12) && (1 <=? md.2) && (md.2 <=? 31))
               [true; false])
            (seq 0 365) = true) by (vm_compute; reflexivity).
  rewrite forallb_forall in Hall.
  specialize (Hall (Z.to_nat n)). rewrite Z2Nat.id in Hall by lia.
  cbv zeta in Hall. rewrite forallb_forall in Hall.
  assert (Hin : In (Z.to_nat n) (seq 0 365)) by (apply in_seq; lia).
  specialize (Hall Hin leapyear).
  assert (Hl : In leapyear [true; false]) by (destruct leapyear; simpl; tauto).
  specialize (Hall Hl). rewrite !andb_true_iff in Hall. lia.
Qed.

(** The month and the day [_ord2ymd] returns are a month and a day. *)
Lemma ord2ymd_range (o : Z) :
  1 <= (_ord2ymd o).1.2 <= 12 /\ 1 <= (_ord2ymd o).2 <= 31.
Proof.
  unfold _ord2ymd. cbv zeta.
  match goal with
  | |- context [if ?c then _ else _] => destruct c
  end; [simpl; lia|].
  match goal with
  | |- context [month_day ?l ?n] =>
      pose proof (month_day_range l n) as H; destruct (month_day l n) as [m d]
  end.
  simpl in *. apply H. apply Z.mod_pos_bound. lia.
Qed.

Lemma sub_days_fields (t b : datetime) (n : Z) :
  sub_days t n = Some b ->
  1 <= month b <= 12 /\ 1 <= day b <= 31.
Proof.
  unfold sub_days. case_match; [|done].
  pose proof (ord2ymd_range (toordinal t - n)) as Hr.
  destruct (_ord2ymd (toordinal t - n)) as [[y m] d].
  intros [= <-]. exact Hr.
Qed.

Lemma unlit_lit (s : string) : unlit (lit s) = s.
Proof.
  unfold unlit, lit. rewrite map_map.
  rewrite (map_ext _ id), map_id by (intros a; apply ascii_N_embedding).
  apply string_of_list_ascii_of_string.
Qed.

Lemma parse_number_str_of_N (n : N) :
  parse_number (str_of_N n) = Some (Z.of_N n).
Proof.
  unfold parse_number, str_of_N. rewrite unlit_lit, NilEmpty.usu.
  cbn [fmap option_fmap option_map]. by rewrite DecimalN.Unsigned.of_to.
Qed.

(** Zeros on the left do not change the number read. *)
Lemma parse_number_zeros (k : nat) (s : pystr) :
  parse_number (repeat 48%N k ++ s) = parse_number s.
Proof.
  induction k as [|k IH]; [done|].
  rewrite <- IH. unfold parse_number, unlit.
  cbn [repeat app map string_of_list_ascii NilEmpty.uint_of_string].
  change (ascii_of_N 48) with "0"%char.
  by destruct (NilEmpty.uint_of_string _).
Qed.

Lemma parse_number_format_0d (w : nat) (z : Z) :
  0 <= z -> parse_number (format_0d w z) = Some z.
Proof.
  intros Hz. unfold format_0d.
  destruct (z <? 0) eqn:Hneg; [lia|]. cbv zeta.
  rewrite parse_number_zeros, parse_number_str_of_N. f_equal. lia.
Qed.

(** The characters of a number written in decimal are digits. *)
Lemma str_of_N_digits (n : N) :
  Forall (fun c => (48 <= c <= 57)%N) (str_of_N n).
Proof.
  unfold str_of_N. generalize (N.to_uint n). intros d.
  induction d; cbn [NilEmpty.string_of_uint lit list_ascii_of_string map];
    [constructor|..]; (constructor; [vm_compute; split; discriminate|done]).
Qed.

Lemma format_0d_digits (w : nat) (z : Z) :
  0 <= z -> Forall (fun c => (48 <= c <= 57)%N) (format_0d w z).
Proof.
  intros Hz. unfold format_0d.
  destruct (z <? 0) eqn:Hneg; [lia|]. cbv zeta.
  apply Forall_app. split; [|apply str_of_N_digits].
  apply Forall_forall. intros c Hc. apply list_elem_of_In, repeat_spec in Hc. lia.
Qed.

Lemma month_abbr_parse (m : Z) :
  1 <= m <= 12 ->
  exists a b c : N,
    month_abbr m = [a; b; c] /\ parse_month [a; b; c] = Some m
    /\ (64 < a)%N /\ (64 < b)%N /\ (64 < c)%N.
Proof.
  intros Hm.
  assert (Hcases : m = 1 \/ m = 2 \/ m = 3 \/ m = 4 \/ m = 5 \/ m = 6
                   \/ m = 7 \/ m = 8 \/ m = 9 \/ m = 10 \/ m = 11 \/ m = 12)
    by lia.
  repeat (destruct Hcases as [->|Hcases]); [..|subst m];
    (do 3 eexists; split; [reflexivity|];
     split; [vm_compute; reflexivity|]; repeat split; reflexivity).
Qed.

Lemma digit_at_digit (z k : Z) : (48 <= digit_at z k <= 57)%N.
Proof.
  unfold digit_at. pose proof (Z.mod_pos_bound (z / 10 ^ k) 10). lia.
Qed.

Lemma break_at_app (c : N) (s rest : pystr) :
  Forall (fun x => x <> c) s -> break_at c (s ++ c :: rest) = (s, c :: rest).
Proof.
  induction 1 as [|x s Hx _ IH]; cbn [app break_at].
  - by rewrite N.eqb_refl.
  - rewrite (proj2 (N.eqb_neq x c) Hx), IH. reflexivity.
Qed.

(** The date the script writes: two digits, a hyphen, three letters, a
    hyphen, and digits; the server reads it as the day it names. *)
Lemma parse_date_strftime (t : datetime) :
  0 <= year t -> 1 <= month t <= 12 -> 1 <= day t <= 31 ->
  Forall (fun x => x <> 41%N) (strftime_d_b_Y t)
  /\ parse_date (strftime_d_b_Y t) = Some (toordinal t).
Proof.
  intros Hy Hm Hd. unfold strftime_d_b_Y.
  rewrite format_0d_two_digits by lia.
  destruct (month_abbr_parse (month t) Hm)
    as (a & b & c & -> & Hmonth & Ha & Hb & Hc).
  change (lit "-") with [45%N].
  cbn [app]. split.
  - pose proof (digit_at_digit (day t) 1).
    pose proof (digit_at_digit (day t) 0).
    repeat (apply Forall_cons; split); [lia..|].
    eapply Forall_impl; [apply (format_0d_digits 4 (year t) Hy)|].
    intros x Hx. cbv beta in Hx. lia.
  - unfold parse_date. cbn [lookup list_lookup take drop].
    rewrite !bool_decide_eq_true_2 by done. cbn [andb negb].
    replace [digit_at (day t) 1; digit_at (day t) 0]
      with (format_0d 2 (day t)) by (apply format_0d_two_digits; lia).
    rewrite parse_number_format_0d by lia. cbn [mbind option_bind].
    rewrite Hmonth. cbn [mbind option_bind].
    rewrite drop_0, parse_number_format_0d by lia. reflexivity.
Qed.

Lemma criteria_test_since (t : datetime) (rest : pystr) :
  0 <= year t -> 1 <= month t <= 12 -> 1 <= day t <= 31 ->
  criteria_test (lit "(SINCE " ++ strftime_d_b_Y t ++ lit ") " ++ rest)
  = key ← plain_key rest;
    Some (fun m => since (toordinal t) m && key m).
Proof.
  intros Hy Hm Hd.
  destruct (parse_date_strftime t Hy Hm Hd) as [Hclean Hparse].
  unfold criteria_test.
  change (lit "(SINCE ") with [40; 83; 73; 78; 67; 69; 32]%N.
  change (lit ") ") with [41; 32]%N.
  assert (Hnil : forall s : pystr, startswith s [] = true)
    by (by intros [|x s]).
  cbn [app startswith N.eqb Pos.eqb andb drop].
  rewrite Hnil, drop_0, break_at_app by done.
  cbn [startswith N.eqb Pos.eqb andb drop].
  destruct rest; rewrite Hparse; reflexivity.
Qed.

Ltac flat_A :=
  cbn [FetcherA.fs FetcherA.out FetcherA.calls FetcherA.downloaded_files].

Lemma run_bind_or_raise_A {B} (k : unit -> M FetcherA.state B)
    (w : FetcherA.state) :
  (FetcherA.or_raise None ≫= k) w = k tt w.
Proof. done. Qed.

(** The calls a run makes to the server, once it is connected. *)
Lemma download_calls_A (srv : FetcherA.imap_server) (clk : FetcherA.clock)
    (email_address password imap_server : pystr) (imap_port : Z)
    (search_criteria output_dir : pystr) (days_limit : option Z)
    (fs0 : filesystem) (criteria : pystr) :
  FetcherA.IMAP4_SSL srv imap_server imap_port = None ->
  FetcherA.login srv email_address password = None ->
  FetcherA.select srv (lit "INBOX") = None ->
  (forall w, FetcherA.date_limited clk search_criteria days_limit w
             = (Ok criteria, w)) ->
  FetcherA.calls
    (FetcherA.download_pdf_attachments srv clk email_address password
       imap_server imap_port search_criteria output_dir days_limit fs0).2
  = [FetcherA.CallConnect imap_server imap_port;
     FetcherA.CallLogin email_address password;
     FetcherA.CallSelect (lit "INBOX");
     FetcherA.CallSearch criteria]
    ++ match FetcherA.search srv criteria with
       | Ok (status, message_ids) =>
           if str_eqb status (lit "OK")
           then map FetcherA.CallFetch message_ids ++ [FetcherA.CallLogout]
           else [FetcherA.CallLogout]
       | Raise _ => []
       end.
Proof.
  intros Hc Hl Hs Hd.
  unfold FetcherA.download_pdf_attachments.
  rewrite run_bind_get. cbn [FetcherA.fs]. rewrite run_bind_when.
  destruct (negb (exists_ fs0 output_dir));
    [rewrite run_bind_assoc; unfold FetcherA.set_fs at 1;
     rewrite run_bind_modify, run_bind_print_A|];
    cbv beta; flat_A.
  all: match goal with
    | |- context [{| FetcherA.fs := ?f; FetcherA.out := ?o;
                     FetcherA.calls := []; FetcherA.downloaded_files := [] |}] =>
        generalize f, o; intros f0 o0
    end.
  all: rewrite run_bind_try.
  all: rewrite run_bind_called_A, Hc, run_bind_or_raise_A; flat_A.
  all: rewrite run_bind_called_A, Hl, run_bind_or_raise_A; flat_A.
  all: unfold ret at 1; cbv beta iota.
  all: rewrite run_bind_print_A, run_bind_called_A, Hs, run_bind_or_raise_A;
    flat_A.
  all: rewrite (run_bind_eq _ _ _ _ _ (Hd _)).
  all: rewrite run_bind_called_A; flat_A.
  all: destruct (FetcherA.search srv criteria) as [[status message_ids]|e];
    cbn [lift]; [|rewrite run_bind_raise; reflexivity].
  all: rewrite run_bind_ret; cbv beta iota.
  all: destruct (str_eqb status (lit "OK")); cbn [negb];
    [|rewrite run_bind_print_A, run_bind_called_A;
      by destruct (FetcherA.logout srv)].
  all: rewrite run_bind_print_A; flat_A.
  all: match goal with
    | |- context [(FetcherA.message_loop ?s ?c ?o ?ids ≫= _) ?w] =>
        destruct (loop_from s c o (length ids) ids 0 w w eq_refl)
          as (w' & Hloop & _ & Hcalls & _)
    end.
  all: unfold FetcherA.message_loop; rewrite (run_bind_eq _ _ _ _ _ Hloop).
  all: rewrite run_bind_called_A.
  all: destruct (FetcherA.logout srv); cbn [FetcherA.or_raise];
    [rewrite run_bind_raise
    |rewrite run_bind_ret, run_bind_get, run_bind_print_A; unfold ret].
  all: cbn [snd FetcherA.calls]; rewrite Hcalls.
  all: cbn [FetcherA.calls app]; reflexivity.
Qed.

Lemma date_limited_days (clk : FetcherA.clock) (search_criteria : pystr)
    (n : Z) (bound : datetime) (w : FetcherA.state) :
  n <> 0 -> sub_days (FetcherA.now_run clk) n = Some bound ->
  FetcherA.date_limited clk search_criteria (Some n) w
  = (Ok (lit "(SINCE " ++ strftime_d_b_Y bound ++ lit ") " ++ search_criteria),
     w).
Proof.
  intros Hn Hb. unfold FetcherA.date_limited, FetcherA.truthy_int.
  by rewrite (proj2 (Z.eqb_neq n 0) Hn), Hb.
Qed.

(** What the server answers to the search of a run with a date limit:
    messages of the day of the bound or of a later day. *)
Lemma search_since (mailbox : list stored) (bound : datetime)
    (search_criteria status : pystr) (message_ids : list bytes)
    (message_id : bytes) :
  0 <= year bound -> 1 <= month bound <= 12 -> 1 <= day bound <= 31 ->
  search mailbox
    (lit "(SINCE " ++ strftime_d_b_Y bound ++ lit ") " ++ search_criteria)
  = Ok (status, message_ids) ->
  message_id ∈ message_ids ->
  exists m : stored,
    m ∈ mailbox /\ uid m = message_id
    /\ toordinal bound <= toordinal (internal_date m).
Proof.
  intros Hy Hm Hd.
  unfold search. rewrite criteria_test_since by done.
  destruct (plain_key search_criteria) as [key|]; [|done].
  cbn [mbind option_bind]. intros [= _ <-] Hin.
  apply list_elem_of_fmap in Hin as (m & -> & Hm').
  apply list_elem_of_filter in Hm' as [Htest Hm'].
  exists m. split; [done|]. split; [done|].
  apply andb_true_iff in Htest as [Hsince _].
  unfold since in Hsince. lia.
Qed.

End DateLimit.

(** ** The date limit in the second script *)

Section DateLimitB.

Import Os FetcherB.

Context (now : datetime) (lower : pystr -> pystr).

Lemma run_bind_called_B {B} (c : call) (k : unit -> M state B) (w : state) :
  (called c ≫= k) w
  = k tt {| fs := fs w; out := out w; calls := calls w ++ [c];
            downloaded_files := downloaded_files w |}.
Proof. done. Qed.

Lemma run_bind_or_raise_B {B} (k : unit -> M state B) (w : state) :
  (or_raise None ≫= k) w = k tt w.
Proof. done. Qed.

(** A call that has been made stays in the record of the calls. *)
Section Called.

Context (c : call).

Local Abbreviation J := (fun w : state => c ∈ calls w).

Lemma called_print (l : printed) : preserved J (print l).
Proof. by apply preserved_modify. Qed.

Lemma called_called (c' : call) : preserved J (called c').
Proof.
  apply preserved_modify. intros w Hw. simpl. apply elem_of_app. by left.
Qed.

Lemma called_or_raise (r : option pystr) : preserved J (or_raise r).
Proof. destruct r; [apply preserved_raise | apply preserved_ret]. Qed.

Lemma called_get_monthly_folder (d : datetime) (base : pystr) :
  preserved J (get_monthly_folder d base).
Proof.
  intros w r w'.
  unfold get_monthly_folder, mbind, M_bind, bind, get, when, set_fs, modify, ret.
  by destruct (negb _); intros [= <- <-].
Qed.

Lemma called_save_attachment (folder : pystr) (a : attachment) :
  preserved J (save_attachment lower folder a).
Proof.
  intros w r w'.
  destruct (endswith (lower (att_filename a)) (lit ".pdf")) eqn:Hpdf.
  - destruct (save_attachment_pdf lower folder a w Hpdf) as (p & _ & ->).
    by intros [= <- <-].
  - rewrite save_attachment_other by done. by intros [= <- <-].
Qed.

Lemma called_process_message (output_dir : pystr) (debug : bool)
    (total i : nat) (it : item) :
  preserved J (process_message lower output_dir debug total i it).
Proof.
  destruct it as [[m|e]|e]; simpl.
  - apply preserved_bind_ok.
    apply preserved_bind; [apply called_print|intros _].
    apply preserved_bind; [apply called_get_monthly_folder|intros folder].
    apply preserved_bind; [apply preserved_when, called_print|intros _].
    apply preserved_when, preserved_for_each. intros a _.
    apply called_save_attachment.
  - apply preserved_bind_raise.
  - apply preserved_raise.
Qed.

Lemma called_count_items (l : list item) (n : nat) :
  preserved J (count_items l n).
Proof.
  revert n. induction l as [|[m|e] l IH]; intros n; simpl;
    [apply preserved_ret | apply IH | apply preserved_raise].
Qed.

End Called.

(** A run that gets logged in and cannot build its criteria stops there:
    the exception is printed, the library is not asked for any message,
    and the empty list is returned. *)
Lemma download_no_criteria_B (lib : mail_library)
    (email password server output_dir : pystr) (days_limit : option Z)
    (folder_name : pystr) (only_unread : bool) (search_term : option pystr)
    (debug : bool) (fs0 : filesystem) (e : pystr) :
  MailBox lib server 993%Z = None ->
  login lib email password folder_name = None ->
  (forall w, build_criteria now only_unread search_term days_limit w
             = (Raise e, w)) ->
  download_pdf_attachments lib now lower email password server output_dir
    days_limit folder_name only_unread search_term debug fs0
  = (Ok [],
     {| fs := fs (session_start output_dir fs0);
        out :=
          out (session_start output_dir fs0)
          ++ (if debug
              then [Connecting server email; LoggedIn folder_name] else [])
          ++ [Error e; EnsureCorrect; DownloadedCount 0];
        calls :=
          [CallMailBox server 993%Z; CallLogin email password folder_name];
        downloaded_files := [] |}).
Proof.
  intros Hc Hl Hb. rewrite download_decomposed_B.
  assert (Hs : session lib now lower email password server output_dir
                 days_limit folder_name only_unread search_term debug
                 (session_start output_dir fs0)
               = (Raise e,
                  {| fs := fs (session_start output_dir fs0);
                     out :=
                       out (session_start output_dir fs0)
                       ++ (if debug
                           then [Connecting server email; LoggedIn folder_name]
                           else []);
                     calls :=
                       [CallMailBox server 993%Z;
                        CallLogin email password folder_name];
                     downloaded_files := [] |})).
  { unfold session.
    destruct debug; cbn [when];
      repeat first [ rewrite run_bind_print_B | rewrite run_bind_ret ];
      rewrite run_bind_called_B, Hc, run_bind_or_raise_B;
      rewrite run_bind_called_B, Hl, run_bind_or_raise_B;
      repeat first [ rewrite run_bind_print_B | rewrite run_bind_ret ];
      unfold mbind, M_bind, bind; rewrite Hb;
      unfold session_start;
      destruct (exists_ fs0 output_dir);
      cbn [fs out calls downloaded_files app];
      rewrite ?app_nil_r, <- ?app_assoc; reflexivity. }
  rewrite Hs. unfold finished.
  cbn [fs out calls downloaded_files length].
  by rewrite <- !app_assoc.
Qed.

(** So does a run with a limit of [n] days, where the criterion for the
    date is built. *)
Lemma download_days_limit_B (lib : mail_library)
    (email password server output_dir : pystr) (n : Z)
    (folder_name : pystr) (only_unread : bool) (search_term : option pystr)
    (debug : bool) (fs0 : filesystem) (bound : datetime) :
  MailBox lib server 993%Z = None ->
  login lib email password folder_name = None ->
  n <> 0%Z -> sub_days now n = Some bound ->
  download_pdf_attachments lib now lower email password server output_dir
    (Some n) folder_name only_unread search_term debug fs0
  = (Ok [],
     {| fs := fs (session_start output_dir fs0);
        out :=
          out (session_start output_dir fs0)
          ++ (if debug
              then [Connecting server email; LoggedIn folder_name] else [])
          ++ [Error (lit "TypeError"); EnsureCorrect; DownloadedCount 0];
        calls :=
          [CallMailBox server 993%Z; CallLogin email password folder_name];
        downloaded_files := [] |}).
Proof.
  intros Hc Hl Hn Hb. apply download_no_criteria_B; [done..|].
  intros w. by apply (build_criteria_days now _ _ n bound).
Qed.

End DateLimitB.



(** ** The calendar *)

Section Calendar.

Local Open Scope Z_scope.

Lemma forall_from_spec (test : Z -> bool) (count : nat) (start i : Z) :
  forall_from test count start = true ->
  start <= i < start + Z.of_nat count -> test i = true.
Proof.
  revert start. induction count as [|count IH]; intros start Hall Hi; [lia|].
  cbn [forall_from] in Hall. apply andb_true_iff in Hall as [Hhere Hrest].
  destruct (decide (i = start)) as [->|Hne]; [done|].
  apply (IH (start + 1)); [done|lia].
Qed.

(** The day [n] (from 0) of a year is the day [d] of the month [m] that
    [month_day] returns: [d] days after the days before that month. *)
Lemma month_day_before (leapyear : bool) (n : Z) :
  0 <= n < 365 ->
  _DAYS_BEFORE_MONTH (month_day leapyear n).1
  + (if (2 <? (month_day leapyear n).1) && leapyear then 1 else 0)
  + (month_day leapyear n).2 = n + 1.
Proof.
  intros Hn.
  assert (Hall : forall_from
            (fun n =>
               forallb (fun leap =>
                 let md := month_day leap n in
                 _DAYS_BEFORE_MONTH md.1
                 + (if (2 <? md.1) && leap then 1 else 0) + md.2 =? n + 1)
               [true; false])
            365 0 = true) by (vm_compute; reflexivity).
  pose proof (forall_from_spec _ _ _ n Hall ltac:(lia)) as Hhere.
  cbv beta in Hhere. rewrite forallb_forall in Hhere.
  apply Z.eqb_eq, (Hhere leapyear). destruct leapyear; simpl; tauto.
Qed.

(** The years of a cycle of 400: the year [100 b + 4 c + d + 1] begins
    after [36524 b + 1461 c + 365 d] days, and is a leap year when it is
    the fourth of its group of four, save at the end of a century that
    does not end the cycle. *)
Lemma cycle_year (b c d : Z) :
  0 <= b < 4 -> 0 <= c < 25 -> 0 <= d < 4 ->
  _days_before_year (100 * b + 4 * c + d + 1)
  = 36524 * b + 1461 * c + 365 * d
  /\ _is_leap (100 * b + 4 * c + d + 1)
     = (d =? 3) && (negb (c =? 24) || (b =? 3)).
Proof.
  intros Hb Hc Hd.
  assert (Hall : forall_from
            (fun b => forall_from
               (fun c => forall_from
                  (fun d =>
                     let y := 100 * b + 4 * c + d + 1 in
                     (_days_before_year y
                      =? 36524 * b + 1461 * c + 365 * d)
                     && eqb (_is_leap y)
                          ((d =? 3) && (negb (c =? 24) || (b =? 3))))
                  4 0) 25 0)
            4 0 = true) by (vm_compute; reflexivity).
  pose proof (forall_from_spec _ _ _ b Hall ltac:(lia)) as Hall_b.
  pose proof (forall_from_spec _ _ _ c Hall_b ltac:(lia)) as Hall_c.
  pose proof (forall_from_spec _ _ _ d Hall_c ltac:(lia)) as Hhere.
  cbv beta zeta in Hhere.
  apply andb_true_iff in Hhere as [Hdays Hleap].
  split; [by apply Z.eqb_eq|by apply eqb_prop].
Qed.

(** Within the first cycle, the day number of the date of a day number is
    that day number. *)
Lemma ymd2ord_ord2ymd_period (o : Z) :
  1 <= o <= 146097 ->
  _ymd2ord (_ord2ymd o).1.1 (_ord2ymd o).1.2 (_ord2ymd o).2 = o.
Proof.
  intros Ho. unfold _ord2ymd, _DI400Y, _DI100Y, _DI4Y. cbv zeta.
  rewrite (Z.div_small (o - 1) 146097), (Z.mod_small (o - 1) 146097) by lia.
  set (b := (o - 1) / 36524). set (r1 := (o - 1) mod 36524).
  set (c := r1 / 1461). set (r2 := r1 mod 1461).
  set (d := r2 / 365). set (n := r2 mod 365).
  assert (Hsum : o = 36524 * b + 1461 * c + 365 * d + n + 1
                 /\ 0 <= b <= 4 /\ 0 <= c <= 24 /\ 0 <= d <= 4
                 /\ 0 <= n < 365
                 /\ (b = 4 -> c = 0 /\ d = 0 /\ n = 0)
                 /\ (d = 4 -> n = 0 /\ c < 24 \/ b = 4)).
  { subst b r1 c r2 d n. Z.div_mod_to_equations. lia. }
  clearbody b r1 c r2 d n.
  destruct Hsum as (-> & Hb & Hc & Hd & Hn & Hb4 & Hd4).
  replace (0 * 400 + 1 + b * 100 + c * 4 + d)
    with (100 * b + 4 * c + d + 1) by lia.
  destruct ((d =? 4) || (b =? 4)) eqn:Hlast.
  - cbn [fst snd].
    replace (100 * b + 4 * c + d + 1 - 1)
      with (100 * b + 4 * c + d) by lia.
    assert (Hcase : b = 4 /\ c = 0 /\ d = 0 /\ n = 0
                    \/ b < 4 /\ c < 24 /\ d = 4 /\ n = 0).
    { apply orb_true_iff in Hlast as [Hlast|Hlast]; apply Z.eqb_eq in Hlast;
        lia. }
    destruct Hcase as [(-> & -> & -> & ->)|(Hb' & Hc' & -> & ->)];
      [vm_compute; reflexivity|].
    destruct (cycle_year b c 3) as [Hdays Hleap]; [lia..|].
    replace (100 * b + 4 * c + 4) with (100 * b + 4 * c + 3 + 1) by lia.
    unfold _ymd2ord, _days_before_month. rewrite Hdays, Hleap.
    rewrite (proj2 (Z.eqb_neq c 24)) by lia.
    change (_DAYS_BEFORE_MONTH 12) with 334. cbn [Z.eqb Pos.eqb Z.ltb Z.compare
      Pos.compare Pos.compare_cont negb andb orb]. lia.
  - apply orb_false_iff in Hlast as [Hd' Hb']. apply Z.eqb_neq in Hd', Hb'.
    destruct (cycle_year b c d) as [Hdays Hleap]; [lia..|].
    pose proof (month_day_before
                  ((d =? 3) && (negb (c =? 24) || (b =? 3))) n Hn) as Hmd.
    destruct (month_day _ n) as [m dd]. cbn [fst snd] in *.
    unfold _ymd2ord, _days_before_month. rewrite Hdays, Hleap. lia.
Qed.


(** The calendar repeats every 400 years, which are 146097 days. *)
Lemma ord2ymd_shift (o k : Z) :
  _ord2ymd (o + 146097 * k)
  = ((_ord2ymd o).1.1 + 400 * k, (_ord2ymd o).1.2, (_ord2ymd o).2).
Proof.
  unfold _ord2ymd, _DI400Y, _DI100Y, _DI4Y. cbv zeta.
  replace (o + 146097 * k - 1) with ((o - 1) + k * 146097) by lia.
  rewrite Z.div_add, Z.mod_add by lia.
  match goal with
  | |- context [if ?c then _ else _] => destruct c
  end.
  - cbn [fst snd]. f_equal. f_equal. lia.
  - match goal with
    | |- context [month_day ?l ?n] => destruct (month_day l n) as [m d]
    end.
    cbn [fst snd]. f_equal. f_equal. lia.
Qed.

Lemma is_leap_shift (y k : Z) : _is_leap (y + 400 * k) = _is_leap y.
Proof.
  unfold _is_leap.
  replace (y + 400 * k) with (y + (100 * k) * 4) at 1 by lia.
  replace (y + 400 * k) with (y + (4 * k) * 100) at 1 by lia.
  replace (y + 400 * k) with (y + k * 400) by lia.
  by rewrite !Z.mod_add by lia.
Qed.

Lemma ymd2ord_shift (y m d k : Z) :
  _ymd2ord (y + 400 * k) m d = _ymd2ord y m d + 146097 * k.
Proof.
  unfold _ymd2ord, _days_before_year, _days_before_month.
  rewrite is_leap_shift. cbv zeta.
  replace (y + 400 * k - 1) with (y - 1 + (100 * k) * 4) at 2 by lia.
  replace (y + 400 * k - 1) with (y - 1 + (4 * k) * 100) at 2 by lia.
  replace (y + 400 * k - 1) with (y - 1 + k * 400) at 2 by lia.
  rewrite !Z.div_add by lia. lia.
Qed.

(** The day number of the date of a day number is that day number. *)
Lemma ymd2ord_ord2ymd (o : Z) :
  _ymd2ord (_ord2ymd o).1.1 (_ord2ymd o).1.2 (_ord2ymd o).2 = o.
Proof.
  set (k := (o - 1) / 146097). set (o' := (o - 1) mod 146097 + 1).
  assert (Ho : o = o' + 146097 * k).
  { subst k o'. pose proof (Z.div_mod (o - 1) 146097). lia. }
  assert (Ho' : 1 <= o' <= 146097).
  { subst o'. pose proof (Z.mod_pos_bound (o - 1) 146097). lia. }
  rewrite Ho at 1 2 3. rewrite ord2ymd_shift. cbn [fst snd].
  rewrite ymd2ord_shift, ymd2ord_ord2ymd_period by done. lia.
Qed.

(** Taking days off a moment takes them off its day number. *)
Lemma toordinal_sub_days (t b : datetime) (n : Z) :
  sub_days t n = Some b -> toordinal b = toordinal t - n.
Proof.
  unfold sub_days. case_match; [|done].
  pose proof (ymd2ord_ord2ymd (toordinal t - n)) as Hr.
  destruct (_ord2ymd (toordinal t - n)) as [[y m] d].
  intros [= <-]. exact Hr.
Qed.

End Calendar.

(** ** The messages a run with a date limit asks for *)

Section Since.

Import Os ImapServer.

Local Open Scope Z_scope.

Lemma uid_inj (mailbox : list stored) (m m' : stored) :
  NoDup (uid <$> mailbox) -> m ∈ mailbox -> m' ∈ mailbox ->
  uid m = uid m' -> m = m'.
Proof.
  induction mailbox as [|x mailbox IH]; [by intros _ ?%elem_of_nil|].
  rewrite fmap_cons, NoDup_cons. intros [Hx Hnd] Hm Hm' Heq.
  apply elem_of_cons in Hm as [->|Hm]; apply elem_of_cons in Hm' as [->|Hm'].
  - done.
  - destruct Hx. rewrite Heq. by apply list_elem_of_fmap_2.
  - destruct Hx. rewrite <- Heq. by apply list_elem_of_fmap_2.
  - by apply IH.
Qed.

(** The search a run with a limit of [n] days sends. *)
Lemma download_search_A (srv : FetcherA.imap_server) (clk : FetcherA.clock)
    (email_address password imap_server : pystr) (imap_port : Z)
    (search_criteria output_dir : pystr) (n : Z) (fs0 : filesystem)
    (bound : datetime) :
  FetcherA.IMAP4_SSL srv imap_server imap_port = None ->
  FetcherA.login srv email_address password = None ->
  FetcherA.select srv (lit "INBOX") = None ->
  n <> 0 -> sub_days (FetcherA.now_run clk) n = Some bound ->
  FetcherA.CallSearch
    (lit "(SINCE " ++ strftime_d_b_Y bound ++ lit ") " ++ search_criteria)
  ∈ FetcherA.calls
      (FetcherA.download_pdf_attachments srv clk email_address password
         imap_server imap_port search_criteria output_dir (Some n) fs0).2.
Proof.
  intros Hc Hl Hs Hn Hb.
  rewrite (download_calls_A srv clk _ _ _ _ _ _ _ _ _ Hc Hl Hs
             (fun w => date_limited_days clk search_criteria n bound w Hn Hb)).
  apply elem_of_app. left. set_solver.
Qed.

(** The messages such a run fetches from a server that follows the
    protocol are of the day of the bound or of a later day. *)
Lemma download_fetched_A (mailbox : list stored) (clk : FetcherA.clock)
    (email_address password imap_server : pystr) (imap_port : Z)
    (search_criteria output_dir : pystr) (n : Z) (fs0 : filesystem)
    (bound : datetime) (message_id : bytes) :
  n <> 0 -> sub_days (FetcherA.now_run clk) n = Some bound ->
  0 <= year bound ->
  FetcherA.CallFetch message_id
  ∈ FetcherA.calls
      (FetcherA.download_pdf_attachments (server mailbox) clk email_address
         password imap_server imap_port search_criteria output_dir (Some n)
         fs0).2 ->
  exists m : stored,
    m ∈ mailbox /\ uid m = message_id
    /\ toordinal (FetcherA.now_run clk) - n <= toordinal (internal_date m).
Proof.
  intros Hn Hb Hy.
  rewrite (download_calls_A (server mailbox) clk _ _ _ _ _ _ _ _ _
             eq_refl eq_refl eq_refl
             (fun w => date_limited_days clk search_criteria n bound w Hn Hb)).
  change (FetcherA.search (server mailbox)) with (search mailbox).
  destruct (sub_days_fields _ _ _ Hb) as [Hm Hd].
  rewrite <- (toordinal_sub_days _ _ _ Hb).
  intros Hin. apply elem_of_app in Hin as [Hin|Hin]; [set_solver|].
  destruct (search mailbox _) as [[status message_ids]|e] eqn:Hsearch;
    [|by apply elem_of_nil in Hin].
  assert (Hid : message_id ∈ message_ids).
  { destruct (str_eqb status (lit "OK")); [|set_solver].
    apply elem_of_app in Hin as [Hin|Hin]; [|set_solver].
    apply list_elem_of_In, in_map_iff in Hin as (x & [= ->] & Hx).
    by apply list_elem_of_In. }
  exact (search_since mailbox bound search_criteria status message_ids
           message_id Hy Hm Hd Hsearch Hid).
Qed.

End Since.




(** * Further properties of the two scripts *)

(** ** Properties kept along a run (Fetcher B) *)

Section InvariantB.

Import Os FetcherB.

Context (lib : mail_library) (now : datetime) (lower : pystr -> pystr).
Context (output_dir : pystr) (I : state -> Prop).

(** [I] looks at the files and at the paths gathered only; the
    directories made on the way keep it; and it is kept when an
    attachment of a message of the library, with a name that ends in
    [.pdf], is saved at the path the probe returns in the monthly folder
    of the message. *)
Hypothesis I_frame : forall w w' : state,
  fs w' = fs w -> downloaded_files w' = downloaded_files w -> I w -> I w'.
Hypothesis I_makedirs : forall (w : state) (p : pystr),
  I w ->
  I {| fs := makedirs (fs w) p; out := out w; calls := calls w;
       downloaded_files := downloaded_files w |}.
Hypothesis I_saved : forall (n : nat) (q : option query) (m : message)
    (a : attachment) (path : pystr) (w : state),
  Yield (Ok m) ∈ fetch lib n q -> a ∈ msg_attachments m ->
  endswith (lower (att_filename a)) (lit ".pdf") = true ->
  unique_path (fs w) (join output_dir (folder_name_of (msg_date m)))
    (clean_filename (Some (att_filename a))) = Some path ->
  path ∉ existing (fs w) ->
  I w -> I (saved_state a path w).

Lemma kept_print_B (l : printed) : preserved I (print l).
Proof. apply preserved_modify. intros w. by apply I_frame. Qed.

Lemma kept_called_B (c : call) : preserved I (called c).
Proof. apply preserved_modify. intros w. by apply I_frame. Qed.

Lemma kept_or_raise_B (r : option pystr) : preserved I (or_raise r).
Proof. destruct r; [apply preserved_raise | apply preserved_ret]. Qed.

Lemma kept_count_items_B (l : list item) (n : nat) :
  preserved I (count_items l n).
Proof.
  revert n. induction l as [|[m|e] l IH]; intros n; simpl;
    [apply preserved_ret | apply IH | apply preserved_raise].
Qed.

Lemma kept_build_criteria_B (only_unread : bool)
    (search_term : option pystr) (days_limit : option Z) :
  preserved I (build_criteria now only_unread search_term days_limit).
Proof. apply preserved_build_criteria. Qed.

(** What [get_monthly_folder] does: the folder is the base joined with
    the name, and it is made when nothing has its path. *)
Lemma get_monthly_folder_run (d : datetime) (base : pystr) (w : state) :
  get_monthly_folder d base w
  = (Ok (join base (folder_name_of d)),
     if exists_ (fs w) (join base (folder_name_of d)) then w
     else {| fs := makedirs (fs w) (join base (folder_name_of d));
             out := out w; calls := calls w;
             downloaded_files := downloaded_files w |}).
Proof.
  unfold get_monthly_folder. cbv zeta. rewrite run_bind_get, run_bind_when.
  by destruct (exists_ _ _).
Qed.

Lemma kept_save_attachment_B (n : nat) (q : option query) (m : message)
    (a : attachment) :
  Yield (Ok m) ∈ fetch lib n q -> a ∈ msg_attachments m ->
  preserved I (save_attachment lower
                 (join output_dir (folder_name_of (msg_date m))) a).
Proof.
  intros Hm Ha w r w'.
  destruct (endswith (lower (att_filename a)) (lit ".pdf")) eqn:Hpdf.
  - destruct (unique_path_spec (fs w)
                (join output_dir (folder_name_of (msg_date m)))
                (clean_filename (Some (att_filename a))))
      as (path & Hpath & Hfree & _).
    rewrite (save_attachment_at lower _ a w path Hpdf Hpath).
    intros [= <- <-] Hw. by apply (I_saved n q m).
  - rewrite save_attachment_other by done. by intros [= <- <-].
Qed.

Lemma kept_process_message_B (debug : bool) (total i n : nat)
    (q : option query) (it : item) :
  it ∈ fetch lib n q ->
  preserved I (process_message lower output_dir debug total i it).
Proof.
  intros Hit. destruct it as [[m|e]|e]; simpl.
  - apply preserved_bind_ok.
    apply preserved_bind; [apply kept_print_B|intros _].
    intros w r w'. rewrite (run_bind_eq _ _ _ _ _ (get_monthly_folder_run _ _ w)).
    intros Hrun Hw.
    eapply (preserved_bind I); [ | |exact Hrun|].
    + apply preserved_when, kept_print_B.
    + intros ?. apply preserved_when, preserved_for_each. intros att Hatt.
      by apply (kept_save_attachment_B n q m).
    + destruct (exists_ _ _); [done|]. by apply I_makedirs.
  - apply preserved_bind_raise.
  - apply preserved_raise.
Qed.

Lemma kept_session_B (email password server : pystr)
    (days_limit : option Z) (folder_name : pystr) (only_unread : bool)
    (search_term : option pystr) (debug : bool) :
  preserved I (session lib now lower email password server output_dir
                       days_limit folder_name only_unread search_term debug).
Proof.
  unfold session.
  repeat first
    [ apply preserved_when
    | apply kept_print_B
    | apply kept_called_B
    | apply kept_or_raise_B
    | apply kept_build_criteria_B
    | apply kept_count_items_B
    | apply preserved_bind; [|intros ?] ].
  apply preserved_for_enumerate. intros i it Hit.
  by eapply kept_process_message_B.
Qed.

(** What holds before a run and is kept in this way holds after it. *)
Lemma download_kept_B (email password server : pystr)
    (days_limit : option Z) (folder_name : pystr) (only_unread : bool)
    (search_term : option pystr) (debug : bool) (fs0 : filesystem) :
  I {| fs := fs0; out := []; calls := []; downloaded_files := [] |} ->
  I (download_pdf_attachments lib now lower email password server output_dir
       days_limit folder_name only_unread search_term debug fs0).2.
Proof.
  intros Hstart. rewrite download_decomposed_B.
  assert (Hs : I (session_start output_dir fs0)).
  { unfold session_start. destruct (exists_ fs0 output_dir); [done|].
    eapply I_frame; [| |exact (I_makedirs _ output_dir Hstart)]; done. }
  pose proof (kept_session_B email password server days_limit folder_name
                only_unread search_term debug (session_start output_dir fs0))
    as Hkept.
  destruct (session _ _ _ _ _ _ _ _ _ _ _ _ _) as [[[]|e] w];
    cbn [snd]; (eapply I_frame; [| |exact (Hkept _ _ eq_refl Hs)]; done).
Qed.

End InvariantB.

(** ** The files of a run (Fetcher B) *)

Section DiskB.

Import Os FetcherB Disk.

Context (lib : mail_library) (now : datetime) (lower : pystr -> pystr).
Context (fs0 : filesystem).

Lemma new_files_frame_B (w w' : state) :
  fs w' = fs w -> downloaded_files w' = downloaded_files w ->
  new_files_B lib lower fs0 w -> new_files_B lib lower fs0 w'.
Proof. unfold new_files_B. by intros -> ->. Qed.

Lemma new_files_makedirs_B (w : state) (p : pystr) :
  new_files_B lib lower fs0 w ->
  new_files_B lib lower fs0
    {| fs := makedirs (fs w) p; out := out w; calls := calls w;
       downloaded_files := downloaded_files w |}.
Proof.
  unfold new_files_B. cbn [fs downloaded_files makedirs dirs files].
  intros (Hd & Hrest). split; [set_solver|done].
Qed.

Lemma new_files_saved_B (n : nat) (q : option query) (m : message)
    (a : attachment) (path : pystr) (w : state) :
  Yield (Ok m) ∈ fetch lib n q -> a ∈ msg_attachments m ->
  endswith (lower (att_filename a)) (lit ".pdf") = true ->
  path ∉ existing (fs w) ->
  new_files_B lib lower fs0 w ->
  new_files_B lib lower fs0 (saved_state a path w).
Proof.
  intros Hm Ha Hpdf Hfree (Hdirs & Hfiles & Hnd & Hdom & Hdl).
  assert (Hnone : files (fs w) !! path = None).
  { apply not_elem_of_dom. unfold existing in Hfree. set_solver. }
  assert (Hnew : path ∉ downloaded_files w).
  { intros Hin. destruct (Hdl path Hin) as (_ & data & Hdata & _).
    congruence. }
  unfold new_files_B, saved_state.
  cbn [fs downloaded_files write dirs files].
  split; [done|]. split; [|split; [|split]].
  - apply insert_subseteq_r; [|done].
    apply not_elem_of_dom. intros Hin.
    apply (subseteq_dom _ _ Hfiles) in Hin.
    by apply not_elem_of_dom in Hnone.
  - apply NoDup_app. split; [done|]. split; [|apply NoDup_singleton].
    intros x Hx ->%list_elem_of_singleton. done.
  - rewrite dom_insert_L, list_to_set_app_L, Hdom. set_solver.
  - intros p [Hp| ->%list_elem_of_singleton]%elem_of_app.
    + destruct (Hdl p Hp) as (Hp0 & data & Hdata & Hfrom).
      split; [done|]. exists data. split; [|done].
      rewrite lookup_insert_ne; [done|]. intros ->. done.
    + split.
      * intros Hin. apply Hfree. unfold existing in *.
        apply elem_of_union in Hin as [Hin|Hin]; [set_solver|].
        apply (subseteq_dom _ _ Hfiles) in Hin. set_solver.
      * exists (att_payload a). split; [apply lookup_insert_eq|].
        by exists n, q, m, a.
Qed.

(** The state a run ends in. *)
Lemma download_new_files_B (email password server output_dir : pystr)
    (days_limit : option Z) (folder_name : pystr) (only_unread : bool)
    (search_term : option pystr) (debug : bool) :
  new_files_B lib lower fs0
    (download_pdf_attachments lib now lower email password server output_dir
       days_limit folder_name only_unread search_term debug fs0).2.
Proof.
  apply (download_kept_B lib now lower output_dir (new_files_B lib lower fs0)).
  - apply new_files_frame_B.
  - apply new_files_makedirs_B.
  - intros n q m a path w Hm Ha Hpdf _ Hfree. by apply (new_files_saved_B n q m).
  - unfold new_files_B. cbn [fs downloaded_files].
    split; [done|]. split; [done|]. split; [apply NoDup_nil_2|].
    split; [set_solver|]. intros path Hin. by apply elem_of_nil in Hin.
Qed.

(** The run returns the list of its last state, and prints its length
    last. *)
Lemma download_returns_B (email password server output_dir : pystr)
    (days_limit : option Z) (folder_name : pystr) (only_unread : bool)
    (search_term : option pystr) (debug : bool) :
  let run :=
    download_pdf_attachments lib now lower email password server output_dir
      days_limit folder_name only_unread search_term debug fs0 in
  run.1 = Ok (downloaded_files run.2)
  /\ last (out run.2)
     = Some (DownloadedCount (length (downloaded_files run.2))).
Proof.
  cbv zeta. rewrite download_decomposed_B.
  destruct (session _ _ _ _ _ _ _ _ _ _ _ _ _) as [[[]|e] w];
    cbn [fst snd finished out downloaded_files];
    (split; [reflexivity|apply last_snoc]).
Qed.

End DiskB.

(** X1: the second script never removes or overwrites what is on the
    disk: after a run, whatever the library yields and wherever the run
    stops, every directory that existed is still there and every file that
    existed still has the content it had. *)
Theorem run_keeps_existing_files_B :
  forall (lib : FetcherB.mail_library) (now : datetime)
         (lower : pystr -> pystr)
         (email password server output_dir : pystr)
         (days_limit : option Z) (folder_name : pystr)
         (only_unread : bool) (search_term : option pystr) (debug : bool)
         (fs0 : Os.filesystem),
    let run :=
      FetcherB.download_pdf_attachments lib now lower email password server
        output_dir days_limit folder_name only_unread search_term debug
        fs0 in
    Os.dirs fs0 ⊆ Os.dirs (FetcherB.fs run.2)
    /\ forall (path : pystr) (data : bytes),
         Os.files fs0 !! path = Some data ->
         Os.files (FetcherB.fs run.2) !! path = Some data.
Proof.
  intros lib now lower email password server output_dir days_limit
         folder_name only_unread search_term debug fs0 run.
  destruct (download_new_files_B lib now lower fs0 email password server
              output_dir days_limit folder_name only_unread search_term debug)
    as (Hdirs & Hfiles & _).
  split; [exact Hdirs|]. intros path data Hdata.
  by apply (lookup_weaken _ _ _ _ Hdata).
Qed.



(** ** Where the second script saves *)

Section SavedB.

Import Os FetcherB Saved.

Lemma clean_no_sep (s : pystr) :
  Forall (fun c => reserved c = false) s -> sep ∉ s.
Proof.
  intros Hs Hin. rewrite Forall_forall in Hs. specialize (Hs sep Hin).
  discriminate.
Qed.

Lemma digits_no_sep (s : pystr) :
  Forall (fun c => (48 <= c <= 57)%N) s -> sep ∉ s.
Proof.
  intros Hs Hin. rewrite Forall_forall in Hs. specialize (Hs sep Hin).
  unfold sep in Hs. lia.
Qed.

Lemma str_of_N_nonempty (n : N) : str_of_N n <> [].
Proof.
  unfold str_of_N. intros H.
  change (@nil N) with (lit EmptyString) in H. apply lit_inj in H.
  pose proof (NilEmpty.usu (N.to_uint n)) as Hu. rewrite H in Hu.
  cbn [NilEmpty.uint_of_string] in Hu.
  pose proof (DecimalN.Unsigned.of_to n) as Hn.
  assert (Hnil : N.to_uint n = Nil) by congruence.
  rewrite Hnil in Hn. cbn in Hn. subst n. discriminate.
Qed.

(** The characters of [str(z)] and of a padded number: digits, after a
    minus sign when the number is negative. *)
Lemma str_of_Z_plain (z : Z) : str_of_Z z <> [] /\ (sep ∉ str_of_Z z).
Proof.
  unfold str_of_Z. destruct (z <? 0)%Z.
  - split; [done|]. intros [Hin|Hin]%elem_of_app.
    + apply list_elem_of_singleton in Hin. discriminate.
    + exact (digits_no_sep _ (str_of_N_digits _) Hin).
  - split; [apply str_of_N_nonempty|].
    apply digits_no_sep, str_of_N_digits.
Qed.

Lemma format_0d_plain (w : nat) (z : Z) :
  format_0d w z <> [] /\ (sep ∉ format_0d w z).
Proof.
  unfold format_0d. destruct (z <? 0)%Z; cbv zeta.
  - split; [done|]. intros [Hin|[Hin|Hin]%elem_of_app]%elem_of_app.
    + apply list_elem_of_singleton in Hin. discriminate.
    + apply list_elem_of_In, repeat_spec in Hin. discriminate.
    + exact (digits_no_sep _ (str_of_N_digits _) Hin).
  - split.
    + intros [_ H]%app_eq_nil. by apply str_of_N_nonempty in H.
    + intros [Hin|Hin]%elem_of_app.
      * apply list_elem_of_In, repeat_spec in Hin. discriminate.
      * exact (digits_no_sep _ (str_of_N_digits _) Hin).
Qed.

Lemma folder_name_plain (d : datetime) :
  folder_name_of d <> [] /\ (sep ∉ folder_name_of d).
Proof.
  unfold folder_name_of.
  destruct (str_of_Z_plain (year d)) as [Hy1 Hy2].
  destruct (format_0d_plain 2 (month d)) as [Hm1 Hm2].
  split.
  - intros [H _]%app_eq_nil. done.
  - intros [Hin|[Hin|Hin]%elem_of_app]%elem_of_app; [done| |done].
    apply list_elem_of_singleton in Hin. discriminate.
Qed.

Lemma startswith_no_sep (s : pystr) : sep ∉ s -> startswith s [sep] = false.
Proof.
  intros Hs. rewrite startswith_char. destruct s as [|b s]; [done|].
  apply N.eqb_neq. intros <-. apply Hs. by left.
Qed.

Lemma endswith_no_sep (x s : pystr) :
  s <> [] -> sep ∉ s -> endswith (x ++ s) [sep] = false.
Proof.
  intros Hne Hs. unfold endswith. rewrite rev_app_distr.
  change (rev [sep]) with [sep]. rewrite startswith_char.
  destruct (rev s) as [|b t] eqn:Hrev.
  - apply (f_equal (@rev N)) in Hrev. rewrite rev_involutive in Hrev. done.
  - cbn [app]. apply N.eqb_neq. intros <-. apply Hs.
    apply list_elem_of_In, in_rev. rewrite Hrev. by left.
Qed.

(** A name without a separator, joined to a monthly folder, lies in that
    folder, which lies in the output directory. *)
Lemma join_monthly (output_dir name : pystr) (d : datetime) :
  sep ∉ name ->
  join (join output_dir (folder_name_of d)) name
  = join_prefix output_dir ++ folder_name_of d ++ [sep] ++ name.
Proof.
  intros Hname. destruct (folder_name_plain d) as [Hne Hsep].
  rewrite (join_relative output_dir) by by apply startswith_no_sep.
  rewrite join_relative by by apply startswith_no_sep.
  unfold join_prefix at 1. rewrite endswith_no_sep by done.
  rewrite truthy_true by (intros [_ Ha]%app_eq_nil; done).
  cbn [negb orb]. by rewrite <- !app_assoc.
Qed.

(** The path the probe returns is the folder joined with a name that has
    no separator, when the name it was given has none. *)
Lemma unique_path_name (f : filesystem) (folder filename path : pystr) :
  filename <> [] -> sep ∉ filename ->
  unique_path f folder filename = Some path ->
  exists name : pystr, name <> [] /\ (sep ∉ name) /\ path = join folder name.
Proof.
  intros Hne Hsep Hpath.
  destruct (unique_path_spec f folder filename) as (q & Hq & _ & Hcase).
  assert (q = path) as -> by congruence.
  destruct Hcase as [->|(_ & k & _ & -> & _)]; [by exists filename|].
  destruct (splitext filename) as [base ext] eqn:Hsp.
  apply splitext_app in Hsp. cbn [fst snd]. unfold candidate.
  exists (base ++ lit "_" ++ str_of_nat k ++ ext).
  split; [|split; [|done]].
  - intros [_ H]%app_eq_nil. done.
  - subst filename.
    intros [Hin|[Hin|[Hin|Hin]%elem_of_app]%elem_of_app]%elem_of_app.
    + apply Hsep, elem_of_app. by left.
    + apply list_elem_of_singleton in Hin. discriminate.
    + exact (digits_no_sep _ (str_of_N_digits _) Hin).
    + apply Hsep, elem_of_app. by right.
Qed.

Context (lib : mail_library) (now : datetime) (lower : pystr -> pystr).

Lemma download_in_monthly_folder (email password server output_dir : pystr)
    (days_limit : option Z) (folder_name : pystr) (only_unread : bool)
    (search_term : option pystr) (debug : bool) (fs0 : filesystem) :
  in_monthly_folder lib output_dir
    (download_pdf_attachments lib now lower email password server output_dir
       days_limit folder_name only_unread search_term debug fs0).2.
Proof.
  apply (download_kept_B lib now lower output_dir
           (in_monthly_folder lib output_dir)).
  - unfold in_monthly_folder. by intros w w' _ ->.
  - done.
  - intros n q m a path w Hm Ha Hpdf Hpath _ Hw p
           [Hp| ->%list_elem_of_singleton]%elem_of_app; [by apply Hw|].
    destruct (unique_path_name _ _ _ _ (clean_filename_B_nonempty _)
                (clean_no_sep _ (clean_filename_B_clean _)) Hpath)
      as (name & Hne & Hsep & ->).
    by exists n, q, m, name.
  - intros p Hp. by apply elem_of_nil in Hp.
Qed.

End SavedB.

(** X3: in the second script the name of an attachment cannot lead out of
    the monthly folder.  Every path a run returns is the output directory,
    then the folder [year-month] of the date of a message the library
    yielded, then a separator, then a name without a separator. *)
Theorem result_paths_in_monthly_folder_B :
  forall (lib : FetcherB.mail_library) (now : datetime)
         (lower : pystr -> pystr)
         (email password server output_dir : pystr)
         (days_limit : option Z) (folder_name : pystr)
         (only_unread : bool) (search_term : option pystr) (debug : bool)
         (fs0 : Os.filesystem) (l : list pystr) (path : pystr),
    (FetcherB.download_pdf_attachments lib now lower email password server
       output_dir days_limit folder_name only_unread search_term debug
       fs0).1 = Ok l ->
    path ∈ l ->
    exists (n : nat) (q : option FetcherB.query) (m : FetcherB.message)
           (name : pystr),
      FetcherB.Yield (Ok m) ∈ FetcherB.fetch lib n q
      /\ name <> [] /\ (Os.sep ∉ name)
      /\ (Os.sep ∉ FetcherB.folder_name_of (FetcherB.msg_date m))
      /\ path = Os.join_prefix output_dir
                ++ FetcherB.folder_name_of (FetcherB.msg_date m)
                ++ [Os.sep] ++ name.
Proof.
  intros lib now lower email password server output_dir days_limit
         folder_name only_unread search_term debug fs0 l path Hl Hin.
  destruct (download_returns_B lib now lower fs0 email password server
              output_dir days_limit folder_name only_unread search_term debug)
    as [Hret _].
  rewrite Hret in Hl. injection Hl as <-.
  destruct (download_in_monthly_folder lib now lower email password server
              output_dir days_limit folder_name only_unread search_term debug
              fs0 path Hin) as (n & q & m & name & Hm & Hne & Hsep & ->).
  exists n, q, m, name. split; [done|]. split; [done|]. split; [done|].
  split; [apply folder_name_plain|]. by apply join_monthly.
Qed.

Lemma result_paths_in_monthly_folder_B_witness :
  exists (n : nat) (q : option FetcherB.query) (m : FetcherB.message)
         (name : pystr),
    FetcherB.Yield (Ok m) ∈ FetcherB.fetch Examples.libB n q
    /\ name <> [] /\ (Os.sep ∉ name)
    /\ (Os.sep ∉ FetcherB.folder_name_of (FetcherB.msg_date m))
    /\ lit "out/2025-05/a.pdf"
       = Os.join_prefix (lit "out")
         ++ FetcherB.folder_name_of (FetcherB.msg_date m)
         ++ [Os.sep] ++ name.
Proof.
  apply (result_paths_in_monthly_folder_B Examples.libB Examples.may_2025
           ascii_lower (lit "me@example.org") (lit "secret")
           (lit "imap.example.org") (lit "out") None (lit "INBOX") false None
           false Examples.empty_fs [lit "out/2025-05/a.pdf"]).
  - vm_compute. reflexivity.
  - apply list_elem_of_singleton. reflexivity.
Defined.

(** ** The calls of a run (Fetcher B) *)

Section Triples.

Context {W : Type}.

Lemma triple_bind {A B} (P : W -> Prop) (m : M W A) (Q : A -> W -> Prop)
    (k : A -> M W B) (S : B -> W -> Prop) (R : pystr -> W -> Prop) :
  triple P m Q R -> (forall a, triple (Q a) (k a) S R) ->
  triple P (m ≫= k) S R.
Proof.
  intros Hm Hk w r w'. unfold mbind, M_bind, bind.
  destruct (m w) as [[a|e] w1] eqn:Hmw; intros Hrun Hw.
  - eapply Hk; [exact Hrun|]. exact (Hm w _ _ Hmw Hw).
  - injection Hrun as <- <-. exact (Hm w _ _ Hmw Hw).
Qed.

Lemma triple_preserved {A} (I : W -> Prop) (m : M W A)
    (R : pystr -> W -> Prop) :
  preserved I m -> (forall e w, I w -> R e w) ->
  triple I m (fun _ => I) R.
Proof.
  intros Hm HR w r w' Hrun Hw. pose proof (Hm w r w' Hrun Hw) as Hw'.
  destruct r; [done|by apply HR].
Qed.

Lemma triple_modify (P Q : W -> Prop) (f : W -> W) (R : pystr -> W -> Prop) :
  (forall w, P w -> Q (f w)) -> triple P (modify f) (fun _ => Q) R.
Proof. intros Hf w r w' [= <- <-] Hw. by apply Hf. Qed.

End Triples.

Section CallsB.

Import Os FetcherB Session.

Context (lib : mail_library) (now : datetime) (lower : pystr -> pystr).
Context (output_dir : pystr) (c : list call).

Local Abbreviation T := (at_calls c).

Lemma at_calls_print (l : printed) :
  (forall e, l <> Error e) -> preserved T (print l).
Proof.
  intros Hl. apply preserved_modify. intros w [Hc Hout].
  split; [done|]. cbn [out]. intros e [Hin|Hin]%elem_of_app; [by eapply Hout|].
  apply list_elem_of_singleton in Hin. by eapply Hl.
Qed.

Lemma at_calls_or_raise (r : option pystr) : preserved T (or_raise r).
Proof. destruct r; [apply preserved_raise | apply preserved_ret]. Qed.

Lemma at_calls_count_items (l : list item) (n : nat) :
  preserved T (count_items l n).
Proof.
  revert n. induction l as [|[m|e] l IH]; intros n; simpl;
    [apply preserved_ret | apply IH | apply preserved_raise].
Qed.

Lemma at_calls_build_criteria (only_unread : bool)
    (search_term : option pystr) (days_limit : option Z) :
  preserved T (build_criteria now only_unread search_term days_limit).
Proof. apply preserved_build_criteria. Qed.

Lemma at_calls_get_monthly_folder (d : datetime) (base : pystr) :
  preserved T (get_monthly_folder d base).
Proof.
  intros w r w'. rewrite get_monthly_folder_run.
  by destruct (exists_ _ _); intros [= <- <-].
Qed.

Lemma at_calls_save_attachment (folder : pystr) (a : attachment) :
  preserved T (save_attachment lower folder a).
Proof.
  intros w r w'.
  destruct (endswith (lower (att_filename a)) (lit ".pdf")) eqn:Hpdf.
  - destruct (save_attachment_pdf lower folder a w Hpdf) as (p & _ & ->).
    intros [= <- <-] [Hc Hout]. split; [done|].
    cbn [saved_state out].
    intros e [[Hin|Hin]%elem_of_app|Hin]%elem_of_app;
      [by eapply Hout| |]; by apply list_elem_of_singleton in Hin.
  - rewrite save_attachment_other by done. by intros [= <- <-].
Qed.

Lemma at_calls_process_message (debug : bool) (total i : nat) (it : item) :
  preserved T (process_message lower output_dir debug total i it).
Proof.
  destruct it as [[m|e]|e]; simpl.
  - apply preserved_bind_ok.
    apply preserved_bind; [by apply at_calls_print|intros _].
    apply preserved_bind; [apply at_calls_get_monthly_folder|intros folder].
    apply preserved_bind;
      [by apply preserved_when, at_calls_print|intros _].
    apply preserved_when, preserved_for_each. intros a _.
    apply at_calls_save_attachment.
  - apply preserved_bind_raise.
  - apply preserved_raise.
Qed.

End CallsB.

Section SessionB.

Import Os FetcherB Session.

Context (lib : mail_library) (now : datetime) (lower : pystr -> pystr).
Context (email password server folder_name : pystr).

(** Where the [try] block can raise: before the logout is called, or in
    the logout itself, which is then the last of the five calls. *)
Local Abbreviation stopped :=
  (fun (e : pystr) (w : state) =>
     CallLogout ∉ calls w
     \/ exists q : option query,
          calls w = complete email password server folder_name q
          /\ logout lib = Some e).

Lemma triple_called (c : list call) (x : call) :
  triple (at_calls c) (called x) (fun _ => at_calls (c ++ [x])) stopped.
Proof.
  apply triple_modify. intros w [Hc Hout]. split; [|done].
  cbn [calls]. by rewrite Hc.
Qed.

Lemma triple_kept {A} (c : list call) (m : M state A) :
  CallLogout ∉ c -> preserved (at_calls c) m ->
  triple (at_calls c) m (fun _ => at_calls c) stopped.
Proof.
  intros Hc Hm. apply triple_preserved; [done|].
  intros e w [Hw _]. left. by rewrite Hw.
Qed.

(** The [try] block makes its calls in a fixed order; it logs out last,
    and only when nothing has raised before. *)
Lemma session_calls (output_dir : pystr) (days_limit : option Z)
    (only_unread : bool) (search_term : option pystr) (debug : bool) :
  triple (at_calls [])
    (session lib now lower email password server output_dir days_limit
       folder_name only_unread search_term debug)
    (fun _ w =>
       logout lib = None
       /\ exists q,
            at_calls (complete email password server folder_name q) w)
    stopped.
Proof.
  unfold session.
  eapply triple_bind;
    [apply triple_kept; [set_solver|by apply preserved_when, at_calls_print]
    |intros ?].
  eapply triple_bind; [apply triple_called|intros ?].
  eapply triple_bind;
    [apply triple_kept; [set_solver|apply at_calls_or_raise]|intros ?].
  eapply triple_bind; [apply triple_called|intros ?].
  eapply triple_bind;
    [apply triple_kept; [set_solver|apply at_calls_or_raise]|intros ?].
  eapply triple_bind;
    [apply triple_kept; [set_solver|by apply preserved_when, at_calls_print]
    |intros ?].
  eapply triple_bind;
    [apply triple_kept; [set_solver|apply at_calls_build_criteria]
    |intros criteria].
  cbv zeta.
  set (q := if truthy criteria then Some (AND criteria) else None).
  eapply triple_bind;
    [apply triple_kept; [set_solver|by apply preserved_when, at_calls_print]
    |intros ?].
  eapply triple_bind; [apply triple_called|intros ?].
  eapply triple_bind;
    [apply triple_kept; [set_solver|apply at_calls_count_items]
    |intros total].
  eapply triple_bind; [apply triple_called|intros ?].
  eapply triple_bind;
    [apply triple_kept; [set_solver|by apply at_calls_print]|intros ?].
  eapply triple_bind;
    [apply triple_kept;
       [set_solver
       |apply preserved_for_enumerate; intros i it _;
        apply at_calls_process_message]
    |intros ?].
  eapply triple_bind; [apply triple_called|intros ?].
  intros w r w' Hrun Hw.
  destruct (logout lib) as [e|] eqn:Hlogout; cbn [or_raise] in Hrun.
  - rewrite run_bind_raise in Hrun. injection Hrun as <- <-.
    right. exists q. split; [|done]. by destruct Hw as [-> _].
  - rewrite run_bind_ret in Hrun.
    assert (Hkept : preserved
              (at_calls (complete email password server folder_name q))
              (when debug (print LoggedOut)))
      by (by apply preserved_when, at_calls_print).
    pose proof (Hkept w r w' Hrun Hw) as Hw'.
    destruct r as [[]|e]; [split; [done|by exists q]|].
    destruct debug; discriminate.
Qed.

End SessionB.

(** X4: the calls of the second script.  A run that prints no error has
    made exactly five calls, all of which returned: it opened the mailbox
    on port 993, logged in, asked for the messages twice with the same
    criteria (once to count them, once to process them), and logged out.
    A run that prints an error has either not called logout, or has made
    the five calls and it is the logout that raised. *)
Theorem logout_only_without_error_B :
  forall (lib : FetcherB.mail_library) (now : datetime)
         (lower : pystr -> pystr)
         (email password server output_dir : pystr)
         (days_limit : option Z) (folder_name : pystr)
         (only_unread : bool) (search_term : option pystr) (debug : bool)
         (fs0 : Os.filesystem),
    let run :=
      FetcherB.download_pdf_attachments lib now lower email password server
        output_dir days_limit folder_name only_unread search_term debug
        fs0 in
    let five (q : option FetcherB.query) :=
      [FetcherB.CallMailBox server 993%Z;
       FetcherB.CallLogin email password folder_name;
       FetcherB.CallFetch q; FetcherB.CallFetch q; FetcherB.CallLogout] in
    ((forall e : pystr, FetcherB.Error e ∉ FetcherB.out run.2) ->
     FetcherB.logout lib = None
     /\ exists q : option FetcherB.query, FetcherB.calls run.2 = five q)
    /\ ((exists e : pystr, FetcherB.Error e ∈ FetcherB.out run.2) ->
        FetcherB.CallLogout ∉ FetcherB.calls run.2
        \/ exists (q : option FetcherB.query) (e : pystr),
             FetcherB.logout lib = Some e
             /\ FetcherB.Error e ∈ FetcherB.out run.2
             /\ FetcherB.calls run.2 = five q).
Proof.
  intros lib now lower email password server output_dir days_limit
         folder_name only_unread search_term debug fs0 run five.
  subst run five. rewrite download_decomposed_B.
  assert (Hstart : Session.at_calls []
                     (FetcherB.session_start output_dir fs0)).
  { unfold FetcherB.session_start.
    destruct (Os.exists_ fs0 output_dir); (split; [done|]); cbn.
    - intros e He. by apply elem_of_nil in He.
    - intros e He. by apply list_elem_of_singleton in He. }
  pose proof (session_calls lib now lower email password server folder_name
                output_dir days_limit only_unread search_term debug
                (FetcherB.session_start output_dir fs0)) as Hs.
  destruct (FetcherB.session _ _ _ _ _ _ _ _ _ _ _ _ _) as [[[]|e] w].
  - destruct (Hs _ _ eq_refl Hstart) as (Hlogout & q & Hc & Hout).
    cbn [snd FetcherB.finished FetcherB.out FetcherB.calls]. split.
    + intros _. split; [done|]. by exists q.
    + intros (e & [[Hin|Hin]%elem_of_app|Hin]%elem_of_app);
        [by apply Hout in Hin|by apply elem_of_nil in Hin|].
      by apply list_elem_of_singleton in Hin.
  - pose proof (Hs _ _ eq_refl Hstart) as Hno.
    cbn [snd FetcherB.finished FetcherB.out FetcherB.calls]. split.
    + intros Hnone. destruct (Hnone e). set_solver.
    + intros _. destruct Hno as [Hno|(q & Hc & Hlogout)]; [by left|].
      right. exists q, e. split; [done|]. split; [set_solver|done].
Qed.

(** ** The course of a run (Fetcher A) *)

Ltac fields_A :=
  cbn [FetcherA.fs FetcherA.out FetcherA.calls FetcherA.downloaded_files].

Section StagesA.

Import Os FetcherA Stages.

Context (srv : imap_server) (clk : clock).

(** A run that gets logged in goes on from [logged_in] with
    [after_login]. *)
Lemma download_after_login (email_address password imap_server : pystr)
    (imap_port : Z) (search_criteria output_dir : pystr)
    (days_limit : option Z) (fs0 : filesystem) :
  IMAP4_SSL srv imap_server imap_port = None ->
  login srv email_address password = None ->
  download_pdf_attachments srv clk email_address password imap_server
    imap_port search_criteria output_dir days_limit fs0
  = after_login srv clk search_criteria output_dir days_limit
      (logged_in email_address password imap_server imap_port output_dir fs0).
Proof.
  intros Hc Hl. unfold download_pdf_attachments, logged_in, start.
  rewrite run_bind_get. cbn [fs]. rewrite run_bind_when.
  destruct (exists_ fs0 output_dir); cbn [negb];
    [|rewrite run_bind_assoc; unfold set_fs at 1;
      rewrite run_bind_modify, run_bind_print_A];
    cbv beta; fields_A.
  all: rewrite run_bind_try.
  all: rewrite run_bind_called_A, Hc, run_bind_or_raise_A; fields_A.
  all: rewrite run_bind_called_A, Hl, run_bind_or_raise_A; fields_A.
  all: unfold ret at 1; cbv beta iota.
  all: rewrite run_bind_print_A; fields_A.
  all: reflexivity.
Qed.

(** The rest of a run when the search answers with the status OK. *)
Lemma after_login_found (search_criteria output_dir : pystr)
    (days_limit : option Z) (criteria : pystr) (message_ids : list bytes)
    (w : state) :
  select srv (lit "INBOX") = None ->
  (forall w, date_limited clk search_criteria days_limit w = (Ok criteria, w)) ->
  search srv criteria = Ok (lit "OK", message_ids) ->
  exists w' : state,
    message_loop srv clk output_dir message_ids
      {| fs := fs w; out := out w ++ [Found (length message_ids)];
         calls := (calls w ++ [CallSelect (lit "INBOX")])
                  ++ [CallSearch criteria];
         downloaded_files := downloaded_files w |}
    = (Ok tt, w')
    /\ calls w' = ((calls w ++ [CallSelect (lit "INBOX")])
                   ++ [CallSearch criteria]) ++ map CallFetch message_ids
    /\ after_login srv clk search_criteria output_dir days_limit w
       = match logout srv with
         | None =>
             (Ok (downloaded_files w'),
              {| fs := fs w';
                 out := out w'
                        ++ [DownloadedCount (length (downloaded_files w'))];
                 calls := calls w' ++ [CallLogout];
                 downloaded_files := downloaded_files w' |})
         | Some e =>
             (Raise e,
              {| fs := fs w'; out := out w';
                 calls := calls w' ++ [CallLogout];
                 downloaded_files := downloaded_files w' |})
         end.
Proof.
  intros Hs Hd Hsearch.
  match goal with
  | |- exists w', message_loop _ _ _ _ ?w1 = _ /\ _ =>
      destruct (loop_from srv clk output_dir (length message_ids) message_ids
                  0 w1 w1 eq_refl) as (w' & Hloop & _ & Hcalls & _)
  end.
  exists w'. split; [exact Hloop|]. split; [exact Hcalls|].
  unfold after_login.
  rewrite run_bind_called_A, Hs, run_bind_or_raise_A.
  rewrite (run_bind_eq _ _ _ _ _ (Hd _)).
  rewrite run_bind_called_A; fields_A. rewrite Hsearch. cbn [lift].
  rewrite run_bind_ret. cbv beta iota.
  unfold str_eqb at 1. rewrite bool_decide_eq_true_2 by done. cbn [negb].
  rewrite run_bind_print_A; fields_A.
  unfold message_loop in Hloop |- *. rewrite (run_bind_eq _ _ _ _ _ Hloop).
  rewrite run_bind_called_A.
  destruct (logout srv); cbn [or_raise]; [by rewrite run_bind_raise|].
  rewrite run_bind_ret, run_bind_get, run_bind_print_A.
  reflexivity.
Qed.

End StagesA.

(** X5: once logged in, the first script fetches every message the search
    found, each once and in the order of the answer, whether or not some
    of them fail, and then calls logout.  When the logout returns, the
    script returns the list it has gathered and prints the length of that
    list last; when the logout raises, the script ends with that
    exception, which nothing catches, and returns no list. *)
Theorem fetches_every_message_found_A :
  forall (srv : FetcherA.imap_server) (clk : FetcherA.clock)
         (email_address password imap_server : pystr) (imap_port : Z)
         (search_criteria output_dir : pystr) (days_limit : option Z)
         (fs0 : Os.filesystem) (criteria : pystr) (message_ids : list bytes),
    FetcherA.IMAP4_SSL srv imap_server imap_port = None ->
    FetcherA.login srv email_address password = None ->
    FetcherA.select srv (lit "INBOX") = None ->
    (forall w, FetcherA.date_limited clk search_criteria days_limit w
               = (Ok criteria, w)) ->
    FetcherA.search srv criteria = Ok (lit "OK", message_ids) ->
    let run :=
      FetcherA.download_pdf_attachments srv clk email_address password
        imap_server imap_port search_criteria output_dir days_limit fs0 in
    FetcherA.calls run.2
    = [FetcherA.CallConnect imap_server imap_port;
       FetcherA.CallLogin email_address password;
       FetcherA.CallSelect (lit "INBOX");
       FetcherA.CallSearch criteria]
      ++ map FetcherA.CallFetch message_ids ++ [FetcherA.CallLogout]
    /\ match FetcherA.logout srv with
       | None =>
           run.1 = Ok (FetcherA.downloaded_files run.2)
           /\ last (FetcherA.out run.2)
              = Some (FetcherA.DownloadedCount
                        (length (FetcherA.downloaded_files run.2)))
       | Some e => run.1 = Raise e
       end.
Proof.
  intros srv clk email_address password imap_server imap_port
         search_criteria output_dir days_limit fs0 criteria message_ids
         Hc Hl Hs Hd Hsearch run. subst run.
  rewrite (download_after_login srv clk _ _ _ _ _ _ _ _ Hc Hl).
  destruct (after_login_found srv clk search_criteria output_dir days_limit
              criteria message_ids
              (Stages.logged_in email_address password imap_server imap_port
                 output_dir fs0) Hs Hd Hsearch)
    as (w' & _ & Hcalls & ->).
  destruct (FetcherA.logout srv) as [e|];
    cbn [fst snd FetcherA.calls FetcherA.out FetcherA.downloaded_files];
    (split;
     [rewrite Hcalls; cbn [Stages.logged_in FetcherA.calls app]; reflexivity|]).
  - reflexivity.
  - split; [reflexivity|apply last_snoc].
Qed.

Lemma fetches_every_message_found_A_witness :
  FetcherA.calls Examples.runA.2
  = [FetcherA.CallConnect (lit "imap.example.org") 993%Z;
     FetcherA.CallLogin (lit "me@example.org") (lit "secret");
     FetcherA.CallSelect (lit "INBOX");
     FetcherA.CallSearch (lit "ALL")]
    ++ map FetcherA.CallFetch [Examples.id1; Examples.id2; Examples.id3]
    ++ [FetcherA.CallLogout].
Proof.
  apply (fetches_every_message_found_A Examples.srvA Examples.clkA
           (lit "me@example.org") (lit "secret") (lit "imap.example.org")
           993%Z (lit "ALL") (lit "out") None Examples.empty_fs (lit "ALL")
           [Examples.id1; Examples.id2; Examples.id3]);
    reflexivity.
Defined.

(** X6: when the search answers with a status other than OK the first
    script prints that no messages were found and calls logout: it
    fetches nothing and writes nothing.  When the logout returns, the
    script returns the empty list; when the logout raises, the script
    ends with that exception. *)
Theorem search_status_not_ok_A :
  forall (srv : FetcherA.imap_server) (clk : FetcherA.clock)
         (email_address password imap_server : pystr) (imap_port : Z)
         (search_criteria output_dir : pystr) (days_limit : option Z)
         (fs0 : Os.filesystem) (criteria status : pystr)
         (message_ids : list bytes),
    FetcherA.IMAP4_SSL srv imap_server imap_port = None ->
    FetcherA.login srv email_address password = None ->
    FetcherA.select srv (lit "INBOX") = None ->
    (forall w, FetcherA.date_limited clk search_criteria days_limit w
               = (Ok criteria, w)) ->
    FetcherA.search srv criteria = Ok (status, message_ids) ->
    status <> lit "OK" ->
    FetcherA.download_pdf_attachments srv clk email_address password
      imap_server imap_port search_criteria output_dir days_limit fs0
    = (match FetcherA.logout srv with
       | None => Ok []
       | Some e => Raise e
       end,
       {| FetcherA.fs := FetcherA.fs (Stages.start output_dir fs0);
          FetcherA.out :=
            FetcherA.out (Stages.start output_dir fs0)
            ++ [FetcherA.Connected imap_server; FetcherA.NoMessagesFound];
          FetcherA.calls :=
            [FetcherA.CallConnect imap_server imap_port;
             FetcherA.CallLogin email_address password;
             FetcherA.CallSelect (lit "INBOX");
             FetcherA.CallSearch criteria;
             FetcherA.CallLogout];
          FetcherA.downloaded_files := [] |}).
Proof.
  intros srv clk email_address password imap_server imap_port
         search_criteria output_dir days_limit fs0 criteria status
         message_ids Hc Hl Hs Hd Hsearch Hstatus.
  rewrite (download_after_login srv clk _ _ _ _ _ _ _ _ Hc Hl).
  unfold Stages.after_login, Stages.logged_in.
  rewrite run_bind_called_A, Hs, run_bind_or_raise_A.
  rewrite (run_bind_eq _ _ _ _ _ (Hd _)).
  rewrite run_bind_called_A; fields_A. rewrite Hsearch. cbn [lift].
  rewrite run_bind_ret. cbv beta iota.
  unfold str_eqb. rewrite bool_decide_eq_false_2 by done. cbn [negb].
  rewrite run_bind_print_A, run_bind_called_A; fields_A.
  destruct (FetcherA.logout srv); cbn [FetcherA.or_raise];
    [rewrite run_bind_raise|rewrite run_bind_ret; unfold ret];
    cbn [app]; by rewrite <- app_assoc.
Qed.

Lemma search_status_not_ok_A_witness :
  (FetcherA.download_pdf_attachments
     {| FetcherA.IMAP4_SSL := fun _ _ => None;
        FetcherA.login := fun _ _ => None;
        FetcherA.select := fun _ => None;
        FetcherA.search := fun _ => Ok (lit "NO", [Examples.id1]);
        FetcherA.fetch := fun _ => Raise (lit "no message");
        FetcherA.logout := None |}
     Examples.clkA (lit "me@example.org") (lit "secret")
     (lit "imap.example.org") 993%Z (lit "ALL") (lit "out") None
     Examples.empty_fs).1
  = Ok [].
Proof.
  rewrite (search_status_not_ok_A
             {| FetcherA.IMAP4_SSL := fun _ _ => None;
                FetcherA.login := fun _ _ => None;
                FetcherA.select := fun _ => None;
                FetcherA.search := fun _ => Ok (lit "NO", [Examples.id1]);
                FetcherA.fetch := fun _ => Raise (lit "no message");
        FetcherA.logout := None |}
             Examples.clkA (lit "me@example.org") (lit "secret")
             (lit "imap.example.org") 993%Z (lit "ALL") (lit "out") None
             Examples.empty_fs (lit "ALL") (lit "NO") [Examples.id1]);
    [reflexivity| reflexivity | reflexivity | reflexivity | reflexivity
    | reflexivity | vm_compute; discriminate].
Defined.

(** X7: what fails after the login is not caught.  When selecting the
    mailbox raises, or the search does, the first script ends with that
    exception: it returns no list, prints nothing after the line that says
    it is connected, writes no file, and never logs out. *)
Theorem failure_after_login_not_caught_A :
  forall (srv : FetcherA.imap_server) (clk : FetcherA.clock)
         (email_address password imap_server : pystr) (imap_port : Z)
         (search_criteria output_dir : pystr) (days_limit : option Z)
         (fs0 : Os.filesystem) (e : pystr),
    FetcherA.IMAP4_SSL srv imap_server imap_port = None ->
    FetcherA.login srv email_address password = None ->
    let run :=
      FetcherA.download_pdf_attachments srv clk email_address password
        imap_server imap_port search_criteria output_dir days_limit fs0 in
    let connected :=
      FetcherA.out (Stages.start output_dir fs0)
      ++ [FetcherA.Connected imap_server] in
    (FetcherA.select srv (lit "INBOX") = Some e ->
     run
     = (Raise e,
        {| FetcherA.fs := FetcherA.fs (Stages.start output_dir fs0);
           FetcherA.out := connected;
           FetcherA.calls :=
             [FetcherA.CallConnect imap_server imap_port;
              FetcherA.CallLogin email_address password;
              FetcherA.CallSelect (lit "INBOX")];
           FetcherA.downloaded_files := [] |}))
    /\ (forall criteria : pystr,
          FetcherA.select srv (lit "INBOX") = None ->
          (forall w, FetcherA.date_limited clk search_criteria days_limit w
                     = (Ok criteria, w)) ->
          FetcherA.search srv criteria = Raise e ->
          run
          = (Raise e,
             {| FetcherA.fs := FetcherA.fs (Stages.start output_dir fs0);
                FetcherA.out := connected;
                FetcherA.calls :=
                  [FetcherA.CallConnect imap_server imap_port;
                   FetcherA.CallLogin email_address password;
                   FetcherA.CallSelect (lit "INBOX");
                   FetcherA.CallSearch criteria];
                FetcherA.downloaded_files := [] |})).
Proof.
  intros srv clk email_address password imap_server imap_port
         search_criteria output_dir days_limit fs0 e Hc Hl run connected.
  subst run connected.
  rewrite (download_after_login srv clk _ _ _ _ _ _ _ _ Hc Hl).
  unfold Stages.after_login, Stages.logged_in. split.
  - intros Hs. rewrite run_bind_called_A, Hs. reflexivity.
  - intros criteria Hs Hd Hsearch.
    rewrite run_bind_called_A, Hs, run_bind_or_raise_A.
    rewrite (run_bind_eq _ _ _ _ _ (Hd _)).
    rewrite run_bind_called_A; fields_A. rewrite Hsearch. reflexivity.
Qed.

Lemma failure_after_login_not_caught_A_witness :
  (FetcherA.download_pdf_attachments
     {| FetcherA.IMAP4_SSL := fun _ _ => None;
        FetcherA.login := fun _ _ => None;
        FetcherA.select := fun _ => Some (lit "no such mailbox");
        FetcherA.search := fun _ => Ok (lit "OK", []);
        FetcherA.fetch := fun _ => Raise (lit "no message");
        FetcherA.logout := None |}
     Examples.clkA (lit "me@example.org") (lit "secret")
     (lit "imap.example.org") 993%Z (lit "ALL") (lit "out") None
     Examples.empty_fs).1
  = Raise (lit "no such mailbox").
Proof.
  pose proof (failure_after_login_not_caught_A
                {| FetcherA.IMAP4_SSL := fun _ _ => None;
                   FetcherA.login := fun _ _ => None;
                   FetcherA.select := fun _ => Some (lit "no such mailbox");
                   FetcherA.search := fun _ => Ok (lit "OK", []);
                   FetcherA.fetch := fun _ => Raise (lit "no message");
        FetcherA.logout := None |}
                Examples.clkA (lit "me@example.org") (lit "secret")
                (lit "imap.example.org") 993%Z (lit "ALL") (lit "out") None
                Examples.empty_fs (lit "no such mailbox") eq_refl eq_refl)
    as Hrun.
  cbv zeta in Hrun. destruct Hrun as [Hselect _].
  rewrite (Hselect eq_refl). reflexivity.
Defined.

(** X8: a limit of no days, or of 0 days, is no limit: the first script
    then sends the search criteria as they were given. *)
Theorem no_limit_searches_as_given_A :
  forall (srv : FetcherA.imap_server) (clk : FetcherA.clock)
         (email_address password imap_server : pystr) (imap_port : Z)
         (search_criteria output_dir : pystr) (days_limit : option Z)
         (fs0 : Os.filesystem),
    FetcherA.IMAP4_SSL srv imap_server imap_port = None ->
    FetcherA.login srv email_address password = None ->
    FetcherA.select srv (lit "INBOX") = None ->
    days_limit = None \/ days_limit = Some 0%Z ->
    take 4 (FetcherA.calls
              (FetcherA.download_pdf_attachments srv clk email_address
                 password imap_server imap_port search_criteria output_dir
                 days_limit fs0).2)
    = [FetcherA.CallConnect imap_server imap_port;
       FetcherA.CallLogin email_address password;
       FetcherA.CallSelect (lit "INBOX");
       FetcherA.CallSearch search_criteria].
Proof.
  intros srv clk email_address password imap_server imap_port
         search_criteria output_dir days_limit fs0 Hc Hl Hs Hdays.
  rewrite (download_calls_A srv clk _ _ _ _ _ _ _ _ search_criteria Hc Hl Hs);
    [reflexivity|].
  intros w. by destruct Hdays as [-> | ->].
Qed.

Lemma no_limit_searches_as_given_A_witness :
  take 4 (FetcherA.calls
            (FetcherA.download_pdf_attachments Examples.srvA Examples.clkA
               (lit "me@example.org") (lit "secret") (lit "imap.example.org")
               993%Z (lit "UNSEEN") (lit "out") (Some 0%Z)
               Examples.empty_fs).2)
  = [FetcherA.CallConnect (lit "imap.example.org") 993%Z;
     FetcherA.CallLogin (lit "me@example.org") (lit "secret");
     FetcherA.CallSelect (lit "INBOX");
     FetcherA.CallSearch (lit "UNSEEN")].
Proof.
  apply (no_limit_searches_as_given_A Examples.srvA Examples.clkA);
    [reflexivity | reflexivity | reflexivity | right; reflexivity].
Defined.

(** ** The criteria of the second script *)

Section CriteriaB.

Import Os FetcherB.

Context (lib : mail_library) (now : datetime) (lower : pystr -> pystr).

(** A run that gets logged in asks for the messages with the criteria it
    has built, or with none when the list of criteria is empty. *)
Lemma download_fetch_criteria_B
    (email password server output_dir : pystr) (days_limit : option Z)
    (folder_name : pystr) (only_unread : bool) (search_term : option pystr)
    (debug : bool) (fs0 : filesystem) (criteria : list keyword_query) :
  MailBox lib server 993%Z = None ->
  login lib email password folder_name = None ->
  (forall w, build_criteria now only_unread search_term days_limit w
             = (Ok criteria, w)) ->
  CallFetch (if truthy criteria then Some (AND criteria) else None)
  ∈ calls (download_pdf_attachments lib now lower email password server
             output_dir days_limit folder_name only_unread search_term debug
             fs0).2.
Proof.
  intros Hc Hl Hb. rewrite download_decomposed_B.
  set (q := if truthy criteria then Some (AND criteria) else None).
  assert (Hs : forall w,
            CallFetch q
            ∈ calls (session lib now lower email password server output_dir
                       days_limit folder_name only_unread search_term debug
                       w).2).
  { intros w. unfold session. cbv zeta. rewrite Hc, Hl.
    destruct debug; cbn [when];
      repeat first [ rewrite run_bind_print_B | rewrite run_bind_ret
                   | rewrite run_bind_called_B | rewrite run_bind_or_raise_B ];
      rewrite (run_bind_eq _ _ _ _ _ (Hb _));
      fold q;
      repeat first [ rewrite run_bind_print_B | rewrite run_bind_ret
                   | rewrite run_bind_called_B ];
      (apply (preserved_run (fun w => CallFetch q ∈ calls w));
       [ repeat first
           [ apply preserved_when
           | apply called_print
           | apply called_called
           | apply called_or_raise
           | apply called_count_items
           | apply preserved_ret
           | apply preserved_for_enumerate; intros ? ? _;
             apply called_process_message
           | apply preserved_bind; [|intros ?] ]
       | cbn [calls]; apply elem_of_app; right;
         by apply list_elem_of_singleton ]). }
  specialize (Hs (session_start output_dir fs0)).
  destruct (session _ _ _ _ _ _ _ _ _ _ _ _ _) as [[[]|e] w]; exact Hs.
Qed.

End CriteriaB.

(** X9: in the second script an empty search term and a limit of 0 days
    count as none.  With no filter for unread messages, no search term (or
    the empty one) and no limit (or 0 days), a run that gets logged in
    asks the library for the messages without any criteria. *)
Theorem no_filter_fetches_without_criteria_B :
  forall (lib : FetcherB.mail_library) (now : datetime)
         (lower : pystr -> pystr)
         (email password server output_dir : pystr)
         (days_limit : option Z) (folder_name : pystr)
         (search_term : option pystr) (debug : bool) (fs0 : Os.filesystem),
    FetcherB.MailBox lib server 993%Z = None ->
    FetcherB.login lib email password folder_name = None ->
    days_limit = None \/ days_limit = Some 0%Z ->
    search_term = None \/ search_term = Some [] ->
    FetcherB.CallFetch None
    ∈ FetcherB.calls
        (FetcherB.download_pdf_attachments lib now lower email password
           server output_dir days_limit folder_name false search_term debug
           fs0).2.
Proof.
  intros lib now lower email password server output_dir days_limit
         folder_name search_term debug fs0 Hc Hl Hdays Hterm.
  apply (download_fetch_criteria_B lib now lower email password server
           output_dir days_limit folder_name false search_term debug fs0 []
           Hc Hl).
  intros w. by destruct Hdays as [-> | ->], Hterm as [-> | ->].
Qed.

Lemma no_filter_fetches_without_criteria_B_witness :
  FetcherB.CallFetch None
  ∈ FetcherB.calls
      (FetcherB.download_pdf_attachments Examples.libB Examples.may_2025
         ascii_lower (lit "me@example.org") (lit "secret")
         (lit "imap.example.org") (lit "out") (Some 0%Z) (lit "INBOX") false
         (Some []) false Examples.empty_fs).2.
Proof.
  apply (no_filter_fetches_without_criteria_B Examples.libB);
    [reflexivity | reflexivity | right; reflexivity | right; reflexivity].
Defined.

(** X10: when [get_monthly_folder] returns, it returns the base directory
    joined with the name of the month, and something has that path.  It
    has touched no file and removed no directory, has printed nothing, and
    has made a directory only when nothing had the path: called again, it
    returns the same and changes nothing. *)
Theorem get_monthly_folder_ensures_folder :
  forall (email_date : datetime) (base_output_dir : pystr)
         (w after : FetcherB.state) (monthly_folder : pystr),
    let folder :=
      Os.join base_output_dir (FetcherB.folder_name_of email_date) in
    FetcherB.get_monthly_folder email_date base_output_dir w
    = (Ok monthly_folder, after) ->
    monthly_folder = folder
    /\ Os.exists_ (FetcherB.fs after) folder = true
    /\ Os.files (FetcherB.fs after) = Os.files (FetcherB.fs w)
    /\ Os.dirs (FetcherB.fs w) ⊆ Os.dirs (FetcherB.fs after)
    /\ FetcherB.out after = FetcherB.out w
    /\ FetcherB.downloaded_files after = FetcherB.downloaded_files w
    /\ (Os.exists_ (FetcherB.fs w) folder = true -> after = w)
    /\ FetcherB.get_monthly_folder email_date base_output_dir after
       = (Ok folder, after).
Proof.
  intros email_date base_output_dir w after monthly_folder folder.
  rewrite get_monthly_folder_run. fold folder.
  destruct (Os.exists_ (FetcherB.fs w) folder) eqn:Hex; intros [= <- <-].
  - repeat split; try done.
    rewrite get_monthly_folder_run. fold folder. by rewrite Hex.
  - assert (Hnow : Os.exists_ (Os.makedirs (FetcherB.fs w) folder) folder
                   = true).
    { unfold Os.exists_. apply bool_decide_eq_true.
      unfold Os.existing, Os.makedirs. cbn [Os.dirs Os.files]. set_solver. }
    cbn [FetcherB.fs FetcherB.out FetcherB.downloaded_files].
    repeat split; try done.
    + unfold Os.makedirs. cbn [Os.dirs]. set_solver.
    + rewrite get_monthly_folder_run. fold folder. cbn [FetcherB.fs].
      by rewrite Hnow.
Qed.

Lemma get_monthly_folder_ensures_folder_witness :
  Os.exists_
    (FetcherB.fs
       (FetcherB.get_monthly_folder Examples.may_2025 (lit "out")
          (Examples.startB
             {| Os.dirs := {[ lit "out" ]}; Os.files := ∅ |})).2)
    (lit "out/2025-05")
  = true.
Proof.
  refine (proj1 (proj2
            (get_monthly_folder_ensures_folder Examples.may_2025 (lit "out")
               (Examples.startB
                  {| Os.dirs := {[ lit "out" ]}; Os.files := ∅ |})
               _ (lit "out/2025-05") _))).
  vm_compute. reflexivity.
Defined.

(** ** Properties kept along a run (Fetcher A) *)

Section InvariantA.

Import Os FetcherA.

Context (srv : imap_server) (clk : clock).
Context (output_dir : pystr) (I : state -> Prop).

(** [I] looks at the files and at the paths gathered only; the directory
    made at the start keeps it; and it is kept when a file is opened, and
    when it is written and its path gathered, at the output directory
    joined with a name made of a cleaned subject, a time stamp and a
    cleaned, non-empty file name. *)
Hypothesis I_frame : forall w w' : state,
  fs w' = fs w -> downloaded_files w' = downloaded_files w -> I w -> I w'.
Hypothesis I_makedirs : forall (w : state) (p : pystr),
  I w ->
  I {| fs := makedirs (fs w) p; out := out w; calls := calls w;
       downloaded_files := downloaded_files w |}.
Hypothesis I_opened : forall (subject filename : pystr) (t : datetime)
    (w : state),
  Forall (fun c => reserved c = false) subject -> filename <> [] ->
  I w ->
  I {| fs := write (fs w)
               (join output_dir
                  (unique_filename_of subject (strftime_stamp t)
                     (re_sub_class reserved underscore filename))) [];
       out := out w; calls := calls w;
       downloaded_files := downloaded_files w |}.
Hypothesis I_saved : forall (subject filename : pystr) (t : datetime)
    (data : bytes) (w : state),
  Forall (fun c => reserved c = false) subject -> filename <> [] ->
  I w ->
  I {| fs := write (fs w)
               (join output_dir
                  (unique_filename_of subject (strftime_stamp t)
                     (re_sub_class reserved underscore filename))) data;
       out := out w; calls := calls w;
       downloaded_files :=
         downloaded_files w
         ++ [join output_dir
               (unique_filename_of subject (strftime_stamp t)
                  (re_sub_class reserved underscore filename))] |}.

Lemma kept_print_A (l : printed) : preserved I (print l).
Proof. apply preserved_modify. intros w. by apply I_frame. Qed.

Lemma kept_called_A (c : call) : preserved I (called c).
Proof. apply preserved_modify. intros w. by apply I_frame. Qed.

Lemma kept_or_raise_A (r : option pystr) : preserved I (or_raise r).
Proof. destruct r; [apply preserved_raise | apply preserved_ret]. Qed.

Lemma kept_date_limited_A (search_criteria : pystr) (days_limit : option Z) :
  preserved I (date_limited clk search_criteria days_limit).
Proof.
  unfold date_limited. destruct (truthy_int days_limit); [|apply preserved_ret].
  destruct (sub_days _ _); [apply preserved_ret|apply preserved_raise].
Qed.

Lemma kept_process_part_A (subject : pystr) (i j : nat) (p : part) :
  Forall (fun c => reserved c = false) subject ->
  preserved I (process_part clk output_dir subject i j p).
Proof.
  intros Hsubject w r w'.
  destruct (is_pdf_attachment p) eqn:Hpdf;
    [|rewrite process_part_skip by auto; by intros [= <- <-]].
  destruct (part_filename p) as [[|c filename]|] eqn:Hfn;
    [rewrite process_part_skip by auto; by intros [= <- <-]| |
     rewrite process_part_skip by auto; by intros [= <- <-]].
  unfold process_part. rewrite Hpdf, Hfn. cbn [truthy].
  unfold clean_filename, FetcherA_clean.clean_filename. cbn [truthy lift].
  unfold mbind, M_bind, bind, ret, get, open_wb.
  case_bool_decide as Hdir; cbn [lift raise].
  { unfold raise. by intros [= <- <-]. }
  unfold ret, set_fs, modify. cbn [fs out calls downloaded_files].
  destruct (part_payload p) as [data|] eqn:Hpay.
  - unfold print, append_downloaded, modify.
    cbn [fs out calls downloaded_files].
    intros [= <- <-] Hw.
    eapply I_frame;
      [| |exact (I_saved subject (c :: filename) (now_save clk i j) data w
                   Hsubject ltac:(done) Hw)];
      cbn [fs downloaded_files]; [|done].
    unfold write. cbn [dirs files]. by rewrite insert_insert_eq.
  - unfold raise. intros [= <- <-] Hw.
    exact (I_opened subject (c :: filename) (now_save clk i j) w
             Hsubject ltac:(done) Hw).
Qed.

(** The subject used in the names holds no reserved character, and
    working it out changes nothing. *)
Lemma subject_of_clean (msg : message) (w : state) :
  exists r : result pystr,
    subject_of msg w = (r, w)
    /\ forall s, r = Ok s -> Forall (fun c => reserved c = false) s.
Proof.
  unfold subject_of. destruct (msg_subject msg) as [[s|e]|]; cbn [lift].
  - rewrite run_bind_ret.
    unfold clean_filename, FetcherA_clean.clean_filename.
    destruct (truthy s); cbn [lift]; eexists; (split; [reflexivity|]);
      intros s' [= <-]; [by apply re_sub_class_clean|apply default_name_clean].
  - rewrite run_bind_raise. eexists. split; [reflexivity|]. done.
  - eexists. split; [reflexivity|]. intros s' [= <-].
    by vm_compute; repeat constructor.
Qed.

Lemma kept_process_message_A (total i : nat) (message_id : bytes) :
  preserved I (process_message srv clk output_dir total i message_id).
Proof.
  unfold process_message.
  apply preserved_bind; [apply kept_print_A|intros _].
  apply preserved_bind; [apply kept_called_A|intros _].
  destruct (fetch srv message_id) as [[status data]|e] eqn:Hfetch;
    [apply preserved_bind_ok|apply preserved_bind_raise].
  destruct (negb (str_eqb status (lit "OK"))); [apply kept_print_A|].
  destruct data as [msg|e];
    [apply preserved_bind_ok|apply preserved_bind_raise].
  intros w r w'.
  destruct (subject_of_clean msg w) as ([subject|e] & Hsub & Hclean).
  - rewrite (run_bind_eq _ _ _ _ _ Hsub).
    apply preserved_when, preserved_for_enumerate. intros j p Hp.
    apply kept_process_part_A. by apply Hclean.
  - unfold mbind, M_bind, bind. rewrite Hsub. by intros [= <- <-].
Qed.

Lemma kept_message_loop_A (message_ids : list bytes) :
  preserved I (message_loop srv clk output_dir message_ids).
Proof.
  apply preserved_for_enumerate. intros i message_id _.
  apply preserved_try_except; [apply kept_process_message_A|].
  intros e. apply kept_print_A.
Qed.

(** What holds before a run and is kept in this way holds after it. *)
Lemma download_kept_A (email_address password imap_server : pystr)
    (imap_port : Z) (search_criteria : pystr) (days_limit : option Z)
    (fs0 : filesystem) :
  I {| fs := fs0; out := []; calls := []; downloaded_files := [] |} ->
  I (download_pdf_attachments srv clk email_address password imap_server
       imap_port search_criteria output_dir days_limit fs0).2.
Proof.
  intros Hstart. unfold download_pdf_attachments.
  rewrite run_bind_get. cbn [fs]. rewrite run_bind_when.
  destruct (negb (exists_ fs0 output_dir));
    [rewrite run_bind_assoc; unfold set_fs at 1; rewrite run_bind_modify|];
    cbv beta;
    (apply preserved_run;
     [|first [exact Hstart|exact (I_makedirs _ output_dir Hstart)]]).
  1: apply preserved_bind; [apply kept_print_A|intros _].
  all: apply preserved_bind.
  all: try (apply preserved_try_except;
    [ repeat first [ apply kept_called_A | apply kept_or_raise_A
                   | apply preserved_ret | apply preserved_bind; [|intros ?] ]
    | intros e; apply preserved_bind;
        [apply kept_print_A|intros _; apply preserved_ret] ]).
  all: intros [e|]; [apply preserved_ret|].
  all: apply preserved_bind; [apply kept_print_A|intros _].
  all: apply preserved_bind; [apply kept_called_A|intros _].
  all: apply preserved_bind; [apply kept_or_raise_A|intros _].
  all: apply preserved_bind; [apply kept_date_limited_A|intros crit].
  all: apply preserved_bind; [apply kept_called_A|intros _].
  all: apply preserved_bind; [apply preserved_lift|intros [status ids]].
  all: destruct (negb (str_eqb status (lit "OK")));
    repeat first [ apply kept_called_A | apply kept_print_A
                 | apply kept_or_raise_A
                 | apply kept_message_loop_A | apply preserved_get
                 | apply preserved_ret | apply preserved_bind; [|intros ?] ].
Qed.

End InvariantA.

(** ** Where the first script writes *)

Section WithinA.

Import Os FetcherA Within.

Lemma strftime_stamp_plain (t : datetime) : sep ∉ strftime_stamp t.
Proof.
  unfold strftime_stamp.
  repeat (first [ intros [Hin|Hin]%elem_of_app; revert Hin | intros Hin ];
          try (by apply format_0d_plain);
          try (by apply list_elem_of_singleton in Hin)).
Qed.

(** The path a part is saved at is directly inside the output
    directory. *)
Lemma saved_path_direct_child (output_dir subject filename : pystr)
    (t : datetime) :
  Forall (fun c => reserved c = false) subject ->
  direct_child output_dir
    (join output_dir
       (unique_filename_of subject (strftime_stamp t)
          (re_sub_class reserved underscore filename))).
Proof.
  intros Hsubject.
  assert (Hsep : sep ∉ unique_filename_of subject (strftime_stamp t)
                         (re_sub_class reserved underscore filename)).
  { unfold unique_filename_of.
    intros [Hin|[Hin|[Hin|[Hin|Hin]%elem_of_app]%elem_of_app]%elem_of_app]
           %elem_of_app.
    - by apply (clean_no_sep _ Hsubject).
    - by apply list_elem_of_singleton in Hin.
    - by apply (strftime_stamp_plain t).
    - by apply list_elem_of_singleton in Hin.
    - apply (clean_no_sep (re_sub_class reserved underscore filename));
        [|done]. by apply re_sub_class_clean. }
  eexists. split; [|split; [exact Hsep|]].
  - unfold unique_filename_of. intros [_ H]%app_eq_nil. done.
  - by apply join_relative, startswith_no_sep.
Qed.

Context (srv : imap_server) (clk : clock).
Context (output_dir : pystr) (fs0 : filesystem).

Local Abbreviation I := (within_output_dir output_dir fs0).

Lemma within_written (subject filename : pystr) (t : datetime)
    (data : bytes) (w : state) (added : list pystr) :
  Forall (fun c => reserved c = false) subject ->
  added = []
  \/ added = [join output_dir
                (unique_filename_of subject (strftime_stamp t)
                   (re_sub_class reserved underscore filename))] ->
  I w ->
  I {| fs := write (fs w)
               (join output_dir
                  (unique_filename_of subject (strftime_stamp t)
                     (re_sub_class reserved underscore filename))) data;
       out := out w; calls := calls w;
       downloaded_files := downloaded_files w ++ added |}.
Proof.
  intros Hsubject Hadded (Hdirs & Hdom & Hdiff & Hdl).
  pose proof (saved_path_direct_child output_dir subject filename t Hsubject)
    as Hchild.
  set (path := join output_dir _) in *.
  unfold within_output_dir. cbn [fs downloaded_files write dirs files].
  split; [done|]. split; [|split].
  - rewrite dom_insert. set_solver.
  - intros p Hp. destruct (decide (p = path)) as [->|Hne]; [done|].
    rewrite lookup_insert_ne in Hp by done. by apply Hdiff.
  - intros p [Hp|Hp]%elem_of_app.
    + destruct (Hdl p Hp) as [Hsome Hc]. split; [|done].
      destruct (decide (p = path)) as [->|Hne].
      * rewrite lookup_insert_eq. by eexists.
      * by rewrite lookup_insert_ne.
    + destruct Hadded as [-> | ->]; [by apply elem_of_nil in Hp|].
      apply list_elem_of_singleton in Hp as ->. split; [|done].
      rewrite lookup_insert_eq. by eexists.
Qed.

(** The state a run ends in. *)
Lemma download_within_A (email_address password imap_server : pystr)
    (imap_port : Z) (search_criteria : pystr) (days_limit : option Z) :
  I (download_pdf_attachments srv clk email_address password imap_server
       imap_port search_criteria output_dir days_limit fs0).2.
Proof.
  apply (download_kept_A srv clk output_dir I).
  - unfold within_output_dir. by intros w w' -> ->.
  - unfold within_output_dir. cbn [fs downloaded_files makedirs dirs files].
    intros w p (Hd & Hrest). split; [set_solver|done].
  - intros subject filename t w Hsubject _ Hw.
    pose proof (within_written subject filename t [] w [] Hsubject
                  ltac:(by left) Hw) as Hw'.
    by rewrite app_nil_r in Hw'.
  - intros subject filename t data w Hsubject _ Hw.
    apply within_written; [done|by right|done].
  - unfold within_output_dir. cbn [fs downloaded_files].
    split; [done|]. split; [done|]. split; [done|].
    intros path Hin. by apply elem_of_nil in Hin.
Qed.

End WithinA.

(** X11: the first script writes directly inside the output directory and
    nowhere else.  After a run no directory and no file that existed is
    gone, and a file that is new or has changed is at the output
    directory followed by a single name without a separator; neither the
    subject of a message nor the name of a part can lead elsewhere. *)
Theorem writes_only_in_output_dir_A :
  forall (srv : FetcherA.imap_server) (clk : FetcherA.clock)
         (email_address password imap_server : pystr) (imap_port : Z)
         (search_criteria output_dir : pystr) (days_limit : option Z)
         (fs0 : Os.filesystem),
    let run :=
      FetcherA.download_pdf_attachments srv clk email_address password
        imap_server imap_port search_criteria output_dir days_limit fs0 in
    Os.dirs fs0 ⊆ Os.dirs (FetcherA.fs run.2)
    /\ dom (Os.files fs0) ⊆ dom (Os.files (FetcherA.fs run.2))
    /\ forall path : pystr,
         Os.files (FetcherA.fs run.2) !! path <> Os.files fs0 !! path ->
         exists name : pystr,
           name <> [] /\ (Os.sep ∉ name)
           /\ path = Os.join_prefix output_dir ++ name.
Proof.
  intros srv clk email_address password imap_server imap_port
         search_criteria output_dir days_limit fs0 run.
  destruct (download_within_A srv clk output_dir fs0 email_address password
              imap_server imap_port search_criteria days_limit)
    as (Hdirs & Hdom & Hdiff & _).
  split; [exact Hdirs|]. split; [exact Hdom|]. exact Hdiff.
Qed.

(** X12: every path the first script returns names a file that is on the
    disk when the run ends, directly inside the output directory. *)
Theorem result_paths_are_files_A :
  forall (srv : FetcherA.imap_server) (clk : FetcherA.clock)
         (email_address password imap_server : pystr) (imap_port : Z)
         (search_criteria output_dir : pystr) (days_limit : option Z)
         (fs0 : Os.filesystem) (l : list pystr) (path : pystr),
    let run :=
      FetcherA.download_pdf_attachments srv clk email_address password
        imap_server imap_port search_criteria output_dir days_limit fs0 in
    run.1 = Ok l -> path ∈ l ->
    is_Some (Os.files (FetcherA.fs run.2) !! path)
    /\ exists name : pystr,
         name <> [] /\ (Os.sep ∉ name)
         /\ path = Os.join_prefix output_dir ++ name.
Proof.
  intros srv clk email_address password imap_server imap_port
         search_criteria output_dir days_limit fs0 l path run Hl Hin.
  apply download_result_A in Hl as [->| ->];
    [by apply elem_of_nil in Hin|].
  destruct (download_within_A srv clk output_dir fs0 email_address password
              imap_server imap_port search_criteria days_limit)
    as (_ & _ & _ & Hdl).
  exact (Hdl path Hin).
Qed.

Lemma result_paths_are_files_A_witness :
  is_Some (Os.files (FetcherA.fs Examples.runA.2)
             !! lit "out/first_20250517_093000_a.pdf")
  /\ exists name : pystr,
       name <> [] /\ (Os.sep ∉ name)
       /\ lit "out/first_20250517_093000_a.pdf"
          = Os.join_prefix (lit "out") ++ name.
Proof.
  apply (result_paths_are_files_A Examples.srvA Examples.clkA
           (lit "me@example.org") (lit "secret") (lit "imap.example.org")
           993%Z (lit "ALL") (lit "out") None Examples.empty_fs
           [lit "out/first_20250517_093000_a.pdf";
            lit "out/third_20250517_093000_c.pdf"]).
  - vm_compute. reflexivity.
  - apply elem_of_cons. left. reflexivity.
Defined.

(** ** Saving one part (Fetcher A) *)

Section SaveA.

Import Os FetcherA.

Context (clk : clock) (output_dir subject : pystr).

(** The path of part [j] of message [i], for a file name. *)
Local Abbreviation path_of i j filename :=
  (join output_dir
     (unique_filename_of subject (strftime_stamp (now_save clk i j))
        (re_sub_class reserved underscore filename))).

(** A part that is a PDF attachment with a name and a payload is written
    at its path, whether or not a file is there already. *)
Lemma process_part_saves (i j : nat) (p : part) (filename : pystr)
    (data : bytes) (w : state) :
  is_pdf_attachment p = true ->
  part_filename p = Some filename -> filename <> [] ->
  part_payload p = Some data ->
  path_of i j filename ∉ dirs (fs w) ->
  process_part clk output_dir subject i j p w
  = (Ok tt,
     {| fs := write (fs w) (path_of i j filename) data;
        out := out w ++ [Downloaded (path_of i j filename)];
        calls := calls w;
        downloaded_files := downloaded_files w ++ [path_of i j filename] |}).
Proof.
  intros Hpdf Hfn Hne Hpay Hdir.
  unfold process_part. rewrite Hpdf, Hfn, (truthy_true _ Hne).
  destruct (clean_filename_str filename Hne) as [-> _]. cbn [lift].
  rewrite run_bind_ret, run_bind_get.
  unfold open_wb. rewrite bool_decide_eq_false_2 by done. cbn [lift].
  rewrite run_bind_ret, Hpay. unfold set_fs.
  rewrite run_bind_modify. cbv beta. rewrite run_bind_modify.
  rewrite run_bind_print_A. unfold append_downloaded, modify.
  cbn [fs out calls downloaded_files]. unfold write. cbn [dirs files].
  by rewrite insert_insert_eq.
Qed.

End SaveA.

(** X13: the time stamp in the names of the first script does not keep
    files apart.  Two PDF parts of a message whose cleaned file names are
    the same, saved within the same second, go to the same path: the
    second overwrites the first, the file holds the payload of the
    second, and the path is gathered twice. *)
Theorem same_name_same_second_overwrites_A :
  forall (clk : FetcherA.clock) (output_dir subject : pystr) (i j : nat)
         (p1 p2 : FetcherA.part) (name1 name2 : pystr) (data1 data2 : bytes)
         (w : FetcherA.state),
    let path :=
      Os.join output_dir
        (FetcherA.unique_filename_of subject
           (strftime_stamp (FetcherA.now_save clk i j))
           (re_sub_class reserved underscore name1)) in
    FetcherA.is_pdf_attachment p1 = true ->
    FetcherA.is_pdf_attachment p2 = true ->
    FetcherA.part_filename p1 = Some name1 -> name1 <> [] ->
    FetcherA.part_filename p2 = Some name2 -> name2 <> [] ->
    re_sub_class reserved underscore name1
    = re_sub_class reserved underscore name2 ->
    FetcherA.part_payload p1 = Some data1 ->
    FetcherA.part_payload p2 = Some data2 ->
    strftime_stamp (FetcherA.now_save clk i j)
    = strftime_stamp (FetcherA.now_save clk i (S j)) ->
    path ∉ Os.dirs (FetcherA.fs w) ->
    for_enumerate (FetcherA.process_part clk output_dir subject i) j [p1; p2] w
    = (Ok tt,
       {| FetcherA.fs := Os.write (FetcherA.fs w) path data2;
          FetcherA.out :=
            FetcherA.out w
            ++ [FetcherA.Downloaded path; FetcherA.Downloaded path];
          FetcherA.calls := FetcherA.calls w;
          FetcherA.downloaded_files :=
            FetcherA.downloaded_files w ++ [path; path] |}).
Proof.
  intros clk output_dir subject i j p1 p2 name1 name2 data1 data2 w path
         Hpdf1 Hpdf2 Hfn1 Hne1 Hfn2 Hne2 Hclean Hpay1 Hpay2 Hstamp Hdir.
  cbn [for_enumerate].
  rewrite (run_bind_eq _ _ _ _ _
             (process_part_saves clk output_dir subject i j p1 name1 data1 w
                Hpdf1 Hfn1 Hne1 Hpay1 Hdir)).
  cbv beta. fold path.
  match goal with
  | |- (_ ≫= _) ?w1 = _ =>
      assert (Hdir1 : Os.join output_dir
                (FetcherA.unique_filename_of subject
                   (strftime_stamp (FetcherA.now_save clk i (S j)))
                   (re_sub_class reserved underscore name2))
              ∉ Os.dirs (FetcherA.fs w1))
        by (rewrite <- Hstamp, <- Hclean; exact Hdir);
      rewrite (run_bind_eq _ _ _ _ _
                 (process_part_saves clk output_dir subject i (S j) p2 name2
                    data2 w1 Hpdf2 Hfn2 Hne2 Hpay2 Hdir1))
  end.
  rewrite <- Hstamp, <- Hclean. fold path. unfold ret.
  cbn [FetcherA.fs FetcherA.out FetcherA.calls FetcherA.downloaded_files].
  unfold Os.write. cbn [Os.dirs Os.files].
  by rewrite insert_insert_eq, <- !app_assoc.
Qed.

Lemma same_name_same_second_overwrites_A_witness :
  (for_enumerate
     (FetcherA.process_part Examples.clkA (lit "out") (lit "subject") 0) 0
     [Examples.pdf_part "a.pdf"; Examples.pdf_part "a.pdf"]
     (Examples.startA Examples.empty_fs)).1
  = Ok tt.
Proof.
  rewrite (same_name_same_second_overwrites_A Examples.clkA (lit "out")
             (lit "subject") 0 0 (Examples.pdf_part "a.pdf")
             (Examples.pdf_part "a.pdf") (lit "a.pdf") (lit "a.pdf")
             (Examples.payload_of "%PDF") (Examples.payload_of "%PDF")
             (Examples.startA Examples.empty_fs));
    [reflexivity | reflexivity | reflexivity | reflexivity | discriminate
    | reflexivity | discriminate | reflexivity | reflexivity | reflexivity
    | reflexivity | ].
  vm_compute. set_solver.
Defined.

(** ** More on the cleaned names *)

Section Cleaned.

Local Open Scope N_scope.

Lemma startswith_clean (s p : pystr) :
  Forall (fun c => c <> 95 /\ reserved c = false) p ->
  startswith (re_sub_class reserved underscore s) p = startswith s p.
Proof.
  intros Hp. revert s. induction Hp as [|a p [Ha Hres] _ IH]; intros s.
  - by destruct s; simpl; [|destruct (reserved _)].
  - destruct s as [|b s]; [done|]. cbn [re_sub_class].
    destruct (reserved b) eqn:Hb; cbn [underscore lit list_ascii_of_string
      map app startswith].
    + change (N_of_ascii "_") with 95.
      rewrite (proj2 (N.eqb_neq a 95) Ha).
      assert (a <> b) as Hab by (intros ->; congruence).
      by rewrite (proj2 (N.eqb_neq a b) Hab).
    + by rewrite IH.
Qed.

Lemma re_sub_class_rev (s : pystr) :
  rev (re_sub_class reserved underscore s)
  = re_sub_class reserved underscore (rev s).
Proof.
  unfold underscore. change (lit "_") with [95].
  rewrite !re_sub_class_map. unfold fmap, list_fmap.
  change ((fix go (l : list N) : list N :=
             match l with
             | [] => []
             | x :: l0 => (if reserved x then 95 else x) :: go l0
             end)) with (map (fun c => if reserved c then 95 else c)).
  by rewrite map_rev.
Qed.

Lemma utf8_decode_ascii (bs : list N) :
  Forall (fun b => b < 128) bs -> utf8_decode_N bs = Some bs.
Proof.
  induction 1 as [|b bs Hb _ IH]; [done|].
  cbn [utf8_decode_N]. rewrite (proj2 (N.ltb_lt b 128) Hb), IH. done.
Qed.

End Cleaned.

(** X15: cleaning a name keeps its length and its extension, in both
    scripts: the cleaned name of a non-empty name has as many characters,
    and it ends with a given suffix that holds no reserved character and
    no underscore, such as [.pdf], exactly when the name does. *)
Theorem clean_filename_keeps_length_and_extension :
  forall s : pystr,
    s <> [] ->
    FetcherA.clean_filename (PyStr s) = Ok (FetcherB.clean_filename (Some s))
    /\ length (FetcherB.clean_filename (Some s)) = length s
    /\ (forall suffix : pystr,
          Forall (fun c => c <> 95%N /\ reserved c = false) suffix ->
          endswith (FetcherB.clean_filename (Some s)) suffix
          = endswith s suffix)
    /\ endswith (FetcherB.clean_filename (Some s)) (lit ".pdf")
       = endswith s (lit ".pdf").
Proof.
  intros s Hs. destruct (clean_filename_str s Hs) as [HA HB].
  rewrite HA, HB. split; [done|].
  assert (Hsuffix : forall suffix : pystr,
            Forall (fun c => c <> 95%N /\ reserved c = false) suffix ->
            endswith (re_sub_class reserved underscore s) suffix
            = endswith s suffix).
  { intros suffix Hsuffix. unfold endswith.
    rewrite re_sub_class_rev. apply startswith_clean.
    by apply Forall_rev. }
  split; [|split; [exact Hsuffix|]].
  - unfold underscore. change (lit "_") with [95%N].
    by rewrite re_sub_class_map, length_fmap.
  - apply Hsuffix. by vm_compute; repeat constructor.
Qed.

Lemma clean_filename_keeps_length_and_extension_witness :
  length (FetcherB.clean_filename (Some (lit "a/b:c.pdf"))) = 9%nat
  /\ endswith (FetcherB.clean_filename (Some (lit "a/b:c.pdf"))) (lit ".pdf")
     = true.
Proof.
  destruct (clean_filename_keeps_length_and_extension (lit "a/b:c.pdf"))
    as (_ & Hlen & _ & Hext); [discriminate|].
  split; [exact Hlen|]. rewrite Hext. reflexivity.
Defined.

(** X16: [clean_filename] of the first script on [bytes].  A name given
    as ASCII bytes is cleaned as the string of the same characters; a
    name whose first byte cannot start a character in UTF-8 raises, it is
    not replaced. *)
Theorem clean_filename_bytes_A :
  (forall b : bytes,
     Forall (fun x => (Byte.to_N x < 128)%N) b ->
     FetcherA.clean_filename (PyBytes b)
     = FetcherA.clean_filename (PyStr (map Byte.to_N b)))
  /\ (forall (x : Byte.byte) (b : bytes),
        (128 <= Byte.to_N x < 194)%N ->
        FetcherA.clean_filename (PyBytes (x :: b))
        = Raise (lit "UnicodeDecodeError")).
Proof.
  split.
  - intros b Hb.
    unfold FetcherA.clean_filename, FetcherA_clean.clean_filename, decode.
    rewrite utf8_decode_ascii by by apply Forall_map.
    by destruct b.
  - intros x b Hx.
    unfold FetcherA.clean_filename, FetcherA_clean.clean_filename, decode.
    cbn [truthy map utf8_decode_N].
    rewrite (proj2 (N.ltb_ge (Byte.to_N x) 128)) by lia.
    destruct (map Byte.to_N b) as [|b1 r1]; [done|].
    rewrite (proj2 (N.leb_gt 194 (Byte.to_N x))) by lia. cbn [andb].
    destruct r1 as [|b2 r2]; [done|].
    rewrite (proj2 (N.leb_gt 224 (Byte.to_N x))) by lia. cbn [andb].
    destruct r2 as [|b3 r3]; [done|].
    rewrite (proj2 (N.leb_gt 240 (Byte.to_N x))) by lia. done.
Qed.

(** ** One message (Fetcher B) *)

Section MessageB.

Import Os FetcherB.

Context (lower : pystr -> pystr).

(** Attachments that are not PDFs by name leave everything as it is. *)
Lemma for_each_no_pdf (folder : pystr) (atts : list attachment) (w : state) :
  Forall (fun a => endswith (lower (att_filename a)) (lit ".pdf") = false)
         atts ->
  for_each (save_attachment lower folder) atts w = (Ok tt, w).
Proof.
  intros Hall. unfold for_each. generalize 0%nat.
  induction Hall as [|a atts Ha _ IH]; intros k; [done|].
  cbn [for_enumerate].
  rewrite (run_bind_eq _ _ _ _ _ (save_attachment_other lower folder a w Ha)).
  apply IH.
Qed.

(** A line that has been printed stays printed. *)
Section Shown.

Context (l : printed).

Local Abbreviation S := (fun w : state => l ∈ out w).

Lemma shown_print (l' : printed) : preserved S (print l').
Proof.
  apply preserved_modify. intros w Hw. simpl. apply elem_of_app. by left.
Qed.

Lemma shown_or_raise (r : option pystr) : preserved S (or_raise r).
Proof. destruct r; [apply preserved_raise | apply preserved_ret]. Qed.

Lemma shown_called (c : call) : preserved S (called c).
Proof. by apply preserved_modify. Qed.

Lemma shown_get_monthly_folder (d : datetime) (base : pystr) :
  preserved S (get_monthly_folder d base).
Proof.
  intros w r w'. rewrite get_monthly_folder_run.
  by destruct (exists_ _ _); intros [= <- <-].
Qed.

Lemma shown_save_attachment (folder : pystr) (a : attachment) :
  preserved S (save_attachment lower folder a).
Proof.
  intros w r w'.
  destruct (endswith (lower (att_filename a)) (lit ".pdf")) eqn:Hpdf.
  - destruct (save_attachment_pdf lower folder a w Hpdf) as (p & _ & ->).
    intros [= <- <-] Hw. cbn [saved_state out].
    apply elem_of_app. left. apply elem_of_app. by left.
  - rewrite save_attachment_other by done. by intros [= <- <-].
Qed.

Lemma shown_process_message (output_dir : pystr) (debug : bool)
    (total i : nat) (it : item) :
  preserved S (process_message lower output_dir debug total i it).
Proof.
  destruct it as [[m|e]|e]; simpl.
  - apply preserved_bind_ok.
    apply preserved_bind; [apply shown_print|intros _].
    apply preserved_bind; [apply shown_get_monthly_folder|intros folder].
    apply preserved_bind; [apply preserved_when, shown_print|intros _].
    apply preserved_when, preserved_for_each. intros a _.
    apply shown_save_attachment.
  - apply preserved_bind_raise.
  - apply preserved_raise.
Qed.

End Shown.

End MessageB.

(** X17: the second script makes the monthly folder of a message before
    it looks at the attachments.  When a message none of whose
    attachments has a name that ends in [.pdf] (or without any) has been
    processed, its folder has been made: something has the path of the
    folder, while no file has been written and no path gathered (shown
    without the debug lines). *)
Theorem message_without_pdf_makes_folder_B :
  forall (lower : pystr -> pystr) (output_dir : pystr) (total i : nat)
         (m : FetcherB.message) (w after : FetcherB.state),
    let folder :=
      Os.join output_dir (FetcherB.folder_name_of (FetcherB.msg_date m)) in
    Forall (fun a => endswith (lower (FetcherB.att_filename a)) (lit ".pdf")
                     = false)
           (FetcherB.msg_attachments m) ->
    FetcherB.process_message lower output_dir false total i
      (FetcherB.Yield (Ok m)) w
    = (Ok tt, after) ->
    Os.exists_ (FetcherB.fs after) folder = true
    /\ (Os.exists_ (FetcherB.fs w) folder = false ->
        folder ∈ Os.dirs (FetcherB.fs after))
    /\ Os.files (FetcherB.fs after) = Os.files (FetcherB.fs w)
    /\ FetcherB.downloaded_files after = FetcherB.downloaded_files w
    /\ FetcherB.out after
       = FetcherB.out w
         ++ [FetcherB.Processing i total
               (FetcherB.clean_filename (Some (FetcherB.msg_subject m)))].
Proof.
  intros lower output_dir total i m w after folder Hatts.
  cbn [FetcherB.process_message lift].
  rewrite run_bind_ret, run_bind_print_B.
  rewrite (run_bind_eq _ _ _ _ _ (get_monthly_folder_run _ _ _)).
  fold folder. cbn [when]. rewrite run_bind_ret.
  cbn [FetcherB.fs FetcherB.out FetcherB.calls FetcherB.downloaded_files].
  assert (Hrun : forall w',
            when (truthy (FetcherB.msg_attachments m))
              (for_each (FetcherB.save_attachment lower folder)
                 (FetcherB.msg_attachments m)) w'
            = (Ok tt, w')).
  { intros w'. destruct (truthy _); [|done]. by apply for_each_no_pdf. }
  rewrite Hrun.
  destruct (Os.exists_ (FetcherB.fs w) folder) eqn:Hex; intros [= <-];
    cbn [FetcherB.fs FetcherB.out FetcherB.downloaded_files].
  - by rewrite Hex.
  - assert (Hin : folder ∈ Os.dirs (Os.makedirs (FetcherB.fs w) folder)).
    { unfold Os.makedirs. cbn [Os.dirs]. set_solver. }
    split; [|done].
    unfold Os.exists_. apply bool_decide_eq_true.
    unfold Os.existing. set_solver.
Qed.

Lemma message_without_pdf_makes_folder_B_witness :
  Os.exists_
    (FetcherB.fs
       (FetcherB.process_message ascii_lower (lit "out") false 1 1
          (FetcherB.Yield
             (Ok {| FetcherB.msg_subject := lit "hello";
                    FetcherB.msg_date := Examples.may_2025;
                    FetcherB.msg_attachments :=
                      [Examples.attachment_of "photo.png" "image/png"
                         "PNG"] |}))
          (Examples.startB Examples.empty_fs)).2)
    (lit "out/2025-05")
  = true.
Proof.
  refine (proj1
            (message_without_pdf_makes_folder_B ascii_lower (lit "out") 1 1
               {| FetcherB.msg_subject := lit "hello";
                  FetcherB.msg_date := Examples.may_2025;
                  FetcherB.msg_attachments :=
                    [Examples.attachment_of "photo.png" "image/png" "PNG"] |}
               (Examples.startB Examples.empty_fs) _ _ _)).
  - repeat constructor.
  - vm_compute. reflexivity.
Defined.

(** ** The count of the messages (Fetcher B) *)

Section CountB.

Import Os FetcherB.

Context (lib : mail_library) (now : datetime) (lower : pystr -> pystr).

Lemma count_items_yields (l : list item) (n : nat) (w : state) :
  Forall (fun it => exists m, it = Yield m) l ->
  count_items l n w = (Ok (n + length l)%nat, w).
Proof.
  intros Hl. revert n. induction Hl as [|it l [m ->] _ IH]; intros n.
  - cbn [count_items length]. by rewrite Nat.add_0_r.
  - cbn [count_items length]. rewrite IH. by rewrite Nat.add_succ_r.
Qed.

(** The lines about the number of messages, in a session that gets
    logged in and whose first request yields without an error. *)
Lemma session_found (email password server output_dir : pystr)
    (days_limit : option Z) (folder_name : pystr) (only_unread : bool)
    (search_term : option pystr) (debug : bool)
    (criteria : list keyword_query) (w : state) :
  let q := if truthy criteria then Some (AND criteria) else None in
  let run :=
    session lib now lower email password server output_dir days_limit
      folder_name only_unread search_term debug w in
  MailBox lib server 993%Z = None ->
  login lib email password folder_name = None ->
  (forall w, build_criteria now only_unread search_term days_limit w
             = (Ok criteria, w)) ->
  Forall (fun it => exists m, it = Yield m) (fetch lib 0 q) ->
  Found (length (fetch lib 0 q)) ∈ out run.2
  /\ forall (m : message) (rest : list item),
       fetch lib 1 q = Yield (Ok m) :: rest ->
       Processing 1 (length (fetch lib 0 q))
         (clean_filename (Some (msg_subject m))) ∈ out run.2.
Proof.
  intros q run Hc Hl Hb Hfirst. subst run.
  unfold session. cbv zeta. rewrite Hc, Hl.
  destruct debug; cbn [when];
    repeat first [ rewrite run_bind_print_B | rewrite run_bind_ret
                 | rewrite run_bind_called_B | rewrite run_bind_or_raise_B ];
    rewrite (run_bind_eq _ _ _ _ _ (Hb _));
    fold q;
    repeat first [ rewrite run_bind_print_B | rewrite run_bind_ret
                 | rewrite run_bind_called_B ];
    rewrite (run_bind_eq _ _ _ _ _ (count_items_yields _ 0 _ Hfirst));
    cbn [Nat.add];
    rewrite run_bind_called_B, run_bind_print_B;
    cbn [fs out calls downloaded_files].
  all: split.
  all: try (apply (preserved_run
                     (fun w => Found (length (fetch lib 0 q)) ∈ out w));
    [ repeat first
        [ apply preserved_when
        | apply shown_print
        | apply shown_called
        | apply shown_or_raise
        | apply preserved_ret
        | apply preserved_for_enumerate; intros ? ? _;
          apply shown_process_message
        | apply preserved_bind; [|intros ?] ]
    | cbn [out]; apply elem_of_app; right;
      by apply list_elem_of_singleton ]).
  all: intros m rest ->; cbn [for_enumerate process_message lift].
  all: rewrite !run_bind_assoc, run_bind_ret; cbv beta;
    rewrite !run_bind_assoc, run_bind_print_B.
  all: apply (preserved_run
                (fun w => Processing 1 (length (fetch lib 0 q))
                            (clean_filename (Some (msg_subject m)))
                          ∈ out w));
    [ repeat first
        [ apply preserved_when
        | apply shown_print
        | apply shown_called
        | apply shown_or_raise
        | apply shown_get_monthly_folder
        | apply preserved_ret
        | apply preserved_for_each; intros ? _; apply shown_save_attachment
        | apply preserved_for_enumerate; intros ? ? _;
          apply shown_process_message
        | apply preserved_bind; [|intros ?] ]
    | cbn [out]; apply elem_of_app; right;
      by apply list_elem_of_singleton ].
Qed.

End CountB.

(** X18: the second script asks for the messages twice, and the number
    it prints is that of the first answer.  In a run that gets logged in
    and whose first request yields its messages without an error, the
    line [Found n messages] has the length of the first answer, and the
    messages of the second answer are processed under that total: the
    first of them is announced as number 1 of [n], whatever the length
    of the second answer. *)
Theorem count_is_of_first_fetch_B :
  forall (lib : FetcherB.mail_library) (now : datetime)
         (lower : pystr -> pystr)
         (email password server output_dir : pystr)
         (days_limit : option Z) (folder_name : pystr)
         (only_unread : bool) (search_term : option pystr) (debug : bool)
         (fs0 : Os.filesystem) (criteria : list FetcherB.keyword_query),
    let q :=
      if truthy criteria then Some (FetcherB.AND criteria) else None in
    let run :=
      FetcherB.download_pdf_attachments lib now lower email password server
        output_dir days_limit folder_name only_unread search_term debug
        fs0 in
    FetcherB.MailBox lib server 993%Z = None ->
    FetcherB.login lib email password folder_name = None ->
    (forall w, FetcherB.build_criteria now only_unread search_term
                 days_limit w = (Ok criteria, w)) ->
    Forall (fun it => exists m, it = FetcherB.Yield m)
           (FetcherB.fetch lib 0 q) ->
    FetcherB.Found (length (FetcherB.fetch lib 0 q)) ∈ FetcherB.out run.2
    /\ forall (m : FetcherB.message) (rest : list FetcherB.item),
         FetcherB.fetch lib 1 q = FetcherB.Yield (Ok m) :: rest ->
         FetcherB.Processing 1 (length (FetcherB.fetch lib 0 q))
           (FetcherB.clean_filename (Some (FetcherB.msg_subject m)))
         ∈ FetcherB.out run.2.
Proof.
  intros lib now lower email password server output_dir days_limit
         folder_name only_unread search_term debug fs0 criteria q run
         Hc Hl Hb Hfirst. subst run.
  rewrite download_decomposed_B.
  pose proof (session_found lib now lower email password server output_dir
                days_limit folder_name only_unread search_term debug criteria
                (FetcherB.session_start output_dir fs0) Hc Hl Hb Hfirst)
    as Hs.
  cbv zeta in Hs. fold q in Hs.
  destruct (FetcherB.session _ _ _ _ _ _ _ _ _ _ _ _ _) as [[[]|e] w];
    cbn [fst snd FetcherB.finished FetcherB.out] in *;
    destruct Hs as [Hfound Hproc];
    (split; [|intros m rest Hm; specialize (Hproc m rest Hm)]);
    repeat (apply elem_of_app; left); assumption.
Qed.

Lemma count_is_of_first_fetch_B_witness :
  FetcherB.Found 3 ∈ FetcherB.out (Examples.runB Examples.libB).2.
Proof.
  apply (count_is_of_first_fetch_B Examples.libB Examples.may_2025
           ascii_lower (lit "me@example.org") (lit "secret")
           (lit "imap.example.org") (lit "out") None (lit "INBOX") false None
           false Examples.empty_fs []);
    [reflexivity | reflexivity | reflexivity | ].
  repeat constructor; eexists; reflexivity.
Defined.

(** X19: the first script looks for attachments in multipart messages
    only.  A message that is not multipart is fetched and announced, and
    nothing more: whatever its parts are, also when the message itself is
    a PDF, no file is written and no path is gathered. *)
Theorem non_multipart_message_ignored_A :
  forall (srv : FetcherA.imap_server) (clk : FetcherA.clock)
         (output_dir : pystr) (total i : nat) (message_id : bytes)
         (msg : FetcherA.message) (w : FetcherA.state),
    FetcherA.fetch srv message_id = Ok (lit "OK", Ok msg) ->
    FetcherA.is_multipart msg = false ->
    (forall e, FetcherA.msg_subject msg <> Some (Raise e)) ->
    FetcherA.iteration srv clk output_dir total i message_id w
    = (Ok tt,
       {| FetcherA.fs := FetcherA.fs w;
          FetcherA.out := FetcherA.out w ++ [FetcherA.Processing (i + 1) total];
          FetcherA.calls := FetcherA.calls w ++ [FetcherA.CallFetch message_id];
          FetcherA.downloaded_files := FetcherA.downloaded_files w |}).
Proof.
  intros srv clk output_dir total i message_id msg w Hfetch Hmulti Hsubject.
  unfold FetcherA.iteration, try_except, FetcherA.process_message.
  rewrite run_bind_print_A, run_bind_called_A, Hfetch. cbn [lift].
  rewrite run_bind_ret. cbv beta iota.
  change (str_eqb (lit "OK") (lit "OK")) with true. cbn [negb lift].
  rewrite run_bind_ret, Hmulti. cbv beta.
  match goal with
  | |- context [(FetcherA.subject_of msg ≫= _) ?w1] =>
      destruct (subject_of_clean msg w1) as ([subject|e] & Hsub & _)
  end.
  - rewrite (run_bind_eq _ _ _ _ _ Hsub). reflexivity.
  - exfalso. unfold FetcherA.subject_of in Hsub.
    destruct (FetcherA.msg_subject msg) as [[s|e']|] eqn:Hs.
    + cbn [lift] in Hsub. rewrite run_bind_ret in Hsub.
      unfold FetcherA.clean_filename, FetcherA_clean.clean_filename in Hsub.
      by destruct (truthy s).
    + by apply (Hsubject e').
    + discriminate.
Qed.

Lemma non_multipart_message_ignored_A_witness :
  (FetcherA.iteration
     {| FetcherA.IMAP4_SSL := fun _ _ => None;
        FetcherA.login := fun _ _ => None;
        FetcherA.select := fun _ => None;
        FetcherA.search := fun _ => Ok (lit "OK", [Examples.id1]);
        FetcherA.fetch := fun _ =>
          Ok (lit "OK",
              Ok {| FetcherA.msg_subject := Some (Ok (lit "report"));
                    FetcherA.is_multipart := false;
                    FetcherA.walk := [Examples.pdf_part "report.pdf"] |});
        FetcherA.logout := None |}
     Examples.clkA (lit "out") 1 0 Examples.id1
     (Examples.startA Examples.empty_fs)).1
  = Ok tt.
Proof.
  rewrite (non_multipart_message_ignored_A _ Examples.clkA (lit "out") 1 0
             Examples.id1
             {| FetcherA.msg_subject := Some (Ok (lit "report"));
                FetcherA.is_multipart := false;
                FetcherA.walk := [Examples.pdf_part "report.pdf"] |}
             (Examples.startA Examples.empty_fs));
    [reflexivity | reflexivity | reflexivity | discriminate].
Defined.

(** ** A limit that reaches before the calendar *)

Section Overflow.

Local Open Scope Z_scope.

Lemma sub_days_before_calendar (t : datetime) (n : Z) :
  toordinal t <= n -> sub_days t n = None.
Proof.
  intros Hn. unfold sub_days. cbv zeta.
  by rewrite (proj2 (Z.ltb_ge 0 (toordinal t - n))) by lia.
Qed.

End Overflow.

(** X20: a limit of more days than there are before the day of the run.
    The date of the bound does not exist and working it out raises.  The
    first script has logged in and selected the mailbox by then, and ends
    with the exception: no search is sent, and it does not log out.  The
    second script catches the exception like every other: it prints the
    error, asks for no messages, and returns the empty list. *)
Theorem limit_before_calendar_raises :
  (forall (srv : FetcherA.imap_server) (clk : FetcherA.clock)
          (email_address password imap_server : pystr) (imap_port : Z)
          (search_criteria output_dir : pystr) (n : Z) (fs0 : Os.filesystem),
     FetcherA.IMAP4_SSL srv imap_server imap_port = None ->
     FetcherA.login srv email_address password = None ->
     FetcherA.select srv (lit "INBOX") = None ->
     (0 < n)%Z -> (toordinal (FetcherA.now_run clk) <= n)%Z ->
     FetcherA.download_pdf_attachments srv clk email_address password
       imap_server imap_port search_criteria output_dir (Some n) fs0
     = (Raise (lit "OverflowError"),
        {| FetcherA.fs := FetcherA.fs (Stages.start output_dir fs0);
           FetcherA.out :=
             FetcherA.out (Stages.start output_dir fs0)
             ++ [FetcherA.Connected imap_server];
           FetcherA.calls :=
             [FetcherA.CallConnect imap_server imap_port;
              FetcherA.CallLogin email_address password;
              FetcherA.CallSelect (lit "INBOX")];
           FetcherA.downloaded_files := [] |}))
  /\ (forall (lib : FetcherB.mail_library) (now : datetime)
             (lower : pystr -> pystr)
             (email password server output_dir folder_name : pystr)
             (only_unread : bool) (search_term : option pystr)
             (fs0 : Os.filesystem) (n : Z),
        FetcherB.MailBox lib server 993%Z = None ->
        FetcherB.login lib email password folder_name = None ->
        (0 < n)%Z -> (toordinal now <= n)%Z ->
        FetcherB.download_pdf_attachments lib now lower email password server
          output_dir (Some n) folder_name only_unread search_term false fs0
        = (Ok [],
           {| FetcherB.fs := FetcherB.fs (FetcherB.session_start output_dir fs0);
              FetcherB.out :=
                FetcherB.out (FetcherB.session_start output_dir fs0)
                ++ [FetcherB.Error (lit "OverflowError");
                    FetcherB.EnsureCorrect; FetcherB.DownloadedCount 0];
              FetcherB.calls :=
                [FetcherB.CallMailBox server 993%Z;
                 FetcherB.CallLogin email password folder_name];
              FetcherB.downloaded_files := [] |})).
Proof.
  split.
  - intros srv clk email_address password imap_server imap_port
           search_criteria output_dir n fs0 Hc Hl Hs Hpos Hn.
    rewrite (download_after_login srv clk _ _ _ _ _ _ _ _ Hc Hl).
    unfold Stages.after_login, Stages.logged_in.
    rewrite run_bind_called_A, Hs, run_bind_or_raise_A.
    unfold FetcherA.date_limited, FetcherA.truthy_int.
    rewrite (proj2 (Z.eqb_neq n 0)) by lia.
    rewrite (sub_days_before_calendar _ _ Hn). reflexivity.
  - intros lib now lower email password server output_dir folder_name
           only_unread search_term fs0 n Hc Hl Hpos Hn.
    rewrite download_decomposed_B.
    assert (Hs : FetcherB.session lib now lower email password server
                   output_dir (Some n) folder_name only_unread search_term
                   false (FetcherB.session_start output_dir fs0)
                 = (Raise (lit "OverflowError"),
                    {| FetcherB.fs :=
                         FetcherB.fs (FetcherB.session_start output_dir fs0);
                       FetcherB.out :=
                         FetcherB.out (FetcherB.session_start output_dir fs0);
                       FetcherB.calls :=
                         [FetcherB.CallMailBox server 993%Z;
                          FetcherB.CallLogin email password folder_name];
                       FetcherB.downloaded_files := [] |})).
    { unfold FetcherB.session. cbn [when].
      rewrite run_bind_ret, run_bind_called_B, Hc, run_bind_or_raise_B.
      rewrite run_bind_called_B, Hl, run_bind_or_raise_B.
      rewrite run_bind_ret.
      unfold FetcherB.build_criteria, FetcherB.truthy_int.
      rewrite (proj2 (Z.eqb_neq n 0)) by lia.
      rewrite (sub_days_before_calendar _ _ Hn).
      rewrite run_bind_raise.
      unfold FetcherB.session_start.
      by destruct (Os.exists_ fs0 output_dir). }
    rewrite Hs. unfold FetcherB.finished.
    cbn [FetcherB.fs FetcherB.out FetcherB.calls FetcherB.downloaded_files
         length].
    by rewrite <- app_assoc.
Qed.

Lemma limit_before_calendar_raises_witness :
  (FetcherA.download_pdf_attachments Examples.srvA Examples.clkA
     (lit "me@example.org") (lit "secret") (lit "imap.example.org") 993%Z
     (lit "ALL") (lit "out") (Some 999999999%Z) Examples.empty_fs).1
  = Raise (lit "OverflowError").
Proof.
  destruct limit_before_calendar_raises as [HA _].
  rewrite (HA Examples.srvA Examples.clkA (lit "me@example.org")
              (lit "secret") (lit "imap.example.org") 993%Z (lit "ALL")
              (lit "out") 999999999%Z Examples.empty_fs);
    [reflexivity | reflexivity | reflexivity | reflexivity | reflexivity
    | vm_compute; discriminate].
Defined.

(** ** The lines of a run without debug mode (Fetcher B) *)

Section QuietB.

Import Os FetcherB Lines.

Context (lib : mail_library) (now : datetime) (lower : pystr -> pystr).

Lemma quiet_print (l : printed) :
  is_debug_line l = false -> preserved quiet (print l).
Proof.
  intros Hl. apply preserved_modify. intros w Hw. unfold quiet. cbn [out].
  apply Forall_app. split; [done|]. by apply Forall_singleton.
Qed.

Lemma quiet_same (f : state -> state) :
  (forall w, out (f w) = out w) -> preserved quiet (modify f).
Proof.
  intros Hf. apply preserved_modify. intros w Hw. unfold quiet.
  by rewrite Hf.
Qed.

Lemma quiet_get_monthly_folder (d : datetime) (base : pystr) :
  preserved quiet (get_monthly_folder d base).
Proof.
  intros w r w'. rewrite get_monthly_folder_run.
  by destruct (exists_ _ _); intros [= <- <-].
Qed.

Lemma quiet_save_attachment (folder : pystr) (a : attachment) :
  preserved quiet (save_attachment lower folder a).
Proof.
  intros w r w'.
  destruct (endswith (lower (att_filename a)) (lit ".pdf")) eqn:Hpdf.
  - destruct (save_attachment_pdf lower folder a w Hpdf) as (p & _ & ->).
    intros [= <- <-] Hw. unfold quiet. cbn [saved_state out].
    repeat (apply Forall_app; split); [done|by apply Forall_singleton..].
  - rewrite save_attachment_other by done. by intros [= <- <-].
Qed.

Lemma quiet_process_message (output_dir : pystr) (total i : nat) (it : item) :
  preserved quiet (process_message lower output_dir false total i it).
Proof.
  destruct it as [[m|e]|e]; simpl.
  - apply preserved_bind_ok.
    apply preserved_bind; [by apply quiet_print|intros _].
    apply preserved_bind; [apply quiet_get_monthly_folder|intros folder].
    apply preserved_bind; [apply preserved_ret|intros _].
    apply preserved_when, preserved_for_each. intros a _.
    apply quiet_save_attachment.
  - apply preserved_bind_raise.
  - apply preserved_raise.
Qed.

Lemma quiet_count_items (l : list item) (n : nat) :
  preserved quiet (count_items l n).
Proof.
  revert n. induction l as [|[m|e] l IH]; intros n; simpl;
    [apply preserved_ret | apply IH | apply preserved_raise].
Qed.

Lemma quiet_session (email password server output_dir : pystr)
    (days_limit : option Z) (folder_name : pystr) (only_unread : bool)
    (search_term : option pystr) :
  preserved quiet
    (session lib now lower email password server output_dir days_limit
       folder_name only_unread search_term false).
Proof.
  unfold session. cbn [when].
  repeat first
    [ apply preserved_ret
    | apply preserved_raise
    | apply quiet_same; reflexivity
    | apply quiet_print; reflexivity
    | apply quiet_count_items
    | apply preserved_for_enumerate; intros ? ? _; apply quiet_process_message
    | match goal with
      | |- preserved _ (or_raise ?r) => destruct r
      | |- preserved _ (build_criteria _ _ _ ?d) =>
          unfold build_criteria; destruct (truthy_int d);
          [destruct (sub_days _ _)|]
      end
    | apply preserved_bind; [|intros ?] ].
Qed.

End QuietB.

(** X21: without debug mode the second script prints none of its debug
    lines, in any run: not that it connects, logs in or logs out, not the
    criteria, not the folder it saves to. *)
Theorem quiet_without_debug_B :
  forall (lib : FetcherB.mail_library) (now : datetime)
         (lower : pystr -> pystr)
         (email password server output_dir : pystr)
         (days_limit : option Z) (folder_name : pystr)
         (only_unread : bool) (search_term : option pystr)
         (fs0 : Os.filesystem) (l : FetcherB.printed),
    l ∈ FetcherB.out
          (FetcherB.download_pdf_attachments lib now lower email password
             server output_dir days_limit folder_name only_unread search_term
             false fs0).2 ->
    Lines.is_debug_line l = false.
Proof.
  intros lib now lower email password server output_dir days_limit
         folder_name only_unread search_term fs0 l.
  rewrite download_decomposed_B.
  assert (Hstart : Lines.quiet (FetcherB.session_start output_dir fs0)).
  { unfold Lines.quiet, FetcherB.session_start.
    destruct (Os.exists_ fs0 output_dir); cbn [FetcherB.out];
      repeat constructor. }
  pose proof (quiet_session lib now lower email password server output_dir
                days_limit folder_name only_unread search_term
                (FetcherB.session_start output_dir fs0)) as Hs.
  destruct (FetcherB.session _ _ _ _ _ _ _ _ _ _ _ _ _) as [[[]|e] w];
    specialize (Hs _ _ eq_refl Hstart);
    cbn [snd FetcherB.finished FetcherB.out];
    intros [[Hin|Hin]%elem_of_app|Hin]%elem_of_app.
  all: try (unfold Lines.quiet in Hs; rewrite Forall_forall in Hs;
            by apply Hs).
  all: repeat (apply elem_of_cons in Hin as [->|Hin]; [reflexivity|]).
  all: by apply elem_of_nil in Hin.
Qed.

Lemma quiet_without_debug_B_witness :
  Lines.is_debug_line (FetcherB.Found 3) = false.
Proof.
  apply (quiet_without_debug_B Examples.libB Examples.may_2025 ascii_lower
           (lit "me@example.org") (lit "secret") (lit "imap.example.org")
           (lit "out") None (lit "INBOX") false None Examples.empty_fs).
  vm_compute. set_solver.
Defined.

(** ** The interactive entry point of the first script *)

Section MainARun.

Import Os MainA.

Lemma run_bind_print_main_A {B} (l : printed) (k : unit -> M state B)
    (w : state) :
  (print l ≫= k) w
  = k tt {| stdin := stdin w; tty := tty w; fs := fs w;
            out := out w ++ [l]; calls := calls w |}.
Proof. done. Qed.

(** Reading a line. *)
Lemma run_bind_input_A {B} (p : prompt) (k : pystr -> M state B) (w : state)
    (line : pystr) (rest : list pystr) :
  stdin w = line :: rest ->
  (input p ≫= k) w
  = k line {| stdin := rest; tty := tty w; fs := fs w;
              out := out w ++ [Prompt p]; calls := calls w |}.
Proof.
  intros Hin. unfold input.
  rewrite run_bind_assoc, run_bind_print_main_A, run_bind_assoc, run_bind_get.
  cbn [stdin]. rewrite Hin. by rewrite run_bind_assoc, run_bind_modify.
Qed.

Lemma run_bind_input_eof_A {B} (p : prompt) (k : pystr -> M state B)
    (w : state) :
  stdin w = [] ->
  (input p ≫= k) w
  = (Raise (lit "EOFError"),
     {| stdin := stdin w; tty := tty w; fs := fs w;
        out := out w ++ [Prompt p]; calls := calls w |}).
Proof.
  intros Hin. unfold input.
  rewrite run_bind_assoc, run_bind_print_main_A, run_bind_assoc, run_bind_get.
  cbn [stdin]. by rewrite Hin.
Qed.

Lemma run_bind_getpass_A {B} (p : prompt) (k : pystr -> M state B) (w : state)
    (line : pystr) (rest : list pystr) :
  tty w = line :: rest ->
  (getpass p ≫= k) w
  = k line {| stdin := stdin w; tty := rest; fs := fs w;
              out := out w ++ [Prompt p]; calls := calls w |}.
Proof.
  intros Hin. unfold getpass.
  rewrite run_bind_assoc, run_bind_print_main_A, run_bind_assoc, run_bind_get.
  cbn [tty]. rewrite Hin. by rewrite run_bind_assoc, run_bind_modify.
Qed.

(** Asking touches neither the disk nor the server. *)
Section Untouched.

Context (bi : builtins) (f : filesystem) (c : list FetcherA.call).

Local Abbreviation U := (fun w : state => fs w = f /\ calls w = c).

Lemma untouched_print (l : printed) : preserved U (print l).
Proof. by apply preserved_modify. Qed.

Lemma untouched_input (p : prompt) : preserved U (input p).
Proof.
  unfold input.
  apply preserved_bind; [apply untouched_print|intros _].
  apply preserved_bind; [apply preserved_get|intros w].
  destruct (stdin w); [apply preserved_raise|].
  apply preserved_bind; [by apply preserved_modify|intros _].
  apply preserved_ret.
Qed.

Lemma untouched_getpass (p : prompt) : preserved U (getpass p).
Proof.
  unfold getpass.
  apply preserved_bind; [apply untouched_print|intros _].
  apply preserved_bind; [apply preserved_get|intros w].
  destruct (tty w); [apply preserved_raise|].
  apply preserved_bind; [by apply preserved_modify|intros _].
  apply preserved_ret.
Qed.

Lemma untouched_parse_days (days_filter : pystr) :
  preserved U (parse_days bi days_filter).
Proof.
  unfold parse_days. destruct (_ && _); [|apply preserved_ret].
  apply preserved_bind; [apply preserved_lift|intros n; apply preserved_ret].
Qed.

Lemma untouched_answers : preserved U (answers bi).
Proof.
  unfold answers.
  apply preserved_bind; [apply untouched_input|intros email_address].
  apply preserved_bind; [apply untouched_getpass|intros password].
  apply preserved_bind; [apply untouched_input|intros answer].
  cbv zeta. apply preserved_bind.
  { destruct (negb _); [apply preserved_ret|].
    apply preserved_bind; [apply untouched_input|intros imap_server].
    apply preserved_bind; [apply untouched_input|intros port].
    apply preserved_bind; [|intros ?; apply preserved_ret].
    destruct (truthy port); [apply preserved_lift|apply preserved_ret]. }
  intros [imap_server imap_port].
  apply preserved_bind; [apply untouched_input|intros days_filter].
  apply preserved_bind; [apply untouched_parse_days|intros days_limit].
  apply preserved_bind; [apply untouched_input|intros search_option].
  apply preserved_bind.
  { destruct (str_eqb search_option (lit "2")); [apply preserved_ret|].
    destruct (str_eqb search_option (lit "3")); [|apply preserved_ret].
    apply preserved_bind; [apply untouched_print|intros _].
    apply untouched_input. }
  intros search_criteria.
  apply preserved_bind; [apply untouched_input|intros answer'].
  apply preserved_ret.
Qed.

End Untouched.

End MainARun.

(** X23: [main] of the first script asks before it acts.  When the
    questions do not all get an answer (the input ends, or the port typed
    is no number), [main] ends with that exception, and nothing has been
    sent to the server and nothing on the disk has changed. *)
Theorem main_acts_after_the_answers_A :
  forall (bi : builtins) (srv : FetcherA.imap_server) (clk : FetcherA.clock)
         (w : MainA.state) (e : pystr),
    let asked :=
      MainA.answers bi
        {| MainA.stdin := MainA.stdin w; MainA.tty := MainA.tty w;
           MainA.fs := MainA.fs w; MainA.out := MainA.out w ++ [MainA.Banner];
           MainA.calls := MainA.calls w |} in
    asked.1 = Raise e ->
    MainA.main bi srv clk w = (Raise e, asked.2)
    /\ MainA.fs asked.2 = MainA.fs w
    /\ MainA.calls asked.2 = MainA.calls w.
Proof.
  intros bi srv clk w e asked Hraise. subst asked.
  set (w0 := {| MainA.stdin := MainA.stdin w; MainA.tty := MainA.tty w;
                MainA.fs := MainA.fs w;
                MainA.out := MainA.out w ++ [MainA.Banner];
                MainA.calls := MainA.calls w |}) in *.
  pose proof (untouched_answers bi (MainA.fs w) (MainA.calls w)
                w0 _ _ (surjective_pairing _) (conj eq_refl eq_refl))
    as [Hfs Hcalls].
  unfold MainA.main. rewrite run_bind_print_main_A. fold w0.
  unfold mbind, M_bind, bind.
  destruct (MainA.answers bi w0) as [r w1]. cbn [fst snd] in *. subst r.
  done.
Qed.

Lemma main_acts_after_the_answers_A_witness :
  MainA.main AsciiBuiltins.ascii Examples.srvA Examples.clkA
    {| MainA.stdin := [lit "me@example.org"; lit "n"; lit "imap.example.org";
                       lit "imaps"];
       MainA.tty := [lit "secret"]; MainA.fs := Examples.empty_fs;
       MainA.out := []; MainA.calls := [] |}
  = (Raise (lit "ValueError"),
     {| MainA.stdin := [];
        MainA.tty := []; MainA.fs := Examples.empty_fs;
        MainA.out := [MainA.Banner; MainA.Prompt MainA.AskEmail;
                      MainA.Prompt MainA.AskPassword;
                      MainA.Prompt MainA.AskUseGmail;
                      MainA.Prompt MainA.AskServer;
                      MainA.Prompt MainA.AskPort];
        MainA.calls := [] |}).
Proof.
  apply (main_acts_after_the_answers_A AsciiBuiltins.ascii Examples.srvA
           Examples.clkA).
  vm_compute. reflexivity.
Defined.

Section MainAPaths.

Import Os MainA.

Context (bi : builtins) (srv : FetcherA.imap_server) (clk : FetcherA.clock).

(** The state [main] is in when the download has ended and the report has
    been printed, or when the download has raised. *)
Lemma main_after_answers_A (w w1 : state) (a : arguments) :
  answers bi {| stdin := stdin w; tty := tty w; fs := fs w;
                out := out w ++ [Banner]; calls := calls w |}
  = (Ok a, w1) ->
  main bi srv clk w
  = let run :=
      FetcherA.download_pdf_attachments srv clk (email_address a)
        (password a) (imap_server a) (imap_port a) (search_criteria a)
        (output_dir a) (days_limit a) (fs w1) in
    match run.1 with
    | Ok l =>
        (Ok tt,
         {| stdin := stdin w1; tty := tty w1; fs := FetcherA.fs run.2;
            out := ((out w1 ++ [ConnectingAndSearching])
                    ++ (FromDownload <$> FetcherA.out run.2))
                   ++ [if truthy l then Success (length l) (output_dir a)
                       else NothingDownloaded];
            calls := calls w1 ++ FetcherA.calls run.2 |})
    | Raise e =>
        (Raise e,
         {| stdin := stdin w1; tty := tty w1; fs := FetcherA.fs run.2;
            out := (out w1 ++ [ConnectingAndSearching])
                   ++ (FromDownload <$> FetcherA.out run.2);
            calls := calls w1 ++ FetcherA.calls run.2 |})
    end.
Proof.
  intros Ha. unfold main. rewrite run_bind_print_main_A.
  rewrite (run_bind_eq _ _ _ _ _ Ha), run_bind_print_main_A.
  unfold mbind at 1, M_bind, bind, download.
  cbn [stdin tty fs out calls fst snd].
  destruct (FetcherA.download_pdf_attachments _ _ _ _ _ _ _ _ _ _)
    as [[l|e] d]; cbn [fst snd]; [|reflexivity].
  by destruct (truthy l).
Qed.

(** The answers on the short path: any answer to the second question
    that is not [n] in lower case, and any search option but 3. *)
Lemma answers_gmail_A (w : state) (email answer days choice dir pw : pystr)
    (rest tty' : list pystr) (limit : option Z) :
  stdin w = email :: answer :: days :: choice :: dir :: rest ->
  tty w = pw :: tty' ->
  str_lower bi answer <> lit "n" ->
  (forall w' : state, parse_days bi days w' = (Ok limit, w')) ->
  choice <> lit "3" ->
  answers bi w
  = (Ok {| email_address := email; password := pw;
           imap_server := lit "imap.gmail.com"; imap_port := 993%Z;
           search_criteria :=
             if str_eqb choice (lit "2") then lit "UNSEEN" else lit "ALL";
           output_dir := or_default dir (lit "pdf_attachments");
           days_limit := limit |},
     {| stdin := rest; tty := tty'; fs := fs w;
        out := out w ++ [Prompt AskEmail; Prompt AskPassword;
                         Prompt AskUseGmail; Prompt AskDays;
                         Prompt AskSearchOption; Prompt AskOutputDir];
        calls := calls w |}).
Proof.
  intros Hin Htty Hanswer Hdays Hoption. unfold answers.
  rewrite (run_bind_input_A _ _ _ _ _ Hin). cbn [stdin tty fs out calls].
  rewrite (run_bind_getpass_A _ _ _ pw tty') by exact Htty.
  cbn [stdin tty fs out calls].
  rewrite (run_bind_input_A _ _ _ answer (days :: choice :: dir :: rest))
    by reflexivity. cbn [stdin tty fs out calls].
  cbv beta zeta.
  assert (Hg : str_eqb (str_lower bi answer) (lit "n") = false)
    by (by apply bool_decide_eq_false_2).
  rewrite Hg. cbn [negb].
  rewrite run_bind_ret. cbv beta iota.
  rewrite (run_bind_input_A _ _ _ days (choice :: dir :: rest)) by reflexivity.
  cbn [stdin tty fs out calls].
  rewrite (run_bind_eq _ _ _ _ _ (Hdays _)).
  rewrite (run_bind_input_A _ _ _ choice (dir :: rest)) by reflexivity.
  cbn [stdin tty fs out calls].
  assert (H3 : str_eqb choice (lit "3") = false)
    by (by apply bool_decide_eq_false_2).
  destruct (str_eqb choice (lit "2")); [|rewrite H3];
    rewrite run_bind_ret;
    rewrite (run_bind_input_A _ _ _ dir rest) by reflexivity;
    unfold ret; cbn [stdin tty fs out calls];
    by rewrite <- !app_assoc.
Qed.

(** The answers on the long path: [n] to the second question and 3 as
    the search option. *)
Lemma answers_custom_A (w : state)
    (email answer server port days criteria dir pw : pystr)
    (rest tty' : list pystr) (port_number : Z) (limit : option Z) :
  stdin w = email :: answer :: server :: port :: days :: lit "3" :: criteria
            :: dir :: rest ->
  tty w = pw :: tty' ->
  str_lower bi answer = lit "n" ->
  (port = [] /\ port_number = 993%Z
   \/ port <> [] /\ int_of_str bi port = Ok port_number) ->
  (forall w' : state, parse_days bi days w' = (Ok limit, w')) ->
  answers bi w
  = (Ok {| email_address := email; password := pw;
           imap_server := server; imap_port := port_number;
           search_criteria := criteria;
           output_dir := or_default dir (lit "pdf_attachments");
           days_limit := limit |},
     {| stdin := rest; tty := tty'; fs := fs w;
        out := out w ++ [Prompt AskEmail; Prompt AskPassword;
                         Prompt AskUseGmail; Prompt AskServer; Prompt AskPort;
                         Prompt AskDays; Prompt AskSearchOption;
                         CustomCriteriaHelp; Prompt AskSearchCriteria;
                         Prompt AskOutputDir];
        calls := calls w |}).
Proof.
  intros Hin Htty Hanswer Hport Hdays. unfold answers.
  rewrite (run_bind_input_A _ _ _ _ _ Hin). cbn [stdin tty fs out calls].
  rewrite (run_bind_getpass_A _ _ _ pw tty') by exact Htty.
  cbn [stdin tty fs out calls].
  rewrite (run_bind_input_A _ _ _ answer
             (server :: port :: days :: lit "3" :: criteria :: dir :: rest))
    by reflexivity. cbn [stdin tty fs out calls].
  cbv beta zeta. rewrite Hanswer.
  change (str_eqb (lit "n") (lit "n")) with true. cbn [negb].
  rewrite run_bind_assoc.
  rewrite (run_bind_input_A _ _ _ server
             (port :: days :: lit "3" :: criteria :: dir :: rest))
    by reflexivity. cbn [stdin tty fs out calls].
  rewrite run_bind_assoc.
  rewrite (run_bind_input_A _ _ _ port
             (days :: lit "3" :: criteria :: dir :: rest)) by reflexivity.
  cbn [stdin tty fs out calls].
  rewrite run_bind_assoc.
  assert (Hp : forall w' : state,
            (if truthy port then lift (int_of_str bi port) else ret 993%Z) w'
            = (Ok port_number, w')).
  { intros w'. destruct Hport as [[-> ->]|[Hne ->]]; [done|].
    by rewrite (truthy_true _ Hne). }
  rewrite (run_bind_eq _ _ _ _ _ (Hp _)).
  rewrite run_bind_ret. cbv beta iota.
  rewrite (run_bind_input_A _ _ _ days (lit "3" :: criteria :: dir :: rest))
    by reflexivity. cbn [stdin tty fs out calls].
  rewrite (run_bind_eq _ _ _ _ _ (Hdays _)).
  rewrite (run_bind_input_A _ _ _ (lit "3") (criteria :: dir :: rest))
    by reflexivity. cbn [stdin tty fs out calls].
  change (str_eqb (lit "3") (lit "2")) with false.
  change (str_eqb (lit "3") (lit "3")) with true. cbv iota.
  rewrite run_bind_assoc, run_bind_print_main_A.
  cbn [stdin tty fs out calls].
  rewrite (run_bind_input_A _ _ _ criteria (dir :: rest)) by reflexivity.
  cbn [stdin tty fs out calls].
  rewrite (run_bind_input_A _ _ _ dir rest) by reflexivity.
  unfold ret. cbn [stdin tty fs out calls].
  by rewrite <- !app_assoc.
Qed.

End MainAPaths.

(** X24: the short path through [main] of the first script.  Unless the
    answer to the second question is [n] in lower case the server is
    imap.gmail.com at port 993 and no server is asked for; an answer for
    the days that is empty or not all digits means no limit; a search
    option other than 2 and 3 means [ALL], and 2 means [UNSEEN]; an empty
    answer for the directory means [pdf_attachments].  [main] then runs
    the download with these, prints what the download prints, and ends
    with one line that says how many files there are or that there are
    none; when the download raises, so does [main]. *)
Theorem main_short_path_A :
  forall (bi : builtins) (srv : FetcherA.imap_server) (clk : FetcherA.clock)
         (w : MainA.state) (email answer days choice dir pw : pystr)
         (rest tty' : list pystr),
    let criteria :=
      if str_eqb choice (lit "2") then lit "UNSEEN" else lit "ALL" in
    let output_dir := or_default dir (lit "pdf_attachments") in
    let run :=
      FetcherA.download_pdf_attachments srv clk email pw
        (lit "imap.gmail.com") 993%Z criteria output_dir None (MainA.fs w) in
    let shown :=
      MainA.out w
      ++ [MainA.Banner; MainA.Prompt MainA.AskEmail;
          MainA.Prompt MainA.AskPassword; MainA.Prompt MainA.AskUseGmail;
          MainA.Prompt MainA.AskDays; MainA.Prompt MainA.AskSearchOption;
          MainA.Prompt MainA.AskOutputDir; MainA.ConnectingAndSearching]
      ++ (MainA.FromDownload <$> FetcherA.out run.2) in
    MainA.stdin w = email :: answer :: days :: choice :: dir :: rest ->
    MainA.tty w = pw :: tty' ->
    str_lower bi answer <> lit "n" ->
    days = [] \/ str_isdigit bi days = false ->
    choice <> lit "3" ->
    MainA.main bi srv clk w
    = (match run.1 with Ok _ => Ok tt | Raise e => Raise e end,
       {| MainA.stdin := rest; MainA.tty := tty';
          MainA.fs := FetcherA.fs run.2;
          MainA.out :=
            shown
            ++ match run.1 with
               | Ok [] => [MainA.NothingDownloaded]
               | Ok l => [MainA.Success (length l) output_dir]
               | Raise _ => []
               end;
          MainA.calls := MainA.calls w ++ FetcherA.calls run.2 |}).
Proof.
  intros bi srv clk w email answer days choice dir pw rest tty'
         criteria output_dir run shown Hin Htty Hanswer Hdays Hchoice.
  assert (Hlimit : forall w' : MainA.state,
            parse_days bi days w' = (Ok None, w')).
  { intros w'. unfold parse_days.
    destruct Hdays as [-> | ->]; [done|]. by rewrite andb_false_r. }
  rewrite (main_after_answers_A bi srv clk w _ _
             (answers_gmail_A bi
                {| MainA.stdin := MainA.stdin w; MainA.tty := MainA.tty w;
                   MainA.fs := MainA.fs w;
                   MainA.out := MainA.out w ++ [MainA.Banner];
                   MainA.calls := MainA.calls w |}
                email answer days choice dir pw rest tty'
                None Hin Htty Hanswer Hlimit Hchoice)).
  cbn [MainA.email_address MainA.password MainA.imap_server MainA.imap_port
       MainA.search_criteria MainA.output_dir MainA.days_limit
       MainA.stdin MainA.tty MainA.fs MainA.out MainA.calls].
  fold criteria output_dir run. cbv zeta. subst shown.
  destruct run.1 as [[|x l]|e]; cbn [truthy];
    rewrite <- ?app_assoc; cbn [app]; rewrite ?app_nil_r; reflexivity.
Qed.

Lemma main_short_path_A_witness :
  (MainA.main AsciiBuiltins.ascii Examples.srvA Examples.clkA
     {| MainA.stdin := [lit "me@example.org"; []; lit "a week"; []; lit "out"];
        MainA.tty := [lit "secret"]; MainA.fs := Examples.empty_fs;
        MainA.out := []; MainA.calls := [] |}).1
  = Ok tt.
Proof.
  rewrite (main_short_path_A AsciiBuiltins.ascii Examples.srvA Examples.clkA
             _ (lit "me@example.org") [] (lit "a week") [] (lit "out")
             (lit "secret") [] []);
    [reflexivity | reflexivity | reflexivity | discriminate
    | right; reflexivity | discriminate].
Defined.

(** X25: the long path through [main] of the first script.  With [n] as
    the answer to the second question, the server typed and the port
    typed are used (port 993 when the answer is empty); a days answer of
    digits is the limit; with the search option 3 the criteria typed are
    sent as they are.  [main] runs the download with exactly what was
    typed. *)
Theorem main_long_path_A :
  forall (bi : builtins) (srv : FetcherA.imap_server) (clk : FetcherA.clock)
         (w : MainA.state)
         (email answer server port days criteria dir pw : pystr)
         (rest tty' : list pystr) (port_number limit : Z),
    let output_dir := or_default dir (lit "pdf_attachments") in
    let run :=
      FetcherA.download_pdf_attachments srv clk email pw server port_number
        criteria output_dir (Some limit) (MainA.fs w) in
    let shown :=
      MainA.out w
      ++ [MainA.Banner; MainA.Prompt MainA.AskEmail;
          MainA.Prompt MainA.AskPassword; MainA.Prompt MainA.AskUseGmail;
          MainA.Prompt MainA.AskServer; MainA.Prompt MainA.AskPort;
          MainA.Prompt MainA.AskDays; MainA.Prompt MainA.AskSearchOption;
          MainA.CustomCriteriaHelp; MainA.Prompt MainA.AskSearchCriteria;
          MainA.Prompt MainA.AskOutputDir; MainA.ConnectingAndSearching]
      ++ (MainA.FromDownload <$> FetcherA.out run.2) in
    MainA.stdin w
    = email :: answer :: server :: port :: days :: lit "3" :: criteria
      :: dir :: rest ->
    MainA.tty w = pw :: tty' ->
    str_lower bi answer = lit "n" ->
    (port = [] /\ port_number = 993%Z
     \/ port <> [] /\ int_of_str bi port = Ok port_number) ->
    days <> [] -> str_isdigit bi days = true ->
    int_of_str bi days = Ok limit ->
    MainA.main bi srv clk w
    = (match run.1 with Ok _ => Ok tt | Raise e => Raise e end,
       {| MainA.stdin := rest; MainA.tty := tty';
          MainA.fs := FetcherA.fs run.2;
          MainA.out :=
            shown
            ++ match run.1 with
               | Ok [] => [MainA.NothingDownloaded]
               | Ok l => [MainA.Success (length l) output_dir]
               | Raise _ => []
               end;
          MainA.calls := MainA.calls w ++ FetcherA.calls run.2 |}).
Proof.
  intros bi srv clk w email answer server port days criteria dir pw rest tty'
         port_number limit output_dir run shown Hin Htty Hanswer Hport
         Hne Hdigit Hint.
  assert (Hlimit : forall w' : MainA.state,
            parse_days bi days w' = (Ok (Some limit), w')).
  { intros w'. unfold parse_days.
    by rewrite (truthy_true _ Hne), Hdigit, Hint. }
  rewrite (main_after_answers_A bi srv clk w _ _
             (answers_custom_A bi
                {| MainA.stdin := MainA.stdin w; MainA.tty := MainA.tty w;
                   MainA.fs := MainA.fs w;
                   MainA.out := MainA.out w ++ [MainA.Banner];
                   MainA.calls := MainA.calls w |}
                email answer server port days criteria dir
                pw rest tty' port_number (Some limit) Hin Htty Hanswer Hport
                Hlimit)).
  cbn [MainA.email_address MainA.password MainA.imap_server MainA.imap_port
       MainA.search_criteria MainA.output_dir MainA.days_limit
       MainA.stdin MainA.tty MainA.fs MainA.out MainA.calls].
  fold output_dir run. cbv zeta. subst shown.
  destruct run.1 as [[|x l]|e]; cbn [truthy];
    rewrite <- ?app_assoc; cbn [app]; rewrite ?app_nil_r; reflexivity.
Qed.

Lemma main_long_path_A_witness :
  (MainA.main AsciiBuiltins.ascii Examples.srvA Examples.clkA
     {| MainA.stdin := [lit "me@example.org"; lit "N"; lit "imap.example.org";
                        []; lit "7"; lit "3"; lit "FROM boss"; []];
        MainA.tty := [lit "secret"]; MainA.fs := Examples.empty_fs;
        MainA.out := []; MainA.calls := [] |}).1
  = Ok tt.
Proof.
  rewrite (main_long_path_A AsciiBuiltins.ascii Examples.srvA Examples.clkA
             _ (lit "me@example.org") (lit "N") (lit "imap.example.org") []
             (lit "7") (lit "FROM boss") [] (lit "secret") [] [] 993%Z 7%Z);
    [reflexivity | reflexivity | reflexivity | reflexivity
    | left; split; reflexivity | discriminate | reflexivity | reflexivity].
Defined.

(** ** The interactive entry point of the second script *)

Section MainBRun.

Import Os MainB.

Lemma run_bind_print_main_B {B} (l : printed) (k : unit -> M state B)
    (w : state) :
  (print l ≫= k) w
  = k tt {| stdin := stdin w; fs := fs w;
            out := out w ++ [l]; calls := calls w |}.
Proof. done. Qed.

Lemma run_bind_input_B {B} (p : prompt) (k : pystr -> M state B) (w : state)
    (line : pystr) (rest : list pystr) :
  stdin w = line :: rest ->
  (input p ≫= k) w
  = k line {| stdin := rest; fs := fs w;
              out := out w ++ [Prompt p]; calls := calls w |}.
Proof.
  intros Hin. unfold input.
  rewrite run_bind_assoc, run_bind_print_main_B, run_bind_assoc, run_bind_get.
  cbn [stdin]. rewrite Hin. by rewrite run_bind_assoc, run_bind_modify.
Qed.

Ltac read_line_B :=
  match goal with
  | |- context [(MainB.input ?p ≫= ?k)
                  {| MainB.stdin := ?line :: ?rest; MainB.fs := ?f;
                     MainB.out := ?o; MainB.calls := ?c |}] =>
      rewrite (run_bind_input_B p k
                 {| MainB.stdin := line :: rest; MainB.fs := f;
                    MainB.out := o; MainB.calls := c |} line rest eq_refl);
      cbn [MainB.stdin MainB.fs MainB.out MainB.calls]
  end.

Section Untouched.

Context (bi : builtins) (f : filesystem) (c : list FetcherB.call).

Local Abbreviation U := (fun w : state => fs w = f /\ calls w = c).

Lemma untouched_print_B (l : printed) : preserved U (print l).
Proof. by apply preserved_modify. Qed.

Lemma untouched_input_B (p : prompt) : preserved U (input p).
Proof.
  unfold input.
  apply preserved_bind; [apply untouched_print_B|intros _].
  apply preserved_bind; [apply preserved_get|intros w].
  destruct (stdin w); [apply preserved_raise|].
  apply preserved_bind; [by apply preserved_modify|intros _].
  apply preserved_ret.
Qed.

Lemma untouched_parse_days_B (days_filter : pystr) :
  preserved U (parse_days bi days_filter).
Proof.
  unfold parse_days. destruct (_ && _); [|apply preserved_ret].
  apply preserved_bind; [apply preserved_lift|intros n; apply preserved_ret].
Qed.

Lemma untouched_answers_B : preserved U (answers bi).
Proof.
  unfold answers.
  apply preserved_bind; [apply untouched_input_B|intros email].
  apply preserved_bind; [apply untouched_input_B|intros password].
  apply preserved_bind; [apply untouched_input_B|intros days_filter].
  apply preserved_bind; [apply untouched_parse_days_B|intros days_limit].
  apply preserved_bind; [apply untouched_input_B|intros answer].
  cbv zeta.
  apply preserved_bind; [apply untouched_input_B|intros filter_option].
  apply preserved_bind.
  { destruct (str_eqb filter_option (lit "3")); [|apply preserved_ret].
    apply preserved_bind; [apply untouched_input_B|intros term].
    apply preserved_ret. }
  intros search_term.
  apply preserved_bind; [apply untouched_input_B|intros answer'].
  apply preserved_ret.
Qed.

End Untouched.

Context (bi : builtins) (lib : FetcherB.mail_library) (now : datetime).
Context (argv : list pystr).

(** The state [main] is in when the questions have been answered. *)
Lemma answers_run_B (w : state)
    (email pw days folder choice term dir : pystr) (rest : list pystr)
    (limit : option Z) :
  stdin w
  = email :: pw :: days :: folder :: choice
    :: (if str_eqb choice (lit "3") then [term] else []) ++ dir :: rest ->
  (forall w' : state, parse_days bi days w' = (Ok limit, w')) ->
  answers bi w
  = (Ok {| email := email; password := pw;
           output_dir := or_default dir (lit "pdf_attachments");
           days_limit := limit;
           folder_name := or_default folder (lit "INBOX");
           only_unread := str_eqb choice (lit "2");
           search_term :=
             if str_eqb choice (lit "3") then Some term else None |},
     {| stdin := rest; fs := fs w;
        out := out w
               ++ [Prompt AskEmail; Prompt AskPassword; Prompt AskDays;
                   Prompt AskFolder; Prompt AskFilterOption]
               ++ (if str_eqb choice (lit "3") then [Prompt AskSearchTerm]
                   else [])
               ++ [Prompt AskOutputDir];
        calls := calls w |}).
Proof.
  intros Hin Hdays. unfold answers.
  rewrite (run_bind_input_B _ _ _ _ _ Hin). cbn [stdin fs out calls].
  read_line_B. read_line_B.
  rewrite (run_bind_eq _ _ _ _ _ (Hdays _)).
  read_line_B. cbv beta zeta. read_line_B.
  destruct (str_eqb choice (lit "3")); cbn [app].
  - rewrite run_bind_assoc. read_line_B.
    rewrite run_bind_ret. read_line_B.
    unfold ret. by rewrite <- !app_assoc.
  - rewrite run_bind_ret. read_line_B.
    unfold ret. by rewrite <- !app_assoc.
Qed.

End MainBRun.

(** X26: [main] of the second script asks before it acts.  When the
    questions do not all get an answer, [main] ends with that exception,
    and nothing has been sent to the server and nothing on the disk has
    changed. *)
Theorem main_acts_after_the_answers_B :
  forall (bi : builtins) (lib : FetcherB.mail_library) (now : datetime)
         (argv : list pystr) (w : MainB.state) (e : pystr),
    let asked :=
      MainB.answers bi
        {| MainB.stdin := MainB.stdin w; MainB.fs := MainB.fs w;
           MainB.out :=
             MainB.out w
             ++ MainB.Banner
                :: (if bool_decide (lit "--debug" ∈ argv)
                    then [MainB.DebugEnabled] else []);
           MainB.calls := MainB.calls w |} in
    asked.1 = Raise e ->
    MainB.main bi lib now argv w = (Raise e, asked.2)
    /\ MainB.fs asked.2 = MainB.fs w
    /\ MainB.calls asked.2 = MainB.calls w.
Proof.
  intros bi lib now argv w e asked Hraise. subst asked.
  set (w0 := {| MainB.stdin := MainB.stdin w; MainB.fs := MainB.fs w;
                MainB.out := _; MainB.calls := MainB.calls w |}) in *.
  pose proof (untouched_answers_B bi (MainB.fs w) (MainB.calls w)
                w0 _ _ (surjective_pairing _) (conj eq_refl eq_refl))
    as [Hfs Hcalls].
  unfold MainB.main. rewrite run_bind_print_main_B. cbv zeta.
  rewrite run_bind_when.
  assert (Hstart : forall {B} (k : unit -> M MainB.state B),
            (if bool_decide (lit "--debug" ∈ argv)
             then (MainB.print MainB.DebugEnabled ≫= k)
                    {| MainB.stdin := MainB.stdin w; MainB.fs := MainB.fs w;
                       MainB.out := MainB.out w ++ [MainB.Banner];
                       MainB.calls := MainB.calls w |}
             else k tt
                    {| MainB.stdin := MainB.stdin w; MainB.fs := MainB.fs w;
                       MainB.out := MainB.out w ++ [MainB.Banner];
                       MainB.calls := MainB.calls w |})
            = k tt w0).
  { intros B k. subst w0. destruct (bool_decide _).
    - rewrite run_bind_print_main_B.
      cbn [MainB.stdin MainB.fs MainB.out MainB.calls].
      by rewrite <- app_assoc.
    - reflexivity. }
  rewrite Hstart. unfold mbind, M_bind, bind.
  destruct (MainB.answers bi w0) as [r w1]. cbn [fst snd] in *. subst r.
  done.
Qed.

Lemma main_acts_after_the_answers_B_witness :
  MainB.main AsciiBuiltins.ascii Examples.libB Examples.may_2025 []
    {| MainB.stdin := [lit "me@example.org"; lit "secret"];
       MainB.fs := Examples.empty_fs; MainB.out := []; MainB.calls := [] |}
  = (Raise (lit "EOFError"),
     {| MainB.stdin := []; MainB.fs := Examples.empty_fs;
        MainB.out := [MainB.Banner; MainB.Prompt MainB.AskEmail;
                      MainB.Prompt MainB.AskPassword;
                      MainB.Prompt MainB.AskDays];
        MainB.calls := [] |}).
Proof.
  apply (main_acts_after_the_answers_B AsciiBuiltins.ascii Examples.libB
           Examples.may_2025 []).
  vm_compute. reflexivity.
Defined.

(** X27: [main] of the second script, once the questions are answered.
    The server is always imap.tiongnam.com.my: [main] does not ask for
    one.  The days are a limit only when the answer is all digits; an
    empty answer for the folder means [INBOX], and one for the directory
    [pdf_attachments]; the filter option 2 asks for unread messages, the
    option 3 reads a search term, and every other option filters
    nothing; the debug lines are asked for when [--debug] is among the
    arguments of the command.  [main] runs the download with these,
    prints what the download prints, and ends with one line that says how
    many files there are or that there are none; when the download
    raises, so does [main]. *)
Theorem main_runs_download_B :
  forall (bi : builtins) (lib : FetcherB.mail_library) (now : datetime)
         (argv : list pystr) (w : MainB.state)
         (email pw days folder choice term dir : pystr) (rest : list pystr)
         (limit : option Z),
    let debug := bool_decide (lit "--debug" ∈ argv) in
    let with_term := str_eqb choice (lit "3") in
    let output_dir := or_default dir (lit "pdf_attachments") in
    let run :=
      FetcherB.download_pdf_attachments lib now (str_lower bi) email pw
        (lit "imap.tiongnam.com.my") output_dir limit
        (or_default folder (lit "INBOX")) (str_eqb choice (lit "2"))
        (if with_term then Some term else None) debug (MainB.fs w) in
    MainB.stdin w
    = email :: pw :: days :: folder :: choice
      :: (if with_term then [term] else []) ++ dir :: rest ->
    (limit = None /\ (days = [] \/ str_isdigit bi days = false)
     \/ days <> [] /\ str_isdigit bi days = true
        /\ exists n, int_of_str bi days = Ok n /\ limit = Some n) ->
    MainB.main bi lib now argv w
    = (match run.1 with Ok _ => Ok tt | Raise e => Raise e end,
       {| MainB.stdin := rest; MainB.fs := FetcherB.fs run.2;
          MainB.out :=
            MainB.out w
            ++ MainB.Banner :: (if debug then [MainB.DebugEnabled] else [])
            ++ [MainB.Prompt MainB.AskEmail; MainB.Prompt MainB.AskPassword;
                MainB.Prompt MainB.AskDays; MainB.Prompt MainB.AskFolder;
                MainB.Prompt MainB.AskFilterOption]
            ++ (if with_term then [MainB.Prompt MainB.AskSearchTerm] else [])
            ++ [MainB.Prompt MainB.AskOutputDir]
            ++ (MainB.FromDownload <$> FetcherB.out run.2)
            ++ match run.1 with
               | Ok [] => [MainB.NothingDownloaded]
               | Ok l => [MainB.Success (length l) output_dir]
               | Raise _ => []
               end;
          MainB.calls := MainB.calls w ++ FetcherB.calls run.2 |}).
Proof.
  intros bi lib now argv w email pw days folder choice term dir rest limit
         debug with_term output_dir run Hin Hdays.
  assert (Hlimit : forall w' : MainB.state,
            parse_days bi days w' = (Ok limit, w')).
  { intros w'. unfold parse_days.
    destruct Hdays as [[-> [-> | ->]]|(Hne & Hdigit & n & Hint & ->)].
    - done.
    - by rewrite andb_false_r.
    - by rewrite (truthy_true _ Hne), Hdigit, Hint. }
  unfold MainB.main. rewrite run_bind_print_main_B. cbv zeta. fold debug.
  rewrite run_bind_when.
  set (w0 := {| MainB.stdin := MainB.stdin w; MainB.fs := MainB.fs w;
                MainB.out :=
                  MainB.out w
                  ++ MainB.Banner
                     :: (if debug then [MainB.DebugEnabled] else []);
                MainB.calls := MainB.calls w |}).
  assert (Hstart : forall {B} (k : unit -> M MainB.state B),
            (if debug
             then (MainB.print MainB.DebugEnabled ≫= k)
                    {| MainB.stdin := MainB.stdin w; MainB.fs := MainB.fs w;
                       MainB.out := MainB.out w ++ [MainB.Banner];
                       MainB.calls := MainB.calls w |}
             else k tt
                    {| MainB.stdin := MainB.stdin w; MainB.fs := MainB.fs w;
                       MainB.out := MainB.out w ++ [MainB.Banner];
                       MainB.calls := MainB.calls w |})
            = k tt w0).
  { intros B k. subst w0. destruct debug.
    - rewrite run_bind_print_main_B.
      cbn [MainB.stdin MainB.fs MainB.out MainB.calls].
      by rewrite <- app_assoc.
    - reflexivity. }
  rewrite Hstart.
  rewrite (run_bind_eq _ _ _ _ _
             (answers_run_B bi w0 email pw days folder choice term dir rest
                limit Hin Hlimit)).
  fold with_term output_dir.
  unfold mbind, M_bind, bind, MainB.download.
  cbn [MainB.email MainB.password MainB.output_dir MainB.days_limit
       MainB.folder_name MainB.only_unread MainB.search_term
       MainB.stdin MainB.fs MainB.out MainB.calls].
  change MainB.default_server with (lit "imap.tiongnam.com.my").
  subst w0. cbn [MainB.fs]. fold run.
  destruct run.1 as [[|x l]|e]; cbn [truthy];
    unfold MainB.print, modify;
    cbn [MainB.stdin MainB.fs MainB.out MainB.calls];
    rewrite <- ?app_assoc; cbn [app]; rewrite ?app_nil_r; reflexivity.
Qed.

Lemma main_runs_download_B_witness :
  (MainB.main AsciiBuiltins.ascii Examples.libB Examples.may_2025 []
     {| MainB.stdin := [lit "me@example.org"; lit "secret"; []; [];
                        lit "3"; lit "invoice"; lit "out"];
        MainB.fs := Examples.empty_fs; MainB.out := [];
        MainB.calls := [] |}).1
  = Ok tt.
Proof.
  rewrite (main_runs_download_B AsciiBuiltins.ascii Examples.libB
             Examples.may_2025 [] _ (lit "me@example.org") (lit "secret")
             [] [] (lit "3") (lit "invoice") (lit "out") [] None);
    [reflexivity | reflexivity | ].
  left. split; [reflexivity|]. by left.
Defined.

Section MainAFailure.

Import Os FetcherA Stages.

Context (srv : imap_server) (clk : clock).

(** A run that cannot connect, or cannot log in. *)
Lemma download_not_connected (email_address password imap_server : pystr)
    (imap_port : Z) (search_criteria output_dir : pystr)
    (days_limit : option Z) (fs0 : filesystem) (e : pystr) :
  IMAP4_SSL srv imap_server imap_port = Some e
  \/ IMAP4_SSL srv imap_server imap_port = None
     /\ login srv email_address password = Some e ->
  exists made : list call,
    download_pdf_attachments srv clk email_address password imap_server
      imap_port search_criteria output_dir days_limit fs0
    = (Ok [],
       {| fs := fs (start output_dir fs0);
          out := out (start output_dir fs0) ++ [ErrorConnecting e];
          calls := made; downloaded_files := [] |})
    /\ CallLogout ∉ made.
Proof.
  intros Hfail. unfold download_pdf_attachments, start.
  rewrite run_bind_get. cbn [fs]. rewrite run_bind_when.
  destruct Hfail as [Hc|[Hc Hl]].
  - exists [CallConnect imap_server imap_port]. split; [|set_solver].
    destruct (exists_ fs0 output_dir); cbn [negb];
      [|rewrite run_bind_assoc; unfold set_fs at 1;
        rewrite run_bind_modify, run_bind_print_A];
      cbv beta; fields_A.
    all: rewrite run_bind_try.
    all: rewrite run_bind_called_A, Hc; fields_A.
    all: cbn [or_raise]; rewrite run_bind_raise.
    all: rewrite run_bind_assoc, run_bind_print_A; fields_A.
    all: reflexivity.
  - exists [CallConnect imap_server imap_port;
            CallLogin email_address password]. split; [|set_solver].
    destruct (exists_ fs0 output_dir); cbn [negb];
      [|rewrite run_bind_assoc; unfold set_fs at 1;
        rewrite run_bind_modify, run_bind_print_A];
      cbv beta; fields_A.
    all: rewrite run_bind_try.
    all: rewrite run_bind_called_A, Hc, run_bind_or_raise_A; fields_A.
    all: rewrite run_bind_called_A, Hl; fields_A.
    all: cbn [or_raise]; rewrite run_bind_raise.
    all: rewrite run_bind_assoc, run_bind_print_A; fields_A.
    all: reflexivity.
Qed.

End MainAFailure.

(** X28: [main] of the first script does not fail when the server cannot
    be reached or refuses the login.  On the short path, when connecting
    to imap.gmail.com or logging in there raises, [main] ends normally:
    the last two lines are the error of the connection and the line that
    says nothing was downloaded; no file is written and the script has
    not logged out. *)
Theorem main_reports_failed_connection_A :
  forall (bi : builtins) (srv : FetcherA.imap_server) (clk : FetcherA.clock)
         (w : MainA.state) (email answer days choice dir pw : pystr)
         (rest tty' : list pystr) (e : pystr),
    let after := (MainA.main bi srv clk w).2 in
    MainA.stdin w = email :: answer :: days :: choice :: dir :: rest ->
    MainA.tty w = pw :: tty' ->
    str_lower bi answer <> lit "n" ->
    days = [] \/ str_isdigit bi days = false ->
    choice <> lit "3" ->
    FetcherA.IMAP4_SSL srv (lit "imap.gmail.com") 993%Z = Some e
    \/ FetcherA.IMAP4_SSL srv (lit "imap.gmail.com") 993%Z = None
       /\ FetcherA.login srv email pw = Some e ->
    (MainA.main bi srv clk w).1 = Ok tt
    /\ (exists shown : list MainA.printed,
          MainA.out after
          = shown ++ [MainA.FromDownload (FetcherA.ErrorConnecting e);
                      MainA.NothingDownloaded])
    /\ Os.files (MainA.fs after) = Os.files (MainA.fs w)
    /\ (FetcherA.CallLogout ∈ MainA.calls after ->
        FetcherA.CallLogout ∈ MainA.calls w).
Proof.
  intros bi srv clk w email answer days choice dir pw rest tty' e after
         Hin Htty Hanswer Hdays Hchoice Hfail. subst after.
  assert (Hlimit : forall w' : MainA.state,
            parse_days bi days w' = (Ok None, w')).
  { intros w'. unfold parse_days.
    destruct Hdays as [-> | ->]; [done|]. by rewrite andb_false_r. }
  rewrite (main_after_answers_A bi srv clk w _ _
             (answers_gmail_A bi
                {| MainA.stdin := MainA.stdin w; MainA.tty := MainA.tty w;
                   MainA.fs := MainA.fs w;
                   MainA.out := MainA.out w ++ [MainA.Banner];
                   MainA.calls := MainA.calls w |}
                email answer days choice dir pw rest tty'
                None Hin Htty Hanswer Hlimit Hchoice)).
  cbn [MainA.email_address MainA.password MainA.imap_server MainA.imap_port
       MainA.search_criteria MainA.output_dir MainA.days_limit
       MainA.stdin MainA.tty MainA.fs MainA.out MainA.calls].
  cbv zeta.
  destruct (download_not_connected srv clk email pw (lit "imap.gmail.com")
              993%Z
              (if str_eqb choice (lit "2") then lit "UNSEEN" else lit "ALL")
              (or_default dir (lit "pdf_attachments")) None (MainA.fs w) e
              Hfail) as (made & -> & Hmade).
  cbn [fst snd truthy FetcherA.fs FetcherA.out FetcherA.calls
       MainA.fs MainA.out MainA.calls].
  split; [reflexivity|]. split; [|split].
  - match goal with
    | |- exists shown, (?pre ++ (_ <$> ?o ++ _)) ++ _ = _ =>
        exists (pre ++ (MainA.FromDownload <$> o))
    end.
    rewrite fmap_app, <- !app_assoc. reflexivity.
  - unfold Stages.start. by destruct (Os.exists_ _ _).
  - intros [Hin'|Hin']%elem_of_app; [done|]. by apply Hmade in Hin'.
Qed.

Lemma main_reports_failed_connection_A_witness :
  (MainA.main AsciiBuiltins.ascii
     {| FetcherA.IMAP4_SSL := fun _ _ => Some (lit "refused");
        FetcherA.login := fun _ _ => None;
        FetcherA.select := fun _ => None;
        FetcherA.search := fun _ => Ok (lit "OK", []);
        FetcherA.fetch := fun _ => Raise (lit "no message");
        FetcherA.logout := None |}
     Examples.clkA
     {| MainA.stdin := [lit "me@example.org"; []; []; []; []];
        MainA.tty := [lit "secret"]; MainA.fs := Examples.empty_fs;
        MainA.out := []; MainA.calls := [] |}).1
  = Ok tt.
Proof.
  apply (main_reports_failed_connection_A AsciiBuiltins.ascii
           {| FetcherA.IMAP4_SSL := fun _ _ => Some (lit "refused");
              FetcherA.login := fun _ _ => None;
              FetcherA.select := fun _ => None;
              FetcherA.search := fun _ => Ok (lit "OK", []);
              FetcherA.fetch := fun _ => Raise (lit "no message");
        FetcherA.logout := None |}
           Examples.clkA
           {| MainA.stdin := [lit "me@example.org"; []; []; []; []];
              MainA.tty := [lit "secret"]; MainA.fs := Examples.empty_fs;
              MainA.out := []; MainA.calls := [] |}
           (lit "me@example.org") [] [] [] [] (lit "secret") [] []
           (lit "refused"));
    [reflexivity | reflexivity | discriminate | left; reflexivity
    | discriminate | left; reflexivity].
Defined.

(** ** A limit in days (Fetcher B) *)

(** X29: in the second script a limit in days that counts, that is any
    number but 0, stops the run before a message is asked for.  The
    moment that many days before the run is a [datetime.datetime], which
    [AND(date_gte=...)] refuses with TypeError (or the moment is outside
    the calendar, and working it out raises OverflowError).  The run that
    got logged in prints the error, never calls [fetch] or [logout],
    writes no file and returns the empty list. *)
Theorem days_limit_stops_the_run_B :
  forall (lib : FetcherB.mail_library) (now : datetime)
         (lower : pystr -> pystr)
         (email password server output_dir folder_name : pystr)
         (only_unread : bool) (search_term : option pystr) (debug : bool)
         (fs0 : Os.filesystem) (n : Z),
    FetcherB.MailBox lib server 993%Z = None ->
    FetcherB.login lib email password folder_name = None ->
    n <> 0%Z ->
    let e :=
      match sub_days now n with
      | Some _ => lit "TypeError"
      | None => lit "OverflowError"
      end in
    FetcherB.download_pdf_attachments lib now lower email password server
      output_dir (Some n) folder_name only_unread search_term debug fs0
    = (Ok [],
       {| FetcherB.fs := FetcherB.fs (FetcherB.session_start output_dir fs0);
          FetcherB.out :=
            FetcherB.out (FetcherB.session_start output_dir fs0)
            ++ (if debug
                then [FetcherB.Connecting server email;
                      FetcherB.LoggedIn folder_name]
                else [])
            ++ [FetcherB.Error e; FetcherB.EnsureCorrect;
                FetcherB.DownloadedCount 0];
          FetcherB.calls :=
            [FetcherB.CallMailBox server 993%Z;
             FetcherB.CallLogin email password folder_name];
          FetcherB.downloaded_files := [] |}).
Proof.
  intros lib now lower email password server output_dir folder_name
         only_unread search_term debug fs0 n Hc Hl Hn e.
  apply download_no_criteria_B; [done..|].
  intros w. subst e. unfold FetcherB.build_criteria, FetcherB.truthy_int.
  rewrite (proj2 (Z.eqb_neq n 0) Hn).
  by destruct (sub_days now n).
Qed.

Lemma days_limit_stops_the_run_B_witness :
  (Examples.run_last_week_B (Some 7%Z)).1 = Ok []
  /\ FetcherB.calls (Examples.run_last_week_B (Some 7%Z)).2
     = [FetcherB.CallMailBox (lit "imap.example.org") 993%Z;
        FetcherB.CallLogin (lit "me@example.org") (lit "secret")
          (lit "INBOX")].
Proof.
  unfold Examples.run_last_week_B.
  rewrite (days_limit_stops_the_run_B Examples.lib_today Examples.noon
             ascii_lower (lit "me@example.org") (lit "secret")
             (lit "imap.example.org") (lit "out") (lit "INBOX") false None
             false Examples.empty_fs 7%Z);
    [split; reflexivity | reflexivity | reflexivity | discriminate].
Defined.
